(** * Work-hours bot: the time-accrual core, embedded and verified

    The repository holds the same bot twice:
    - [db.js] with its driver (a long-running Telegraf process over SQLite),
    - [worker.js] (a Cloudflare worker over a key-value store), present in
      two revisions that differ in the first day of the week and in the
      per-user rate.

    Part I embeds the code; Part II proves the properties of the
    specification against it. *)

From Stdlib Require Import ZArith Lia QArith Qminmax Ascii.
From stdpp Require Import gmap strings pretty list sorting.

Local Open Scope Z_scope.

(* ================================================================== *)
(** * Part I: the embedding                                            *)
(* ================================================================== *)

(** ** Effects: a world-passing monad with exceptions

    Every [async] function of the sources becomes a computation that
    threads a world [W] (the store, the messages sent so far, the console)
    and either returns or throws.  A throw keeps the writes made before it:
    neither store is transactional across calls. *)
Module Eff.

Inductive Exn := bad_rate | fetch_failed | foreign_key_failed.

Inductive Outcome (A : Type) :=
| Returned (a : A)
| Thrown (e : Exn).
Arguments Returned {A} a.
Arguments Thrown {A} e.

Definition M (W A : Type) : Type := W -> W * Outcome A.

Definition ret {W A} (a : A) : M W A := fun w => (w, Returned a).

Definition bind {W A B} (c : M W A) (k : A -> M W B) : M W B :=
  fun w => match c w with
           | (w', Returned a) => k a w'
           | (w', Thrown e) => (w', Thrown e)
           end.

Definition throw {W A} (e : Exn) : M W A := fun w => (w, Thrown e).

Definition gets {W A} (f : W -> A) : M W A := fun w => (w, Returned (f w)).

Definition modify {W} (f : W -> W) : M W unit := fun w => (f w, Returned tt).

(** [try { c } catch (err) { h err }] *)
Definition try_catch {W A} (c : M W A) (h : Exn -> M W A) : M W A :=
  fun w => match c w with
           | (w', Returned a) => (w', Returned a)
           | (w', Thrown e) => h e w'
           end.

(** [for (const x of xs) { await body(x) }] *)
Fixpoint forEach {W A} (xs : list A) (body : A -> M W unit) : M W unit :=
  match xs with
  | [] => ret tt
  | x :: xs' => bind (body x) (fun _ => forEach xs' body)
  end.

Definition world_of {W A} (r : W * Outcome A) : W := fst r.
Definition outcome_of {W A} (r : W * Outcome A) : Outcome A := snd r.

End Eff.
Export Eff.

#[global] Instance M_ret {W} : MRet (M W) := fun A => @ret W A.
#[global] Instance M_bind {W} : MBind (M W) := fun A B k c => @bind W A B c k.

(** ** The [Date] built-ins the sources call

    A [Date] is its time value, the milliseconds since the epoch, as a [Z].
    The UTC accessors follow ECMAScript: [Day(t) = floor(t / msPerDay)],
    [WeekDay(t) = (Day(t) + 4) mod 7], and year, month and date are those of
    the proleptic Gregorian calendar, computed here from the day number.
    The model is that of valid dates ([inDateRange]); outside that range
    JavaScript yields an invalid date, which the model does not represent. *)
Module JsDate.

Definition msPerDay : Z := 86400000.
Definition msPerHour : Z := 3600000.

Definition maxTime : Z := 8640000000000000.
Definition inDateRange (t : Z) : Prop := - maxTime <= t <= maxTime.

Definition Day (t : Z) : Z := t / msPerDay.

(** Day number (days since 1970-01-01) to (year, month 1..12, day 1..31). *)
Definition civil_from_days (z : Z) : Z * Z * Z :=
  let z := z + 719468 in
  let era := z / 146097 in
  let doe := z - era * 146097 in
  let yoe := (doe - doe / 1460 + doe / 36524 - doe / 146096) / 365 in
  let y := yoe + era * 400 in
  let doy := doe - (365 * yoe + yoe / 4 - yoe / 100) in
  let mp := (5 * doy + 2) / 153 in
  let d := doy - (153 * mp + 2) / 5 + 1 in
  let m := if mp <? 10 then mp + 3 else mp - 9 in
  (if m <=? 2 then y + 1 else y, m, d).

(** (year, month 1..12, day) to the day number. *)
Definition days_from_civil (y m d : Z) : Z :=
  let y := if m <=? 2 then y - 1 else y in
  let era := y / 400 in
  let yoe := y - era * 400 in
  let doy := (153 * (if 2 <? m then m - 3 else m + 9) + 2) / 5 + d - 1 in
  let doe := yoe * 365 + yoe / 4 - yoe / 100 + doy in
  era * 146097 + doe - 719468.

Definition getUTCFullYear (t : Z) : Z := let '(y, _, _) := civil_from_days (Day t) in y.
Definition getUTCMonth (t : Z) : Z := let '(_, m, _) := civil_from_days (Day t) in m - 1.
Definition getUTCDate (t : Z) : Z := let '(_, _, d) := civil_from_days (Day t) in d.
(** 0 = Sunday .. 6 = Saturday *)
Definition getUTCDay (t : Z) : Z := (Day t + 4) mod 7.
Definition getUTCHours (t : Z) : Z := (t mod msPerDay) / msPerHour.
Definition getUTCMinutes (t : Z) : Z := (t mod msPerHour) / 60000.

(** [Date.UTC(year, month, date)] for a month in 0..11 and a date of that
    month, which is what the accessors above hand to it.  A year from 0 to
    99 stands for 1900 + year, as ECMAScript prescribes. *)
Definition Date_UTC (year month date : Z) : Z :=
  let yr := if (0 <=? year) && (year <=? 99) then 1900 + year else year in
  days_from_civil yr (month + 1) date * msPerDay.

End JsDate.

(** ** Text helpers: [String(n)] is stdpp's [pretty]; [padStart(n, "0")] *)
Module Text.

Fixpoint zeros (k : nat) : string :=
  match k with
  | O => EmptyString
  | S k' => String "0"%char (zeros k')
  end.

Definition padStart0 (n : nat) (s : string) : string :=
  zeros (n - String.length s)%nat +:+ s.

Definition pad2 (n : Z) : string := padStart0 2 (pretty n).

(** Leading zeros taken off again: what undoes [padStart0]. *)
Fixpoint lstrip0 (s : string) : string :=
  match s with
  | String c r => if Ascii.eqb c "0" then lstrip0 r else s
  | EmptyString => EmptyString
  end.

(** [`${y}-${m}-${da}`] with the year already rendered *)
Definition ymd (year : string) (m d : Z) : string :=
  year +:+ "-" +:+ pad2 m +:+ "-" +:+ pad2 d.

End Text.

(* ------------------------------------------------------------------ *)
(** ** [worker.js]: the key-value variant                              *)
(* ------------------------------------------------------------------ *)
Module Worker.
Import JsDate Text.

(** The file is present in two revisions: the week starts on Sunday and the
    rate may be overridden per user, or the week starts on Monday and the
    rate is the global one. *)
Inductive Revision := SundayWeek | MondayWeek.

(** A JavaScript number, as far as the rate code inspects it. *)
Inductive JsNum := Num (q : Q) | NaN | PosInfinity | NegInfinity.

Definition Number_isFinite (v : JsNum) : bool :=
  match v with Num _ => true | _ => false end.

(** [v <= 0] *)
Definition le0 (v : JsNum) : bool :=
  match v with
  | Num q => Qle_bool q 0
  | NegInfinity => true
  | NaN | PosInfinity => false
  end.

Record Env := {
  revision : Revision;
  TZ_OFFSET_ms : Z;       (* tzOffsetHours(env) * 3600_000, a whole number of ms *)
  PAY_RATE : JsNum;       (* Number(env.PAY_RATE) *)
  ADMIN_SECRET : string;  (* env.ADMIN_SECRET || "" *)
}.

(** [Number.isFinite(v) ? v : d] *)
Definition finiteOr (v : JsNum) (d : Q) : Q :=
  match v with Num q => q | _ => d end.

Definition rate (env : Env) : Q := finiteOr (PAY_RATE env) 2.5%Q.

(** [nowLocal(env)], the clock reading [Date.now()] being the argument *)
Definition nowLocal (env : Env) (utc : Z) : Z * Z := (utc, utc + TZ_OFFSET_ms env).

Definition fmtHM (ms : Z) : string :=
  let s := Z.max 0 (ms / 1000) in
  let h := s / 3600 in
  let m := (s mod 3600) / 60 in
  pretty h +:+ "h " +:+ pretty m +:+ "m".

Definition minutes (ms : Z) : Z := Z.max 0 (ms / 60000).

Definition dollarsFromMs (ms : Z) (r : Q) : Q := ((inject_Z ms / 3600000) * r)%Q.

Definition fmtClock (ms : Z) : string :=
  pad2 (getUTCHours ms) +:+ ":" +:+ pad2 (getUTCMinutes ms).

Definition dateKeyLocal (env : Env) (localMs : Z) : string :=
  ymd (pretty (getUTCFullYear localMs)) (getUTCMonth localMs + 1) (getUTCDate localMs).

(** Start of the week holding [localMs]: Sunday 00:00 in one revision,
    Monday 00:00 in the other. *)
Definition weekStartLocal (env : Env) (localMs : Z) : Z :=
  let dow := match revision env with
             | SundayWeek => getUTCDay localMs
             | MondayWeek => (getUTCDay localMs + 6) mod 7
             end in
  let start := localMs - dow * 86400000 in
  Date_UTC (getUTCFullYear start) (getUTCMonth start) (getUTCDate start).

Definition prevLocalWeekWindow (env : Env) (localMs : Z) : Z * Z :=
  let anchor := localMs - 12 * 3600000 in
  let start := weekStartLocal env anchor in
  let end_ := start + 7 * 86400000 in
  (start, end_).

(** The key of the week holding [localMs], as [scheduled] and the export
    file name build it: [dateKeyLocal(env, start)]. *)
Definition weekKeyLocal (env : Env) (localMs : Z) : string :=
  dateKeyLocal env (weekStartLocal env localMs).

(** *** The store

    The KV namespace maps string keys to JSON texts.  The five key shapes
    the code builds are kept apart as five typed maps:
    [u:<user>:open], [d:<user>:<day>], [meta:<user>], [cfg:<user>] and
    [weeklylock:<date>], the last with the instant its TTL runs out.  User
    ids are decimal renderings of Telegram ids, so the key shapes never
    collide.  The [throttle:<chat>] bookkeeping of the send helpers is not
    part of the ledger and is left out. *)
Record Session := { inUtcMs : Z; outUtcMs : option Z }.
Record DayRec := { sessions : list Session; totalMs : Z }.
Record OpenRec := { startUtcMs : Z }.
Record Meta := { chats : list Z }.
Record Cfg := { cfg_rate : option JsNum }.

Record KV := {
  kOpen : gmap string OpenRec;
  kDay : gmap (string * string) DayRec;
  kMeta : gmap string Meta;
  kCfg : gmap string Cfg;
  kLock : gmap string Z;
}.

Definition emptyKV : KV :=
  {| kOpen := ∅; kDay := ∅; kMeta := ∅; kCfg := ∅; kLock := ∅ |}.

Definition with_kOpen (f : gmap string OpenRec -> gmap string OpenRec) (kv : KV) : KV :=
  {| kOpen := f (kOpen kv); kDay := kDay kv; kMeta := kMeta kv; kCfg := kCfg kv; kLock := kLock kv |}.
Definition with_kDay (f : gmap (string * string) DayRec -> gmap (string * string) DayRec) (kv : KV) : KV :=
  {| kOpen := kOpen kv; kDay := f (kDay kv); kMeta := kMeta kv; kCfg := kCfg kv; kLock := kLock kv |}.
Definition with_kMeta (f : gmap string Meta -> gmap string Meta) (kv : KV) : KV :=
  {| kOpen := kOpen kv; kDay := kDay kv; kMeta := f (kMeta kv); kCfg := kCfg kv; kLock := kLock kv |}.
Definition with_kCfg (f : gmap string Cfg -> gmap string Cfg) (kv : KV) : KV :=
  {| kOpen := kOpen kv; kDay := kDay kv; kMeta := kMeta kv; kCfg := f (kCfg kv); kLock := kLock kv |}.
Definition with_kLock (f : gmap string Z -> gmap string Z) (kv : KV) : KV :=
  {| kOpen := kOpen kv; kDay := kDay kv; kMeta := kMeta kv; kCfg := kCfg kv; kLock := f (kLock kv) |}.

(** *** Replies and the Telegram collaborator

    A reply is the template the code fills, with its interpolated values
    as fields.  A call to the Bot API either comes back (accepted or
    refused by Telegram: [tgCall] hands the answer to a caller that does
    not look at it) or [fetch] itself rejects, which nothing in [tgCall]
    catches. *)
Inductive Msg :=
| AlreadyClockedIn (since : string)
| ClockedIn (at_ : string)
| NotClockedIn
| ClockedOut (at_ session today : string)
| Today (total : string) (mins : Z)
| ThisWeek (total : string) (mins : Z) (r pay : Q) (lines : list string)
| WeekTotal (total : string) (mins : Z) (r pay : Q)
| WeeklySummary (total : string) (mins : Z) (r pay : Q).

Inductive Payload :=
| Text (m : Msg)
| Document (filename : string) (rows : list (list string)).

Inductive Delivery := Accepted | Refused | Unreachable.

Definition Net : Type := Z -> Payload -> Delivery.

Record Call := { to : Z; payload : Payload; accepted : bool }.

Record World := { store : KV; outbox : list Call }.

Definition on_store (f : KV -> KV) (w : World) : World :=
  {| store := f (store w); outbox := outbox w |}.

Definition tgCall (net : Net) (chat_id : Z) (p : Payload) : M World unit :=
  fun w => match net chat_id p with
           | Unreachable => (w, Thrown fetch_failed)
           | Accepted => ({| store := store w; outbox := outbox w ++ [{| to := chat_id; payload := p; accepted := true |}] |}, Returned tt)
           | Refused => ({| store := store w; outbox := outbox w ++ [{| to := chat_id; payload := p; accepted := false |}] |}, Returned tt)
           end.

Definition sendMessage (net : Net) (chat_id : Z) (text : Msg) : M World unit :=
  tgCall net chat_id (Text text).

Definition sendDocument (net : Net) (chat_id : Z) (filename : string) (content : list (list string)) : M World unit :=
  tgCall net chat_id (Document filename content).

(** *** KV accessors ([getJSON], [putJSON], [delete], [list]) *)
Definition getOpen (userId : string) : M World (option OpenRec) :=
  gets (fun w => kOpen (store w) !! userId).
Definition putOpen (userId : string) (o : OpenRec) : M World unit :=
  modify (on_store (with_kOpen (insert userId o))).
Definition deleteOpen (userId : string) : M World unit :=
  modify (on_store (with_kOpen (delete userId))).

Definition getDay (userId day : string) : M World (option DayRec) :=
  gets (fun w => kDay (store w) !! (userId, day)).
Definition putDay (userId day : string) (rec : DayRec) : M World unit :=
  modify (on_store (with_kDay (insert (userId, day) rec))).
Definition deleteDay (userId day : string) : M World unit :=
  modify (on_store (with_kDay (delete (userId, day)))).

Definition getMeta (userId : string) : M World (option Meta) :=
  gets (fun w => kMeta (store w) !! userId).
Definition putMeta (userId : string) (m : Meta) : M World unit :=
  modify (on_store (with_kMeta (insert userId m))).
(** [HOURS.list({ prefix: "meta:" })], all pages: the user ids under the
    prefix, in the lexicographic order of the keys. *)
Definition listMeta : M World (list string) :=
  gets (fun w => merge_sort String.le (elements (dom (kMeta (store w))))).

Definition getCfg (userId : string) : M World Cfg :=
  gets (fun w => default {| cfg_rate := None |} (kCfg (store w) !! userId)).
Definition putCfg (userId : string) (cfg : Cfg) : M World unit :=
  modify (on_store (with_kCfg (insert userId cfg))).

(** A lock key is read back until its TTL has run out. *)
Definition lockHeld (kv : KV) (lockKey : string) (now : Z) : bool :=
  match kLock kv !! lockKey with
  | Some expiry => now <? expiry
  | None => false
  end.
Definition getLock (lockKey : string) (now : Z) : M World bool :=
  gets (fun w => lockHeld (store w) lockKey now).
Definition putLock (lockKey : string) (expiry : Z) : M World unit :=
  modify (on_store (with_kLock (insert lockKey expiry))).

(** [open?.startUtcMs] when truthy *)
Definition openStart (open : option OpenRec) : option Z :=
  match open with
  | Some o => if startUtcMs o =? 0 then None else Some (startUtcMs o)
  | None => None
  end.

Definition ensureUserChat (userId : string) (chatId : Z) : M World unit :=
  m ← getMeta userId;
  let m := default {| chats := [] |} m in
  if bool_decide (chatId ∈ chats m) then mret tt
  else putMeta userId {| chats := chats m ++ [chatId] |}.

(** *** Rates *)
Definition userRate (env : Env) (userId : string) : M World Q :=
  cfg ← getCfg userId;
  let r := default NaN (cfg_rate cfg) in
  mret (finiteOr r (rate env)).

Definition setUserRate (env : Env) (userId : string) (newRate : JsNum) : M World JsNum :=
  let v := newRate in
  if negb (Number_isFinite v) || le0 v then throw bad_rate
  else
    cfg ← getCfg userId;
    putCfg userId {| cfg_rate := Some v |};;
    mret v.

(** The rate a report is priced at: [userRate] where the revision has it. *)
Definition reportRate (env : Env) (userId : string) : M World Q :=
  match revision env with
  | SundayWeek => userRate env userId
  | MondayWeek => mret (rate env)
  end.

(** *** Commands.  The clock reading [Date.now()] is the argument [now]. *)
Definition emptyDay : DayRec := {| sessions := []; totalMs := 0 |}.

Definition cmdIn (env : Env) (net : Net) (now : Z) (chatId : Z) (userId : string) : M World unit :=
  open ← getOpen userId;
  let '(utcMs, localMs) := nowLocal env now in
  match openStart open with
  | Some startUtcMs =>
      let startedLocal := startUtcMs + TZ_OFFSET_ms env in
      sendMessage net chatId (AlreadyClockedIn (fmtClock startedLocal))
  | None =>
      putOpen userId {| startUtcMs := utcMs |};;
      let dayKey := dateKeyLocal env localMs in
      rec ← getDay userId dayKey;
      let rec := default emptyDay rec in
      putDay userId dayKey
        {| sessions := sessions rec ++ [{| inUtcMs := utcMs; outUtcMs := None |}];
           totalMs := totalMs rec |};;
      sendMessage net chatId (ClockedIn (fmtClock localMs))
  end.

(** The first session without an end gets one; the loop of [cmdOut] that
    uses it walks the list from its last element. *)
Fixpoint closeFirst (utcMs : Z) (l : list Session) : list Session :=
  match l with
  | [] => []
  | s :: l' =>
      match outUtcMs s with
      | None => {| inUtcMs := inUtcMs s; outUtcMs := Some utcMs |} :: l'
      | Some _ => s :: closeFirst utcMs l'
      end
  end.

Definition closeLast (utcMs : Z) (l : list Session) : list Session :=
  rev (closeFirst utcMs (rev l)).

Definition cmdOut (env : Env) (net : Net) (now : Z) (chatId : Z) (userId : string) : M World unit :=
  open ← getOpen userId;
  match openStart open with
  | None => sendMessage net chatId NotClockedIn
  | Some startUtcMs =>
      let '(utcMs, localMs) := nowLocal env now in
      let delta := utcMs - startUtcMs in
      let dayKey := dateKeyLocal env localMs in
      rec ← getDay userId dayKey;
      let rec := default emptyDay rec in
      let rec := {| sessions := closeLast utcMs (sessions rec);
                    totalMs := totalMs rec + delta |} in
      putDay userId dayKey rec;;
      deleteOpen userId;;
      sendMessage net chatId
        (ClockedOut (fmtClock localMs) (fmtHM delta) (fmtHM (totalMs rec)))
  end.

(** The value of [total] when [cmdToday] formats it. *)
Definition todayTotal (env : Env) (now : Z) (userId : string) : M World Z :=
  let '(utcMs, localMs) := nowLocal env now in
  let dayKey := dateKeyLocal env localMs in
  rec ← getDay userId dayKey;
  let total := from_option totalMs 0 rec in
  open ← getOpen userId;
  match openStart open with
  | Some startUtcMs => mret (total + (utcMs - startUtcMs))
  | None => mret total
  end.

Definition cmdToday (env : Env) (net : Net) (now : Z) (chatId : Z) (userId : string) : M World unit :=
  total ← todayTotal env now userId;
  sendMessage net chatId (Today (fmtHM total) (minutes total)).

(** The loop [for (let i = 0; i < 7; i++)] of [cmdWeek] and [cmdPay],
    which only reads: the per-day figures [t] in order. *)
Definition weekDayTotals (env : Env) (kv : KV) (now : Z) (userId : string) : list (string * Z) :=
  let '(utcMs, localMs) := nowLocal env now in
  let todayKey := dateKeyLocal env localMs in
  let start := weekStartLocal env localMs in
  (fun i =>
     let dayMs := start + i * 86400000 in
     let keyDay := dateKeyLocal env dayMs in
     let t := from_option totalMs 0 (kDay kv !! (userId, keyDay)) in
     let t := if bool_decide (keyDay = todayKey)
              then match openStart (kOpen kv !! userId) with
                   | Some startUtcMs => t + (utcMs - startUtcMs)
                   | None => t
                   end
              else t in
     (keyDay, t)) <$> seqZ 0 7.

Definition sumZ (l : list Z) : Z := foldr Z.add 0 l.

(** The value of [total] when [cmdWeek] and [cmdPay] format it. *)
Definition weekTotal (env : Env) (now : Z) (userId : string) : M World Z :=
  kv ← gets store;
  mret (sumZ (snd <$> weekDayTotals env kv now userId)).

Definition cmdWeek (env : Env) (net : Net) (now : Z) (chatId : Z) (userId : string) : M World unit :=
  kv ← gets store;
  let days := weekDayTotals env kv now userId in
  let total := sumZ (snd <$> days) in
  let lines := (fun '(keyDay, t) => keyDay +:+ ": " +:+ fmtHM t) <$> days in
  r ← reportRate env userId;
  sendMessage net chatId
    (ThisWeek (fmtHM total) (minutes total) r (dollarsFromMs total r) lines).

Definition cmdPay (env : Env) (net : Net) (now : Z) (chatId : Z) (userId : string) : M World unit :=
  kv ← gets store;
  let total := sumZ (snd <$> weekDayTotals env kv now userId) in
  r ← reportRate env userId;
  sendMessage net chatId
    (WeekTotal (fmtHM total) (minutes total) r (dollarsFromMs total r)).

(** *** The weekly runner (cron and admin route) *)

(** The loop [for (let i = 0; i < 7; i++)] of [runWeekly], which only
    reads: the sum of the seven stored totals and the CSV rows below the
    header. *)
Definition weekRows (env : Env) (kv : KV) (userId : string) (start : Z) : list (Z * list string) :=
  (fun i =>
     let dayMs := start + i * 86400000 in
     let dayKey := dateKeyLocal env dayMs in
     let rec := kDay kv !! (userId, dayKey) in
     let t := from_option totalMs 0 rec in
     (t, [dayKey; pretty (Z.of_nat (from_option (fun r => length (sessions r)) O rec));
          fmtHM t; pretty (minutes t)])) <$> seqZ 0 7.

Definition csvHeader : list string := ["Date"; "Sessions"; "Total (h:m)"; "Minutes"].

(** [Math.max(0, Math.min(utcMs, end) - open.startUtcMs)] *)
Definition runningExtra (utcMs end_ startUtcMs : Z) : Z :=
  Z.max 0 (Z.min utcMs end_ - startUtcMs).

(** The values of [total] and [rows] once the running session is counted. *)
Definition weekReport (env : Env) (kv : KV) (userId : string) (utcMs start end_ : Z) : Z * list (list string) :=
  let days := weekRows env kv userId start in
  let total := sumZ (fst <$> days) in
  let rows := csvHeader :: (snd <$> days) in
  match openStart (kOpen kv !! userId) with
  | Some startUtcMs =>
      let extra := runningExtra utcMs end_ startUtcMs in
      if 0 <? extra then
        let lastIdx := (length rows - 1)%nat in
        (total + extra, alter (alter (fun c => c +:+ " (+running)") 2%nat) lastIdx rows)
      else (total, rows)
  | None => (total, rows)
  end.

(** The instants [ms] the loop of [deleteWeekRange] visits:
    [for (let ms = startUtcMs; ms < endUtcMs; ms += 86400_000)]. *)
Definition dayStarts (startUtcMs endUtcMs : Z) : list Z :=
  (fun i => startUtcMs + i * 86400000) <$> seqZ 0 ((endUtcMs - startUtcMs + 86399999) / 86400000).

Definition deleteWeekRange (env : Env) (userId : string) (startUtcMs endUtcMs : Z) : M World unit :=
  forEach (dayStarts startUtcMs endUtcMs) (fun ms =>
    let dayKey := dateKeyLocal env ms in
    deleteDay userId dayKey);;
  deleteOpen userId.

(** The body of the loop over the listed users. *)
Definition runWeeklyUser (env : Env) (net : Net) (utcMs start end_ : Z) (userId : string) : M World unit :=
  meta ← getMeta userId;
  let meta := default {| chats := [] |} meta in
  match chats meta with
  | [] => mret tt
  | _ :: _ =>
      kv ← gets store;
      let '(total, rows) := weekReport env kv userId utcMs start end_ in
      r ← reportRate env userId;
      let mins := minutes total in
      let pay := dollarsFromMs total r in
      let summary := WeeklySummary (fmtHM total) mins r pay in
      let fname := "workweek_" +:+ dateKeyLocal env start +:+ ".csv" in
      forEach (chats meta) (fun chatId =>
        sendMessage net chatId summary;;
        sendDocument net chatId fname rows);;
      deleteWeekRange env userId start end_
  end.

Definition runWeekly (env : Env) (net : Net) (now : Z) : M World unit :=
  let '(utcMs, localMs) := nowLocal env now in
  let '(start, end_) := prevLocalWeekWindow env localMs in
  users ← listMeta;
  forEach users (runWeeklyUser env net utcMs start end_).

(** [ctx.waitUntil(promise)]: the work is carried out, and a rejection does
    not reach the handler that registered it. *)
Definition waitUntil (c : M World unit) : M World unit :=
  try_catch c (fun _ => mret tt).

Definition lockTtlMs : Z := 3 * 3600 * 1000.

Definition scheduled (env : Env) (net : Net) (now : Z) : M World unit :=
  let '(_, localMs) := nowLocal env now in
  let '(start, _) := prevLocalWeekWindow env localMs in
  let lockKey := dateKeyLocal env start in
  getLock lockKey now ≫= fun held : bool =>
  if held then mret tt
  else
    putLock lockKey (now + lockTtlMs);;
    waitUntil (runWeekly env net now).

(** The route [GET /admin/run-weekly?secret=...] of [fetch]. *)
Inductive Response := Resp (status : Z) (body : string).

Definition fetchAdminRunWeekly (env : Env) (net : Net) (now : Z) (secret : option string) : M World Response :=
  let ok := negb (bool_decide (ADMIN_SECRET env = EmptyString))
            && bool_decide (secret = Some (ADMIN_SECRET env)) in
  if negb ok then mret (Resp 401 "unauthorized")
  else
    runWeekly env net now;;
    mret (Resp 200 "weekly ok").

(** *** What the claims count *)

(** Open-session markers of a user: the key [u:<user>:open] holds a record
    with a start, or it does not. *)
Definition countOpenSessions (kv : KV) (userId : string) : nat :=
  match openStart (kOpen kv !! userId) with Some _ => 1%nat | None => 0%nat end.

Inductive Command := DoIn (userId : string) | DoOut (userId : string).

Definition runCommand (env : Env) (net : Net) (chatId : Z) (c : Command * Z) : M World unit :=
  match c with
  | (DoIn u, now) => cmdIn env net now chatId u
  | (DoOut u, now) => cmdOut env net now chatId u
  end.

(** *** The worker as a state machine

    The functions through which the webhook, the admin route and the cron
    trigger read and write the store.  Each is taken with any arguments,
    at any clock reading and with any behaviour of Telegram. *)
Inductive Action :=
| ActRegister (userId : string) (chatId : Z)
| ActIn (chatId : Z) (userId : string)
| ActOut (chatId : Z) (userId : string)
| ActToday (chatId : Z) (userId : string)
| ActWeek (chatId : Z) (userId : string)
| ActPay (chatId : Z) (userId : string)
| ActSetRate (userId : string) (newRate : JsNum)
| ActAdminRun (secret : option string)
| ActCron.

Definition perform (env : Env) (net : Net) (now : Z) (a : Action) : M World unit :=
  match a with
  | ActRegister u c => ensureUserChat u c
  | ActIn c u => cmdIn env net now c u
  | ActOut c u => cmdOut env net now c u
  | ActToday c u => cmdToday env net now c u
  | ActWeek c u => cmdWeek env net now c u
  | ActPay c u => cmdPay env net now c u
  | ActSetRate u v => setUserRate env u v ≫= fun _ : JsNum => mret tt
  | ActAdminRun secret => fetchAdminRunWeekly env net now secret ≫= fun _ : Response => mret tt
  | ActCron => scheduled env net now
  end.

(** The namespace before the first request. *)
Definition initial : World := {| store := emptyKV; outbox := [] |}.

(** The worlds the worker gets to from the empty namespace; the world
    after an action that threw is the one it had reached. *)
Inductive produced (env : Env) : World -> Prop :=
| produced_initial : produced env initial
| produced_step net now a w :
    produced env w -> produced env (fst (perform env net now a w)).

End Worker.

(* ------------------------------------------------------------------ *)
(** ** [db.js] and its driver: the SQLite variant                      *)
(* ------------------------------------------------------------------ *)
Module Db.
Import Eff JsDate Text.

(** *** dayjs, as far as [db.js] uses it

    [dayjs.unix(ts)] reads the instant in the zone of the process; the zone
    is a fixed offset [tz] from UTC, in seconds.  [format('YYYY-MM-DD')]
    pads the year to four digits; [isoWeekday(1)] is
    [this.day(this.day() % 7 ? 1 : 1 - 7)], and the setter [day(n)] moves the
    date by [n - this.day()] days. *)
Definition localDay (tz ts : Z) : Z := (ts + tz) / 86400.

(** [getDay()]: 0 = Sunday .. 6 = Saturday *)
Definition weekday (day : Z) : Z := (day + 4) mod 7.

Definition formatDate (day : Z) : string :=
  let '(y, m, d) := civil_from_days day in
  ymd (padStart0 4 (pretty y)) m d.

Definition formatHHmm (tz ts : Z) : string :=
  pad2 (((ts + tz) mod 86400) / 3600) +:+ ":" +:+ pad2 (((ts + tz) mod 3600) / 60).

Definition isoWeekday1 (day : Z) : Z :=
  let W := weekday day in
  let input := if W mod 7 =? 0 then 1 - 7 else 1 in
  day + (input - W).

Definition isoMonday (tz ts : Z) : string := formatDate (isoWeekday1 (localDay tz ts)).
Definition dayKey (tz ts : Z) : string := formatDate (localDay tz ts).

(** *** Tables

    [users] keeps the ids (the name columns play no part in the ledger);
    [seq] is the AUTOINCREMENT counter of [shifts]. *)
Record Shift := {
  id : Z;
  user_id : Z;
  start_ts : Z;
  end_ts : option Z;
  day_key : string;
  week_key : string;
}.

Record DB := { users : list Z; shifts : list Shift; seq : Z }.

Definition emptyDB : DB := {| users := []; shifts := []; seq := 0 |}.

(** [user_id] is the INTEGER PRIMARY KEY of [users]: the table is walked
    in ascending order of the ids, whatever order they were inserted in. *)
Fixpoint insertUser (from : Z) (l : list Z) : list Z :=
  match l with
  | [] => [from]
  | y :: l' => if from <? y then from :: y :: l' else y :: insertUser from l'
  end.

Definition upsertUser (from : Z) (db : DB) : DB :=
  if bool_decide (from ∈ users db) then db
  else {| users := insertUser from (users db); shifts := shifts db; seq := seq db |}.

Definition isOpenOf (userId : Z) (s : Shift) : bool :=
  (user_id s =? userId) && match end_ts s with None => true | Some _ => false end.

(** [SELECT * FROM shifts WHERE user_id = ? AND end_ts IS NULL
     ORDER BY id DESC LIMIT 1] *)
Definition getOpenShift (db : DB) (userId : Z) : option Shift :=
  foldl (fun best s =>
           if isOpenOf userId s then
             match best with
             | Some b => if id b <? id s then Some s else Some b
             | None => Some s
             end
           else best) None (shifts db).

(** The row that [INSERT INTO shifts (user_id, start_ts, end_ts, day_key,
    week_key) VALUES (?, ?, NULL, ?, ?)] adds. *)
Definition insertShift (userId start : Z) (day week : string) (db : DB) : DB :=
  let newId := seq db + 1 in
  {| users := users db;
     shifts := shifts db ++ [{| id := newId; user_id := userId; start_ts := start;
                                end_ts := None; day_key := day; week_key := week |}];
     seq := newId |}.

(** [startShiftStmt.run(...)].  [shifts.user_id] REFERENCES
    [users(user_id)] and better-sqlite3 opens a database with foreign keys
    enforced: for a user without a row in [users] the statement throws
    (FOREIGN KEY constraint failed) and inserts nothing. *)
Definition startShift (userId start : Z) (day week : string) : M DB unit :=
  fun db =>
    if bool_decide (userId ∈ users db)
    then (insertShift userId start day week db, Returned tt)
    else (db, Thrown foreign_key_failed).

(** [UPDATE shifts SET end_ts = ? WHERE id = ?] *)
Definition endShift (endTs shiftId : Z) (db : DB) : DB :=
  {| users := users db;
     shifts := (fun s => if id s =? shiftId
                         then {| id := id s; user_id := user_id s; start_ts := start_ts s;
                                 end_ts := Some endTs; day_key := day_key s; week_key := week_key s |}
                         else s) <$> shifts db;
     seq := seq db |}.

(** Hours are doubles in the source; here they are the rationals that the
    doubles stand for, without the rounding of the division and the sum. *)
Definition durationHours (startTs endTs : Z) : Q :=
  Qmax 0 (inject_Z (endTs - startTs) / 3600).

Inductive Reply :=
| AlreadyClockedIn
| ClockedInAt (hhmm : string)
| NoActiveShift
| ClockedOutAt (hhmm : string) (hours : Q).

Record Result := { ok : bool; message : Reply }.

Definition clockIn (tz : Z) (userId nowTs : Z) : M DB Result :=
  fun db =>
    match getOpenShift db userId with
    | Some _ => (db, Returned {| ok := false; message := AlreadyClockedIn |})
    | None =>
        match startShift userId nowTs (dayKey tz nowTs) (isoMonday tz nowTs) db with
        | (db', Returned _) =>
            (db', Returned {| ok := true; message := ClockedInAt (formatHHmm tz nowTs) |})
        | (db', Thrown e) => (db', Thrown e)
        end
    end.

Definition clockOut (tz : Z) (userId nowTs : Z) (db : DB) : DB * Result :=
  match getOpenShift db userId with
  | None => (db, {| ok := false; message := NoActiveShift |})
  | Some open =>
      let db' := endShift nowTs (id open) db in
      let hours := durationHours (start_ts open) nowTs in
      (db', {| ok := true; message := ClockedOutAt (formatHHmm tz nowTs) hours |})
  end.

(** [CASE WHEN end_ts IS NOT NULL THEN (end_ts - start_ts)/3600.0 ELSE 0 END],
    as the rational that the double of the source stands for. *)
Definition closedHours (s : Shift) : Q :=
  match end_ts s with
  | Some e => inject_Z (e - start_ts s) / 3600
  | None => 0
  end.

Definition sumQ (l : list Q) : Q := foldr Qplus 0%Q l.

(** [SELECT SUM(...) FROM shifts WHERE user_id = ? AND day_key = ?]; the
    caller turns the NULL of an empty selection into 0. *)
Definition sumDay (db : DB) (userId : Z) (day : string) : Q :=
  sumQ (closedHours <$> filter (fun s => user_id s = userId /\ day_key s = day) (shifts db)).

Definition sumWeek (db : DB) (userId : Z) (week : string) : Q :=
  sumQ (closedHours <$> filter (fun s => user_id s = userId /\ week_key s = week) (shifts db)).

Definition getTodayHours (tz : Z) (userId nowTs : Z) (db : DB) : Q :=
  let today := dayKey tz nowTs in
  sumDay db userId today.

Definition getWeekHours (tz : Z) (userId nowTs : Z) (db : DB) : Q * string :=
  let week := isoMonday tz nowTs in
  (sumWeek db userId week, week).

(** [DELETE FROM shifts WHERE user_id = ? AND day_key = ?], with the number
    of rows it removed ([.changes]) *)
Definition deleteDay (userId : Z) (day : string) (db : DB) : DB * Z :=
  let gone := filter (fun s => user_id s = userId /\ day_key s = day) (shifts db) in
  ({| users := users db;
      shifts := filter (fun s => ~ (user_id s = userId /\ day_key s = day)) (shifts db);
      seq := seq db |}, Z.of_nat (length gone)).

Definition deleteWeek (userId : Z) (week : string) (db : DB) : DB * Z :=
  let gone := filter (fun s => user_id s = userId /\ week_key s = week) (shifts db) in
  ({| users := users db;
      shifts := filter (fun s => ~ (user_id s = userId /\ week_key s = week)) (shifts db);
      seq := seq db |}, Z.of_nat (length gone)).

Definition resetDay (tz : Z) (userId nowTs : Z) (db : DB) : DB * Z :=
  let today := dayKey tz nowTs in
  deleteDay userId today db.

Definition resetWeek (tz : Z) (userId nowTs : Z) (db : DB) : DB * Z :=
  let week := isoMonday tz nowTs in
  deleteWeek userId week db.

(** [ORDER BY start_ts ASC]: rows with the same [start_ts] stay in the order
    the table yields them in, that of their ids. *)
Fixpoint insertByStart (s : Shift) (l : list Shift) : list Shift :=
  match l with
  | [] => [s]
  | r :: l' => if start_ts s <? start_ts r then s :: r :: l' else r :: insertByStart s l'
  end.

Definition orderByStart (l : list Shift) : list Shift :=
  foldl (fun sorted s => insertByStart s sorted) [] l.

(** [SELECT id, day_key, start_ts, end_ts FROM shifts
     WHERE user_id = ? AND week_key = ? ORDER BY start_ts ASC] *)
Definition listWeek (db : DB) (userId : Z) (week : string) : list Shift :=
  orderByStart (filter (fun s => user_id s = userId /\ week_key s = week) (shifts db)).

(** A line of the export below its header [id,day,start,end,hours]; the two
    instants are kept as numbers, their rendering is left out. *)
Record CsvRow := {
  csv_id : Z; csv_day : string; csv_start : Z; csv_end : option Z; csv_hours : Q
}.

(** [r.end_ts ? ... : ...] *)
Definition truthyEnd (s : Shift) : option Z :=
  match end_ts s with
  | Some e => if e =? 0 then None else Some e
  | None => None
  end.

Definition exportWeekCSV (tz : Z) (userId nowTs : Z) (db : DB) : string * list CsvRow :=
  let week := isoMonday tz nowTs in
  let rows := listWeek db userId week in
  (week, (fun r => {| csv_id := id r; csv_day := day_key r; csv_start := start_ts r;
                      csv_end := truthyEnd r;
                      csv_hours := match truthyEnd r with
                                   | Some e => durationHours (start_ts r) e
                                   | None => 0
                                   end |}) <$> rows).

(** Shifts of a user that have no end. *)
Definition countOpenSessions (db : DB) (userId : Z) : nat :=
  length (filter (fun s => isOpenOf userId s = true) (shifts db)).

(** *** The ledger as a state machine *)
Inductive Op :=
| OpClockIn (userId nowTs : Z)
| OpClockOut (userId nowTs : Z)
| OpResetDay (userId nowTs : Z)
| OpResetWeek (userId nowTs : Z)
| OpUpsertUser (from : Z).

Definition step (tz : Z) (op : Op) (db : DB) : DB :=
  match op with
  | OpClockIn u t => fst (clockIn tz u t db)
  | OpClockOut u t => fst (clockOut tz u t db)
  | OpResetDay u t => fst (resetDay tz u t db)
  | OpResetWeek u t => fst (resetWeek tz u t db)
  | OpUpsertUser u => upsertUser u db
  end.

Inductive reachable (tz : Z) : DB -> Prop :=
| reach_empty : reachable tz emptyDB
| reach_step op db : reachable tz db -> reachable tz (step tz op db).

(** The states passed through by a sequence of operations. *)
Fixpoint trace (tz : Z) (ops : list Op) (db : DB) : list DB :=
  match ops with
  | [] => [db]
  | op :: ops' => db :: trace tz ops' (step tz op db)
  end.

End Db.

(** ** The driver of the SQLite variant: the weekly cron job *)
Module Bot.
Import Db.

Definition HOURLY_RATE : Q := 2.5.
Definition weeklyPay (hours : Q) : Q := (hours * HOURLY_RATE)%Q.

Inductive Payload :=
| Summary (weekKey : string) (hours pay : Q)
| Csv (filename : string) (rows : list CsvRow).

Inductive LogLine := LogSent | LogError (e : Exn).

Record World := { db : DB; outbox : list (Z * Payload); console : list LogLine }.

(** Telegraf's [bot.telegram] calls resolve, or reject when the request
    fails or the Bot API refuses it. *)
Definition Telegram : Type := Z -> Payload -> bool.

Definition telegramSend (tg : Telegram) (chat : Z) (p : Payload) : M World unit :=
  fun w => if tg chat p
           then ({| db := db w; outbox := outbox w ++ [(chat, p)]; console := console w |}, Returned tt)
           else (w, Thrown fetch_failed).

Definition consoleLog (l : LogLine) : M World unit :=
  modify (fun w => {| db := db w; outbox := outbox w; console := console w ++ [l] |}).

(** The body of the loop of the cron callback. *)
Definition cronUser (tz : Z) (tg : Telegram) (now : Z) (userId : Z) : M World unit :=
  d ← gets db;
  let '(hours, weekKey) := getWeekHours tz userId now d in
  let pay := weeklyPay hours in
  telegramSend tg userId (Summary weekKey hours pay);;
  let '(_, csv) := exportWeekCSV tz userId now d in
  let filename := "workweek_" +:+ weekKey +:+ ".csv" in
  telegramSend tg userId (Csv filename csv).

(** The callback of [cron.schedule('0 23 * * 0', ...)]; [now] is
    [Math.floor(Date.now() / 1000)]. *)
Definition cronWeekly (tz : Z) (tg : Telegram) (now : Z) : M World unit :=
  try_catch
    (us ← gets (fun w => users (db w));
     forEach us (cronUser tz tg now);;
     consoleLog LogSent)
    (fun err => consoleLog (LogError err)).

End Bot.

(* ------------------------------------------------------------------ *)
(** ** Vocabulary of the specification                                 *)
(* ------------------------------------------------------------------ *)
Module Spec.
Import JsDate.

(** The first day of the week of a revision, as a [getUTCDay] value. *)
Definition weekStartDay (env : Worker.Env) : Z :=
  match Worker.revision env with Worker.SundayWeek => 0 | Worker.MondayWeek => 1 end.

(** [s] is a local midnight that opens a week (local milliseconds). *)
Definition isWeekStart (env : Worker.Env) (s : Z) : Prop :=
  s mod msPerDay = 0 /\ getUTCDay s = weekStartDay env.

(** The instants of the seven-day window that [s] opens. *)
Definition inWindow (s t : Z) : Prop := s <= t < s + 7 * msPerDay.

(** Windows that lie after the epoch and inside the range of [Date], with
    a week to spare on either side. *)
Definition windowInRange (s : Z) : Prop :=
  7 * msPerDay <= s <= maxTime - 7 * msPerDay.

(** The same for the SQLite variant, in Unix seconds and the zone [tz]:
    [s] is the instant of a local Monday midnight. *)
Definition isIsoWeekStart (tz s : Z) : Prop :=
  (s + tz) mod 86400 = 0 /\ Db.weekday (Db.localDay tz s) = 1.

Definition inIsoWindow (s t : Z) : Prop := s <= t < s + 7 * 86400.

Definition isoWindowInRange (s : Z) : Prop :=
  - 8640000000000 + 7 * 86400 <= s <= 8640000000000 - 7 * 86400.

(** One step of the selection of [getOpenShift]: the open shift of the user
    with the greatest id seen so far. *)
Definition pickOpen (userId : Z) (best : option Db.Shift) (s : Db.Shift) : option Db.Shift :=
  if Db.isOpenOf userId s then
    match best with
    | Some b => if Db.id b <? Db.id s then Some s else Some b
    | None => Some s
    end
  else best.

(** What the rows of [shifts] keep true: ids given once, from 1 up to the
    counter, and the two keys of a row are those of its start instant. *)
Definition ledgerOk (tz : Z) (db : Db.DB) : Prop :=
  NoDup (Db.id <$> Db.shifts db)
  /\ Forall (fun r => 0 < Db.id r <= Db.seq db
                      /\ Db.day_key r = Db.dayKey tz (Db.start_ts r)
                      /\ Db.week_key r = Db.isoMonday tz (Db.start_ts r)) (Db.shifts db)
  /\ NoDup (Db.users db).

(** The store that [deleteWeekRange] leaves: the day keys of the visited
    instants are deleted one after the other, then the open marker. *)
Definition clearDays (env : Worker.Env) (userId : string) (visited : list Z) (kv : Worker.KV) : Worker.KV :=
  foldl (fun kv ms => Worker.with_kDay (delete (userId, Worker.dateKeyLocal env ms)) kv) kv visited.

Definition clearWeek (env : Worker.Env) (userId : string) (startUtcMs endUtcMs : Z) (kv : Worker.KV) : Worker.KV :=
  Worker.with_kOpen (delete userId) (clearDays env userId (Worker.dayStarts startUtcMs endUtcMs) kv).

Section CommandStores.
Import Worker.

(** The store a clock-in leaves when no session is open. *)
Definition clockedIn (env : Env) (now : Z) (u : string) (kv : KV) : KV :=
  let dayKey := dateKeyLocal env (now + TZ_OFFSET_ms env) in
  let rec := default emptyDay (kDay kv !! (u, dayKey)) in
  with_kDay (insert (u, dayKey)
               {| sessions := sessions rec ++ [{| inUtcMs := now; outUtcMs := None |}];
                  totalMs := totalMs rec |})
    (with_kOpen (insert u {| startUtcMs := now |}) kv).

(** The store a clock-out leaves when a session is open. *)
Definition clockedOut (env : Env) (now st : Z) (u : string) (kv : KV) : KV :=
  let dayKey := dateKeyLocal env (now + TZ_OFFSET_ms env) in
  let rec := default emptyDay (kDay kv !! (u, dayKey)) in
  with_kOpen (delete u)
    (with_kDay (insert (u, dayKey)
                  {| sessions := closeLast now (sessions rec);
                     totalMs := totalMs rec + (now - st) |}) kv).

End CommandStores.

(** The chats a user is registered with ([meta.chats], empty by default). *)
Definition chatsOf (kv : Worker.KV) (userId : string) : list Z :=
  Worker.chats (default {| Worker.chats := [] |} (Worker.kMeta kv !! userId)).

(** The store that one turn of the loop of [runWeekly] leaves when all its
    calls come back. *)
Definition resetUser (env : Worker.Env) (startUtcMs endUtcMs : Z) (kv : Worker.KV) (userId : string) : Worker.KV :=
  match chatsOf kv userId with
  | [] => kv
  | _ :: _ => clearWeek env userId startUtcMs endUtcMs kv
  end.

(** The users [runWeekly] lists. *)
Definition listedUsers (kv : Worker.KV) : list string :=
  merge_sort String.le (elements (dom (Worker.kMeta kv))).

(** The number of chats the listed users are registered with. *)
Definition registeredChats (kv : Worker.KV) : nat :=
  sum_list ((fun u => length (chatsOf kv u)) <$> listedUsers kv).

(** The day keys [deleteWeekRange] deletes. *)
Definition weekDayKeys (env : Worker.Env) (startUtcMs endUtcMs : Z) : list string :=
  Worker.dateKeyLocal env <$> Worker.dayStarts startUtcMs endUtcMs.

(** The user a command is issued by. *)
Definition commandUser (c : Worker.Command) : string :=
  match c with Worker.DoIn u => u | Worker.DoOut u => u end.

(** The override of a user as stored, if any ([cfg.rate]). *)
Definition overrideOf (kv : Worker.KV) (userId : string) : option Worker.JsNum :=
  Worker.kCfg kv !! userId ≫= Worker.cfg_rate.

(** A finite, positive number. *)
Definition finitePositive (v : Worker.JsNum) : Prop :=
  match v with Worker.Num q => (0 < q)%Q | _ => False end.

(** Every stored override is a finite, positive number. *)
Definition ratesValid (kv : Worker.KV) : Prop :=
  forall u v, overrideOf kv u = Some v -> finitePositive v.

(** The closed total of the day bucket of a local instant, and of the seven
    buckets of the week that starts at [start]. *)
Definition closedDay (env : Worker.Env) (kv : Worker.KV) (userId : string) (localMs : Z) : Z :=
  from_option Worker.totalMs 0 (Worker.kDay kv !! (userId, Worker.dateKeyLocal env localMs)).

Definition closedWeek (env : Worker.Env) (kv : Worker.KV) (userId : string) (start : Z) : Z :=
  Worker.sumZ ((fun i => closedDay env kv userId (start + i * 86400000)) <$> seqZ 0 7).

(** An entry of a day bucket that has no end. *)
Definition isRunning (s : Worker.Session) : Prop := Worker.outUtcMs s = None.

#[global] Instance isRunning_dec s : Decision (isRunning s).
Proof. unfold isRunning. apply _. Defined.

(** The two calls the cron job of the SQLite driver makes for a user. *)
Definition cronCalls (tz now : Z) (d : Db.DB) (userId : Z) : list (Z * Bot.Payload) :=
  let '(hours, weekKey) := Db.getWeekHours tz userId now d in
  [(userId, Bot.Summary weekKey hours (Bot.weeklyPay hours));
   (userId, Bot.Csv ("workweek_" +:+ weekKey +:+ ".csv") (snd (Db.exportWeekCSV tz userId now d)))].

(** The secret of a request opens the manual route. *)
Definition authorized (env : Worker.Env) (secret : option string) : Prop :=
  Worker.ADMIN_SECRET env <> EmptyString /\ secret = Some (Worker.ADMIN_SECRET env).

(** A call to a chat is on record. *)
Definition calledAt (w : Worker.World) (chat : Z) : Prop :=
  exists c, c ∈ Worker.outbox w /\ Worker.to c = chat.

(** The session entries of a user that have no end, over all the day
    buckets of the store. *)
Definition runningEntries (kv : Worker.KV) (userId : string) : nat :=
  sum_list ((fun kr : string * string * Worker.DayRec =>
               if decide (kr.1.1 = userId)
               then length (filter isRunning (Worker.sessions kr.2))
               else 0%nat) <$> map_to_list (Worker.kDay kv)).

(** The rate a report of the weekly run is priced at. *)
Definition pricedAt (env : Worker.Env) (kv : Worker.KV) (userId : string) : Q :=
  match Worker.revision env with
  | Worker.SundayWeek => Worker.finiteOr (default Worker.NaN (overrideOf kv userId)) (Worker.rate env)
  | Worker.MondayWeek => Worker.rate env
  end.

(** The calls the turn of a user in the weekly run sets out to make, in
    order: the summary and then the CSV, chat by chat. *)
Definition turnCalls (env : Worker.Env) (kv : Worker.KV) (utcMs startUtcMs endUtcMs : Z)
    (userId : string) : list (Z * Worker.Payload) :=
  let total := (Worker.weekReport env kv userId utcMs startUtcMs endUtcMs).1 in
  let rows := (Worker.weekReport env kv userId utcMs startUtcMs endUtcMs).2 in
  let r := pricedAt env kv userId in
  let summary := Worker.WeeklySummary (Worker.fmtHM total) (Worker.minutes total) r
                   (Worker.dollarsFromMs total r) in
  let fname := "workweek_" +:+ Worker.dateKeyLocal env startUtcMs +:+ ".csv" in
  chatsOf kv userId ≫= fun c => [(c, Worker.Text summary); (c, Worker.Document fname rows)].

(** A call comes back, accepted or refused, and the record it then leaves. *)
Definition comesBack (net : Worker.Net) (cp : Z * Worker.Payload) : bool :=
  match net cp.1 cp.2 with Worker.Unreachable => false | _ => true end.

Definition recorded (net : Worker.Net) (cp : Z * Worker.Payload) : Worker.Call :=
  {| Worker.to := cp.1; Worker.payload := cp.2;
     Worker.accepted := match net cp.1 cp.2 with Worker.Accepted => true | _ => false end |}.

(** The calls of a sequence made before the first one that fails. *)
Fixpoint madeBefore {A} (ok : A -> bool) (l : list A) : list A :=
  match l with
  | [] => []
  | x :: l' => if ok x then x :: madeBefore ok l' else []
  end.

(** The records that the turns of a list of users leave when every call
    comes back: each turn reports on the store the turns before it left. *)
Fixpoint runCalls (env : Worker.Env) (net : Worker.Net) (utcMs startUtcMs endUtcMs : Z)
    (us : list string) (kv : Worker.KV) : list Worker.Call :=
  match us with
  | [] => []
  | x :: us' =>
      (recorded net <$> turnCalls env kv utcMs startUtcMs endUtcMs x)
      ++ runCalls env net utcMs startUtcMs endUtcMs us' (resetUser env startUtcMs endUtcMs kv x)
  end.

(** A call of the SQLite driver resolves. *)
Definition resolves (tg : Bot.Telegram) (cp : Z * Bot.Payload) : bool := tg cp.1 cp.2.

End Spec.

(* ------------------------------------------------------------------ *)
(** ** Scenarios: concrete runs that the properties are tried on       *)
(* ------------------------------------------------------------------ *)
Module Scenario.
Import Worker.

(** The Sunday revision one hour east of UTC, the Monday revision eight. *)
Definition envSunday : Env :=
  {| revision := SundayWeek; TZ_OFFSET_ms := 3600000; PAY_RATE := NaN; ADMIN_SECRET := "s3cret" |}.
Definition envMonday : Env :=
  {| revision := MondayWeek; TZ_OFFSET_ms := 28800000; PAY_RATE := Num 3; ADMIN_SECRET := "s3cret" |}.

Definition netUp : Net := fun _ _ => Accepted.
(** Telegram refuses one chat and is out of reach for another. *)
Definition netRefusing (chat : Z) : Net := fun c _ => if c =? chat then Refused else Accepted.
Definition netDownFor (chat : Z) : Net := fun c _ => if c =? chat then Unreachable else Accepted.

Definition after (c : M World unit) (w : World) : World := fst (c w).

(** Instants (UTC): Sunday 2025-11-02 00:00, then Monday 08:00 and 16:30,
    Saturday 22:59, and Sunday 2025-11-09 23:00. *)
Definition sun0 : Z := 1762041600000.
Definition mon0800 : Z := sun0 + 86400000 + 8 * 3600000.
Definition mon1630 : Z := sun0 + 86400000 + 16 * 3600000 + 30 * 60000.
Definition sat2259 : Z := sun0 + 6 * 86400000 + 22 * 3600000 + 59 * 60000.
Definition sun2300 : Z := sun0 + 7 * 86400000 + 23 * 3600000.

(** Two users worked on Monday; a third one is clocked in and has a meta
    record without chats. *)
Definition workedWithReplies (env : Env) : World :=
  after (cmdIn env netUp mon0800 1003 "1003")
 (after (putMeta "1003" {| chats := [] |})
 (after (cmdOut env netUp mon1630 1002 "1002")
 (after (cmdIn env netUp mon0800 1002 "1002")
 (after (ensureUserChat "1002" 1002)
 (after (cmdOut env netUp mon1630 1001 "1001")
 (after (cmdIn env netUp mon0800 1001 "1001")
 (after (ensureUserChat "1001" 1001) initial))))))).

(** The same, with the replies to those commands taken off the record. *)
Definition worked (env : Env) : World :=
  {| store := store (workedWithReplies env); outbox := [] |}.

(** The same Monday on the SQLite side, in Unix seconds, zone UTC+8. *)
Definition tzManila : Z := 28800.
Definition workedDb : Db.DB :=
  Db.upsertUser 1003
 (fst (Db.clockOut tzManila 1002 (mon1630 / 1000)
  (fst (Db.clockIn tzManila 1002 (mon0800 / 1000)
  (Db.upsertUser 1002
  (fst (Db.clockOut tzManila 1001 (mon1630 / 1000)
  (fst (Db.clockIn tzManila 1001 (mon0800 / 1000)
  (Db.upsertUser 1001 Db.emptyDB)))))))))).

(** The database of the scenario, then user 1001 clocked in on Tuesday. *)
Definition tuesdayDb : Db.DB :=
  fst (Db.clockIn tzManila 1001 (mon0800 / 1000 + 86400) workedDb).

(** Telegram takes messages but is out of reach for the documents of one
    chat. *)
Definition netDocDownFor (chat : Z) : Net :=
  fun c p => match p with
             | Document _ _ => if c =? chat then Unreachable else Accepted
             | Text _ => Accepted
             end.

(** A session over local midnight: user 1001 registers, clocks in on Monday
    at 22:30 UTC (23:30 local), clocks out an hour later, on Tuesday, and
    clocks in again on Tuesday at 08:00 UTC. *)
Definition mon2230 : Z := sun0 + 86400000 + 22 * 3600000 + 30 * 60000.
Definition tue0800 : Z := mon0800 + 86400000.

Definition overnightIn : World :=
  after (cmdIn envSunday netUp mon2230 1001 "1001")
 (after (ensureUserChat "1001" 1001) initial).
Definition overnightOut : World :=
  after (cmdOut envSunday netUp (mon2230 + 3600000) 1001 "1001") overnightIn.
Definition overnightInAgain : World :=
  after (cmdIn envSunday netUp tue0800 1001 "1001") overnightOut.

(** User 1001 registers and sets a rate of 4. *)
Definition ratedWorld : World :=
  after (perform envSunday netUp mon0800 (ActSetRate "1001" (Num 4)))
 (after (perform envSunday netUp mon0800 (ActRegister "1001" 1001)) initial).

End Scenario.

(* ================================================================== *)
(** * Part II: properties                                              *)
(* ================================================================== *)

(** ** The calendar *)
Section CalendarFacts.
Import JsDate.

Local Ltac zdiv := Z.div_mod_to_equations; lia.

Lemma yoe_bounds doe :
  0 <= doe <= 146096 ->
  0 <= (doe - doe / 1460 + doe / 36524 - doe / 146096) / 365 <= 399.
Proof. intros H. zdiv. Qed.

Lemma doy_bounds doe :
  0 <= doe <= 146096 ->
  let yoe := (doe - doe / 1460 + doe / 36524 - doe / 146096) / 365 in
  0 <= doe - (365 * yoe + yoe / 4 - yoe / 100) <= 365.
Proof. intros H. cbv zeta. zdiv. Qed.

(** The day number is recovered from the civil date. *)
Lemma days_from_civil_from_days z :
  let '(y, m, d) := civil_from_days z in days_from_civil y m d = z.
Proof.
  unfold civil_from_days, days_from_civil.
  set (z' := z + 719468).
  set (era := z' / 146097).
  set (doe := z' - era * 146097).
  assert (Hdoe : 0 <= doe <= 146096) by (subst doe era; zdiv).
  pose proof (yoe_bounds doe Hdoe) as Hyoe.
  pose proof (doy_bounds doe Hdoe) as Hdoy. cbv zeta in Hdoy.
  set (yoe := (doe - doe / 1460 + doe / 36524 - doe / 146096) / 365) in *.
  set (doy := doe - (365 * yoe + yoe / 4 - yoe / 100)) in *.
  set (mp := (5 * doy + 2) / 153).
  assert (Hmp : 0 <= mp <= 11) by (subst mp; zdiv).
  set (m := if mp <? 10 then mp + 3 else mp - 9).
  assert (Hy : (if m <=? 2
                then (if m <=? 2 then yoe + era * 400 + 1 else yoe + era * 400) - 1
                else (if m <=? 2 then yoe + era * 400 + 1 else yoe + era * 400))
               = yoe + era * 400) by (destruct (m <=? 2); lia).
  rewrite Hy.
  assert (Hera : (yoe + era * 400) / 400 = era) by zdiv.
  rewrite Hera.
  assert (Hm : (if 2 <? m then m - 3 else m + 9) = mp).
  { subst m. destruct (mp <? 10) eqn:E1;
      [destruct (2 <? mp + 3) eqn:E2 | destruct (2 <? mp - 9) eqn:E2]; lia. }
  rewrite Hm.
  replace (yoe + era * 400 - era * 400) with yoe by lia.
  subst doy doe. lia.
Qed.

Lemma civil_from_days_range z :
  let '(y, m, d) := civil_from_days z in 1 <= m <= 12 /\ 1 <= d <= 31.
Proof.
  unfold civil_from_days.
  set (z' := z + 719468).
  set (era := z' / 146097).
  set (doe := z' - era * 146097).
  assert (Hdoe : 0 <= doe <= 146096) by (subst doe era; zdiv).
  pose proof (doy_bounds doe Hdoe) as Hdoy. cbv zeta in Hdoy.
  set (yoe := (doe - doe / 1460 + doe / 36524 - doe / 146096) / 365) in *.
  set (doy := doe - (365 * yoe + yoe / 4 - yoe / 100)) in *.
  set (mp := (5 * doy + 2) / 153).
  assert (Hmp : 0 <= mp <= 11) by (subst mp; zdiv).
  split.
  - destruct (mp <? 10) eqn:E1; lia.
  - subst mp. zdiv.
Qed.

Lemma civil_from_days_inj z1 z2 :
  civil_from_days z1 = civil_from_days z2 -> z1 = z2.
Proof.
  intros H.
  pose proof (days_from_civil_from_days z1) as H1.
  pose proof (days_from_civil_from_days z2) as H2.
  rewrite H in H1. destruct (civil_from_days z2) as [[y m] d]. congruence.
Qed.

(** From 1942 on the year has four digits or more. *)
Lemma civil_year_lower z :
  -10000 <= z -> let '(y, _, _) := civil_from_days z in 1600 <= y.
Proof.
  intros Hz. unfold civil_from_days.
  set (z' := z + 719468).
  set (era := z' / 146097).
  set (doe := z' - era * 146097).
  assert (Hdoe : 0 <= doe <= 146096) by (subst doe era; zdiv).
  pose proof (yoe_bounds doe Hdoe) as Hyoe.
  set (yoe := (doe - doe / 1460 + doe / 36524 - doe / 146096) / 365) in *.
  assert (4 <= era) by (subst era z'; zdiv).
  match goal with |- context [if ?b then _ else _] => destruct b end; lia.
Qed.

Lemma Day_shift t k : Day (t - k * 86400000) = Day t - k.
Proof. unfold Day, msPerDay. zdiv. Qed.

Lemma Day_of_midnight d : Day (d * msPerDay) = d.
Proof. unfold Day, msPerDay. zdiv. Qed.

(** [Date.UTC] of the UTC date of an instant is the midnight of its day. *)
Lemma Date_UTC_of_accessors t :
  -10000 <= Day t ->
  Date_UTC (getUTCFullYear t) (getUTCMonth t) (getUTCDate t) = Day t * msPerDay.
Proof.
  intros Ht. unfold Date_UTC, getUTCFullYear, getUTCMonth, getUTCDate.
  pose proof (civil_year_lower (Day t) Ht) as Hy.
  pose proof (days_from_civil_from_days (Day t)) as Hr.
  destruct (civil_from_days (Day t)) as [[y m] d].
  replace ((0 <=? y) && (y <=? 99)) with false by lia.
  replace (m - 1 + 1) with m by lia. by rewrite Hr.
Qed.

End CalendarFacts.

(** ** Text: the date keys are injective *)
Section TextFacts.
Import Text.

Lemma string_app_length (s t : string) :
  String.length (s +:+ t) = (String.length s + String.length t)%nat.
Proof. induction s as [|c s IH]; simpl; [done | by rewrite IH]. Qed.

(** Two texts with tails of one length agree part by part. *)
Lemma string_app_inj_tail (s1 s2 t1 t2 : string) :
  s1 +:+ t1 = s2 +:+ t2 -> String.length t1 = String.length t2 ->
  s1 = s2 /\ t1 = t2.
Proof.
  revert s2. induction s1 as [|c s1 IH]; intros [|c2 s2] H Hlen; simpl in *.
  - done.
  - apply (f_equal String.length) in H.
    rewrite !string_app_length in H. simpl in H. lia.
  - apply (f_equal String.length) in H.
    rewrite !string_app_length in H. simpl in H. lia.
  - injection H as -> H. destruct (IH _ H Hlen) as [-> ->]. done.
Qed.

Lemma pretty_Z_of_N (x : N) : pretty (Z.of_N x) = pretty x.
Proof. by destruct x. Qed.

Lemma pretty_N_one_digit (x : N) :
  (0 < x < 10)%N -> pretty x = String (pretty_N_char x) EmptyString.
Proof.
  intros Hx. unfold pretty, pretty_N. rewrite decide_False by lia.
  rewrite pretty_N_go_step by lia.
  replace (x `div` 10)%N with 0%N by (symmetry; apply N.div_small; lia).
  rewrite N.mod_small by lia. apply pretty_N_go_0.
Qed.

Lemma pretty_N_two_digits (x : N) :
  (10 <= x < 100)%N ->
  pretty x = String (pretty_N_char (x `div` 10)) (String (pretty_N_char (x `mod` 10)) EmptyString).
Proof.
  intros Hx. unfold pretty, pretty_N. rewrite decide_False by lia.
  assert (0 < x `div` 10 < 10)%N as Hq.
  { split; [apply N.div_str_pos; lia | apply N.Div0.div_lt_upper_bound; lia]. }
  rewrite pretty_N_go_step by lia.
  rewrite pretty_N_go_step by lia.
  replace ((x `div` 10) `div` 10)%N with 0%N by (symmetry; apply N.div_small; lia).
  rewrite (N.mod_small (x `div` 10)) by lia. apply pretty_N_go_0.
Qed.

(** What [pad2] prints for a number of at most two digits. *)
Lemma pad2_digits (n : Z) :
  0 <= n < 100 ->
  pad2 n = String (pretty_N_char (Z.to_N n `div` 10))
             (String (pretty_N_char (Z.to_N n `mod` 10)) EmptyString).
Proof.
  intros Hn. unfold pad2, padStart0.
  rewrite <- (Z2N.id n) at 1 2 by lia. rewrite pretty_Z_of_N.
  destruct (decide (Z.to_N n = 0%N)) as [E|E].
  - rewrite E. reflexivity.
  - destruct (decide (Z.to_N n < 10)%N) as [L|L].
    + rewrite pretty_N_one_digit by lia. simpl.
      rewrite N.div_small by lia. rewrite N.mod_small by lia. reflexivity.
    + rewrite pretty_N_two_digits by lia. reflexivity.
Qed.

Lemma pad2_length (n : Z) : 0 <= n < 100 -> String.length (pad2 n) = 2%nat.
Proof. intros Hn. by rewrite pad2_digits. Qed.

Lemma pad2_inj (a b : Z) :
  0 <= a < 100 -> 0 <= b < 100 -> pad2 a = pad2 b -> a = b.
Proof.
  intros Ha Hb. rewrite !pad2_digits by done. intros [= H1 H2].
  apply pretty_N_char_inj in H1;
    [| apply N.Div0.div_lt_upper_bound; lia | apply N.Div0.div_lt_upper_bound; lia].
  apply pretty_N_char_inj in H2; [| apply N.mod_lt; lia | apply N.mod_lt; lia].
  assert (Z.to_N a = Z.to_N b).
  { rewrite (N.div_mod (Z.to_N a) 10), (N.div_mod (Z.to_N b) 10) by lia. lia. }
  lia.
Qed.

(** The parts of a date key are read back from it. *)
Lemma ymd_inj (y1 y2 : string) (m1 m2 d1 d2 : Z) :
  0 <= m1 < 100 -> 0 <= m2 < 100 -> 0 <= d1 < 100 -> 0 <= d2 < 100 ->
  ymd y1 m1 d1 = ymd y2 m2 d2 -> y1 = y2 /\ m1 = m2 /\ d1 = d2.
Proof.
  intros Hm1 Hm2 Hd1 Hd2. unfold ymd. intros H.
  pose proof (pad2_length m1 Hm1) as L1. pose proof (pad2_length m2 Hm2) as L2.
  pose proof (pad2_length d1 Hd1) as L3. pose proof (pad2_length d2 Hd2) as L4.
  apply string_app_inj_tail in H as [Hy H];
    [| rewrite !string_app_length, L1, L2, L3, L4; done].
  split; [done|].
  apply (inj (String.app "-")) in H.
  apply string_app_inj_tail in H as [Hm H];
    [| rewrite !string_app_length, L3, L4; done].
  apply (inj (String.app "-")) in H.
  split; by eapply pad2_inj.
Qed.

(** No rendering of a positive number starts with the digit zero. *)
Lemma pretty_N_go_head (x : N) (s : string) :
  (0 < x)%N -> exists c r, pretty_N_go x s = String c r /\ c <> "0"%char.
Proof.
  revert s. induction (N.lt_wf_0 x) as [x _ IH]; intros s Hx.
  rewrite pretty_N_go_step by done.
  destruct (decide (x `div` 10 = 0)%N) as [E|E].
  - rewrite E, pretty_N_go_0. eexists _, _. split; [done|].
    assert (x < 10)%N by (apply N.div_small_iff in E; lia).
    rewrite N.mod_small by done.
    assert (x = 1 \/ x = 2 \/ x = 3 \/ x = 4 \/ x = 5 \/ x = 6
            \/ x = 7 \/ x = 8 \/ x = 9)%N as Hc by lia.
    destruct Hc as [->|[->|[->|[->|[->|[->|[->|[->| ->]]]]]]]]; done.
  - apply IH; [apply N.div_lt; lia | by apply N.neq_0_lt_0].
Qed.

Lemma lstrip0_zeros k s : lstrip0 (zeros k +:+ s) = lstrip0 s.
Proof. induction k as [|k IH]; simpl; done. Qed.

Lemma lstrip0_pretty (y : Z) : y <> 0 -> lstrip0 (pretty y) = pretty y.
Proof.
  intros Hy. destruct y as [|p|p]; [done| |done].
  change (pretty (Z.pos p)) with (pretty (N.pos p)).
  unfold pretty, pretty_N. rewrite decide_False by done.
  destruct (pretty_N_go_head (N.pos p) EmptyString) as (c & r & -> & Hc); [lia|].
  simpl. destruct (Ascii.eqb_spec c "0"); done.
Qed.

Lemma padStart0_pretty_inj (n : nat) (y1 y2 : Z) :
  padStart0 n (pretty y1) = padStart0 n (pretty y2) -> y1 = y2.
Proof.
  unfold padStart0. intros H.
  apply (f_equal lstrip0) in H. rewrite !lstrip0_zeros in H.
  destruct (decide (y1 = 0)) as [->|N1], (decide (y2 = 0)) as [->|N2]; [done|..].
  - rewrite (lstrip0_pretty y2) in H by done. simpl in H.
    destruct y2 as [|p|p]; [done| |done].
    change (pretty (Z.pos p)) with (pretty (N.pos p)) in H.
    unfold pretty, pretty_N in H. rewrite decide_False in H by done.
    destruct (pretty_N_go_head (N.pos p) EmptyString) as (c & r & E & Hc); [lia|].
    rewrite E in H. done.
  - rewrite (lstrip0_pretty y1) in H by done. simpl in H.
    destruct y1 as [|p|p]; [done| |done].
    change (pretty (Z.pos p)) with (pretty (N.pos p)) in H.
    unfold pretty, pretty_N in H. rewrite decide_False in H by done.
    destruct (pretty_N_go_head (N.pos p) EmptyString) as (c & r & E & Hc); [lia|].
    rewrite E in H. done.
  - rewrite !lstrip0_pretty in H by done. by apply (inj pretty).
Qed.

End TextFacts.

(** ** Day keys and week starts *)
Section KeyFacts.
Import JsDate Text Spec.

Local Ltac zdiv := Z.div_mod_to_equations; lia.

(** Two local instants with one day key lie on one day. *)
Lemma dateKeyLocal_inj env t1 t2 :
  Worker.dateKeyLocal env t1 = Worker.dateKeyLocal env t2 -> Day t1 = Day t2.
Proof.
  unfold Worker.dateKeyLocal, getUTCFullYear, getUTCMonth, getUTCDate. intros H.
  apply civil_from_days_inj.
  pose proof (civil_from_days_range (Day t1)) as R1.
  pose proof (civil_from_days_range (Day t2)) as R2.
  destruct (civil_from_days (Day t1)) as [[y1 m1] d1].
  destruct (civil_from_days (Day t2)) as [[y2 m2] d2].
  apply ymd_inj in H as (Hy & Hm & Hd); [| lia..].
  apply (inj pretty) in Hy. f_equal; [f_equal|]; lia.
Qed.

Lemma dateKeyLocal_same_day env t1 t2 :
  Day t1 = Day t2 -> Worker.dateKeyLocal env t1 = Worker.dateKeyLocal env t2.
Proof.
  intros H. unfold Worker.dateKeyLocal, getUTCFullYear, getUTCMonth, getUTCDate.
  by rewrite H.
Qed.

Lemma formatDate_inj d1 d2 : Db.formatDate d1 = Db.formatDate d2 -> d1 = d2.
Proof.
  unfold Db.formatDate. intros H. apply civil_from_days_inj.
  pose proof (civil_from_days_range d1) as R1.
  pose proof (civil_from_days_range d2) as R2.
  destruct (civil_from_days d1) as [[y1 m1] e1].
  destruct (civil_from_days d2) as [[y2 m2] e2].
  apply ymd_inj in H as (Hy & Hm & Hd); [| lia..].
  apply padStart0_pretty_inj in Hy. congruence.
Qed.

(** [weekStartLocal] is the midnight of the day [dow] days back. *)
Lemma weekStartLocal_midnight env t :
  -9000 * msPerDay <= t ->
  Worker.weekStartLocal env t =
    (Day t - match Worker.revision env with
             | Worker.SundayWeek => getUTCDay t
             | Worker.MondayWeek => (getUTCDay t + 6) mod 7
             end) * msPerDay.
Proof.
  intros Ht. unfold Worker.weekStartLocal.
  set (dow := match Worker.revision env with
              | Worker.SundayWeek => getUTCDay t
              | Worker.MondayWeek => (getUTCDay t + 6) mod 7
              end).
  assert (0 <= dow < 7) as Hdow.
  { subst dow. unfold getUTCDay. destruct (Worker.revision env); zdiv. }
  rewrite Date_UTC_of_accessors; rewrite Day_shift; [done|].
  unfold Day, msPerDay in *. zdiv.
Qed.

(** Inside the window that a week start opens, [weekStartLocal] is that
    week start. *)
Lemma weekStartLocal_in_window env s t :
  isWeekStart env s -> 0 <= s -> inWindow s t ->
  Worker.weekStartLocal env t = s.
Proof.
  intros [Hmid Hdow] Hs [Hlo Hhi].
  rewrite weekStartLocal_midnight by (unfold msPerDay in *; lia).
  unfold weekStartDay, getUTCDay, Day, msPerDay in *.
  destruct (Worker.revision env); zdiv.
Qed.

Lemma isWeekStart_back env s : isWeekStart env s -> isWeekStart env (s - 7 * msPerDay).
Proof.
  intros [Hmid Hdow]. unfold isWeekStart, getUTCDay, Day, msPerDay in *.
  split; zdiv.
Qed.

Lemma weekKey_in_window env s t :
  isWeekStart env s -> 0 <= s -> inWindow s t ->
  Worker.weekKeyLocal env t = Worker.dateKeyLocal env s.
Proof.
  intros. unfold Worker.weekKeyLocal. by erewrite weekStartLocal_in_window.
Qed.

Lemma dateKey_of_midnights env s1 s2 :
  s1 mod msPerDay = 0 -> s2 mod msPerDay = 0 ->
  Worker.dateKeyLocal env s1 = Worker.dateKeyLocal env s2 -> s1 = s2.
Proof.
  intros H1 H2 H. apply dateKeyLocal_inj in H.
  unfold Day, msPerDay in *. zdiv.
Qed.

(** The same for [isoMonday]. *)
Lemma isoMonday_in_window tz s t :
  isIsoWeekStart tz s -> inIsoWindow s t ->
  Db.isoMonday tz t = Db.formatDate (Db.localDay tz s).
Proof.
  intros [Hmid Hdow] [Hlo Hhi]. unfold Db.isoMonday. f_equal.
  unfold Db.isoWeekday1, Db.weekday, Db.localDay in *.
  destruct (Z.eqb_spec (((t + tz) / 86400 + 4) mod 7 mod 7) 0); zdiv.
Qed.

Lemma isIsoWeekStart_back tz s : isIsoWeekStart tz s -> isIsoWeekStart tz (s - 7 * 86400).
Proof.
  intros [Hmid Hdow]. unfold isIsoWeekStart, Db.weekday, Db.localDay in *.
  split; zdiv.
Qed.

End KeyFacts.

(** ** Week keys (claim C6) *)
Section WeekKeys.
Import JsDate Spec.

(** C6. Week-key stability.  Two instants of one seven-day window, opened
    by the first day of the week of the configuration, have one week key; an
    instant of the day before the window has another key; and the instants
    of two different windows never share a key, whatever years the windows
    lie in.  This holds for the key of the worker in both revisions (Sunday
    and Monday weeks) and for [isoMonday] of the SQLite variant, for windows
    the [Date] type can hold. *)
Theorem C6_week_key_stable
  (env : Worker.Env) (s t1 t2 : Z) (tz s' u1 u2 : Z) :
  isWeekStart env s -> windowInRange s -> inWindow s t1 -> inWindow s t2 ->
  isIsoWeekStart tz s' -> isoWindowInRange s' ->
  inIsoWindow s' u1 -> inIsoWindow s' u2 ->
  (Worker.weekKeyLocal env t1 = Worker.weekKeyLocal env t2
   /\ (forall t, s - msPerDay <= t < s ->
         Worker.weekKeyLocal env t <> Worker.weekKeyLocal env t1)
   /\ (forall s2 t', isWeekStart env s2 -> windowInRange s2 -> inWindow s2 t' ->
         Worker.weekKeyLocal env t' = Worker.weekKeyLocal env t1 -> s2 = s))
  /\ (Db.isoMonday tz u1 = Db.isoMonday tz u2
   /\ (forall u, s' - 86400 <= u < s' ->
         Db.isoMonday tz u <> Db.isoMonday tz u1)
   /\ (forall s2 u', isIsoWeekStart tz s2 -> isoWindowInRange s2 -> inIsoWindow s2 u' ->
         Db.isoMonday tz u' = Db.isoMonday tz u1 -> s2 = s')).
Proof.
  intros Hs Hr H1 H2 Hs' Hr' U1 U2.
  assert (0 <= s) as Hs0 by (unfold windowInRange, msPerDay in Hr; lia).
  split; [split; [|split] | split; [|split]].
  - rewrite !(weekKey_in_window env s) by done. done.
  - intros t Ht.
    rewrite (weekKey_in_window env s t1) by done.
    rewrite (weekKey_in_window env (s - 7 * msPerDay) t).
    + intros E.
      pose proof (isWeekStart_back env s Hs) as [Hb _]. destruct Hs as [Hm _].
      apply (dateKey_of_midnights env _ _ Hb Hm) in E.
      unfold msPerDay in E. lia.
    + by apply isWeekStart_back.
    + unfold windowInRange, msPerDay in *. lia.
    + unfold inWindow, msPerDay in *. lia.
  - intros s2 t' Hs2 Hr2 Ht' E.
    rewrite (weekKey_in_window env s t1) in E by done.
    rewrite (weekKey_in_window env s2 t') in E;
      [| done | unfold windowInRange, msPerDay in Hr2; lia | done].
    destruct Hs2 as [M2 _], Hs as [M1 _].
    by apply (dateKey_of_midnights env _ _ M2 M1) in E.
  - rewrite !(isoMonday_in_window tz s') by done. done.
  - intros u Hu.
    rewrite (isoMonday_in_window tz s' u1) by done.
    rewrite (isoMonday_in_window tz (s' - 7 * 86400) u);
      [| by apply isIsoWeekStart_back | unfold inIsoWindow; lia].
    intros E. apply formatDate_inj in E.
    unfold Db.localDay in E. Z.div_mod_to_equations. lia.
  - intros s2 u' Hs2 _ Hu' E.
    rewrite (isoMonday_in_window tz s' u1) in E by done.
    rewrite (isoMonday_in_window tz s2 u') in E by done.
    apply formatDate_inj in E.
    destruct Hs2 as [M2 _], Hs' as [M1 _].
    unfold Db.localDay in E. Z.div_mod_to_equations. lia.
Qed.

Lemma C6_week_key_stable_witness :
  let env := {| Worker.revision := Worker.MondayWeek; Worker.TZ_OFFSET_ms := 28800000;
                Worker.PAY_RATE := Worker.NaN; Worker.ADMIN_SECRET := "k" |} in
  (* Monday 2025-12-29 00:00, with Wednesday 2025-12-31 and Sunday 2026-01-04 *)
  let s := 1766966400000 in
  let t1 := s + 2 * msPerDay + 5 in
  let t2 := s + 6 * msPerDay + 86399999 in
  (* the same Monday in Unix seconds of a zone eight hours east of UTC *)
  let tz := 28800 in
  let s' := 1766966400 - 28800 in
  let u1 := s' + 2 * 86400 in
  let u2 := s' + 7 * 86400 - 1 in
  (Worker.weekKeyLocal env t1 = Worker.weekKeyLocal env t2
   /\ (forall t, s - msPerDay <= t < s ->
         Worker.weekKeyLocal env t <> Worker.weekKeyLocal env t1)
   /\ (forall s2 t', isWeekStart env s2 -> windowInRange s2 -> inWindow s2 t' ->
         Worker.weekKeyLocal env t' = Worker.weekKeyLocal env t1 -> s2 = s))
  /\ (Db.isoMonday tz u1 = Db.isoMonday tz u2
   /\ (forall u, s' - 86400 <= u < s' ->
         Db.isoMonday tz u <> Db.isoMonday tz u1)
   /\ (forall s2 u', isIsoWeekStart tz s2 -> isoWindowInRange s2 -> inIsoWindow s2 u' ->
         Db.isoMonday tz u' = Db.isoMonday tz u1 -> s2 = s')).
Proof.
  intros env s t1 t2 tz s' u1 u2.
  apply (C6_week_key_stable env s t1 t2 tz s' u1 u2).
  - split; reflexivity.
  - unfold windowInRange, msPerDay, maxTime, s. lia.
  - unfold inWindow, t1, s, msPerDay. lia.
  - unfold inWindow, t2, s, msPerDay. lia.
  - split; reflexivity.
  - unfold isoWindowInRange, s'. lia.
  - unfold inIsoWindow, u1, s'. lia.
  - unfold inIsoWindow, u2, s'. lia.
Defined.

End WeekKeys.

(** ** Running computations *)
Section EffFacts.
Context {W : Type}.

Lemma forEach_app {A} (l1 l2 : list A) (f : A -> M W unit) (w : W) :
  forEach (l1 ++ l2) f w =
    match forEach l1 f w with
    | (w', Returned _) => forEach l2 f w'
    | (w', Thrown e) => (w', Thrown e)
    end.
Proof.
  revert w. induction l1 as [|x l1 IH]; intros w; simpl; [done|].
  unfold bind. destruct (f x w) as [w' [[]|e]]; [apply IH | done].
Qed.

(** A property kept by every turn of a loop holds after the loop, whether
    it ran to its end or was cut short. *)
Lemma forEach_invariant {A} (P : W -> Prop) (l : list A) (f : A -> M W unit) (w : W) :
  (forall x w, x ∈ l -> P w -> P (fst (f x w))) -> P w -> P (fst (forEach l f w)).
Proof.
  revert w. induction l as [|x l IH]; intros w Hf Hw; simpl; [done|].
  unfold bind. pose proof (Hf x w ltac:(left) Hw) as Hx.
  destruct (f x w) as [w' [[]|e]]; simpl in *; [|done].
  apply IH; [|done]. intros y w'' Hy. apply Hf. by right.
Qed.

(** A turn that throws ends the loop: what comes after it is not run. *)
Lemma forEach_throws {A} (l1 l2 : list A) (x : A) (f : A -> M W unit) (w w1 w2 : W) (e : Exn) :
  forEach l1 f w = (w1, Returned tt) -> f x w1 = (w2, Thrown e) ->
  forEach (l1 ++ x :: l2) f w = (w2, Thrown e).
Proof.
  intros H1 Hx. rewrite forEach_app, H1. simpl. unfold bind. by rewrite Hx.
Qed.

(** A loop that ran to its end has folded its turns, as seen through [proj]. *)
Lemma forEach_returns {A S} (proj : W -> S) (g : S -> A -> S)
    (l : list A) (f : A -> M W unit) (w w' : W) :
  (forall x w w', f x w = (w', Returned tt) -> proj w' = g (proj w) x) ->
  forEach l f w = (w', Returned tt) -> proj w' = foldl g (proj w) l.
Proof.
  intros Hf. revert w. induction l as [|x l IH]; intros w; simpl.
  - unfold ret. congruence.
  - unfold bind. destruct (f x w) as [w1 [[]|e]] eqn:E; [|done].
    intros H. apply Hf in E as <-. by apply IH.
Qed.

Lemma forEach_total {A} (l : list A) (f : A -> M W unit) (w : W) :
  (forall x w, exists w', f x w = (w', Returned tt)) ->
  exists w', forEach l f w = (w', Returned tt).
Proof.
  intros Hf. revert w. induction l as [|x l IH]; intros w; simpl.
  - by eexists.
  - unfold bind. destruct (Hf x w) as [w1 ->]. apply IH.
Qed.

End EffFacts.

Ltac eff := unfold mbind, M_bind, mret, M_ret, bind, ret, gets, modify, throw, try_catch in *.

(** ** The store of the worker *)
Section StoreFacts.
Import Worker Spec.

Lemma tgCall_store net chat p w : store (fst (tgCall net chat p w)) = store w.
Proof. unfold tgCall. by destruct (net chat p). Qed.

Lemma tgCall_thrown net chat p w w' e : tgCall net chat p w = (w', Thrown e) -> w' = w.
Proof. unfold tgCall. destruct (net chat p); congruence. Qed.

Lemma deleteDays_run env u (l : list Z) w :
  forEach l (fun ms => deleteDay u (dateKeyLocal env ms)) w
  = (on_store (clearDays env u l) w, Returned tt).
Proof.
  revert w. induction l as [|ms l IH]; intros w; simpl.
  - by destruct w.
  - unfold bind, deleteDay, modify. rewrite IH. by destruct w.
Qed.

Lemma deleteWeekRange_run env u s e w :
  deleteWeekRange env u s e w = (on_store (clearWeek env u s e) w, Returned tt).
Proof.
  unfold deleteWeekRange. eff. rewrite deleteDays_run. by destruct w.
Qed.

Lemma clearDays_kDay env u l kv u' k :
  kDay (clearDays env u l kv) !! (u', k) =
    if decide (u' = u /\ k ∈ dateKeyLocal env <$> l) then None else kDay kv !! (u', k).
Proof.
  revert kv. induction l as [|ms l IH]; intros kv; simpl.
  - rewrite decide_False; [done|]. intros [_ H]. by apply elem_of_nil in H.
  - rewrite IH. simpl.
    destruct (decide (u' = u /\ k ∈ dateKeyLocal env <$> l)) as [[-> Hin]|Hn].
    + rewrite decide_True; [done|]. split; [done|]. by right.
    + destruct (decide ((u', k) = (u, dateKeyLocal env ms))) as [[= -> ->]|Hne].
      * rewrite lookup_delete_eq. rewrite decide_True; [done|]. split; [done|]. left.
      * rewrite lookup_delete_ne by done.
        rewrite decide_False; [done|]. intros [-> Hin].
        apply elem_of_cons in Hin as [->|Hin]; [done|]. apply Hn. done.
Qed.

Lemma clearDays_others env u l kv :
  kOpen (clearDays env u l kv) = kOpen kv /\ kMeta (clearDays env u l kv) = kMeta kv
  /\ kCfg (clearDays env u l kv) = kCfg kv /\ kLock (clearDays env u l kv) = kLock kv.
Proof. revert kv. induction l as [|ms l IH]; intros kv; simpl; [done|]. by rewrite !(proj1 (IH _)), !(proj1 (proj2 (IH _))), !(proj1 (proj2 (proj2 (IH _)))), !(proj2 (proj2 (proj2 (IH _)))). Qed.

End StoreFacts.

(** ** One turn of the weekly runner *)
Section RunnerFacts.
Import Worker Spec.

Lemma reportRate_run env u w : exists r, reportRate env u w = (w, Returned r).
Proof.
  unfold reportRate, userRate, getCfg. eff.
  destruct (revision env); eauto.
Qed.

(** The sends of one user leave the store alone. *)
Lemma sends_store net (cs : list Z) summary fname rows w :
  store (fst (forEach cs (fun chatId =>
      sendMessage net chatId summary;; sendDocument net chatId fname rows) w)) = store w.
Proof.
  apply (forEach_invariant (fun w' => store w' = store w)); [|done].
  intros c w' _ Hw'. unfold sendMessage, sendDocument. eff.
  destruct (tgCall net c (Text summary) w') as [w1 [[]|ex]] eqn:E1; simpl.
  - rewrite tgCall_store. rewrite <- Hw'.
    change w1 with (fst (w1, @Returned unit ())). rewrite <- E1. apply tgCall_store.
  - rewrite <- Hw'.
    change w1 with (fst (w1, @Thrown unit ex)). rewrite <- E1. apply tgCall_store.
Qed.

(** A user without chats is passed over: nothing is sent, nothing deleted. *)
Lemma runWeeklyUser_skip env net utcMs s e u w :
  chatsOf (store w) u = [] -> runWeeklyUser env net utcMs s e u w = (w, Returned tt).
Proof.
  unfold chatsOf, runWeeklyUser, getMeta. eff. intros H. by rewrite H.
Qed.

Lemma tgCall_returned_outbox net chat p w w' :
  tgCall net chat p w = (w', Returned tt) ->
  length (outbox w') = S (length (outbox w)).
Proof.
  unfold tgCall. destruct (net chat p); intros [= <-]; simpl;
    rewrite length_app; simpl; lia.
Qed.

(** Sends that all came back have put two calls per chat on record. *)
Lemma sends_returned_outbox net (cs : list Z) summary fname rows w w' :
  forEach cs (fun chatId =>
      sendMessage net chatId summary;; sendDocument net chatId fname rows) w
    = (w', Returned tt) ->
  length (outbox w') = (length (outbox w) + 2 * length cs)%nat.
Proof.
  intros H.
  apply (forEach_returns (fun w => length (outbox w)) (fun n _ => S (S n))) in H.
  - rewrite H. clear. generalize (length (outbox w)). induction cs as [|c cs IH]; intros n; simpl.
    + lia.
    + rewrite IH. lia.
  - intros c wa wb. unfold sendMessage, sendDocument. eff.
    destruct (tgCall net c (Text summary) wa) as [w1 [[]|ex]] eqn:E1; [|done].
    intros E2. apply tgCall_returned_outbox in E1, E2. lia.
Qed.

(** A user with chats: the sends come first and leave the store alone; the
    week is cleared after them, unless one of them threw. *)
Lemma runWeeklyUser_cases env net utcMs s e u w :
  chatsOf (store w) u <> [] ->
  exists w1, store w1 = store w /\
    ((runWeeklyUser env net utcMs s e u w = (on_store (clearWeek env u s e) w1, Returned tt)
      /\ length (outbox w1) = (length (outbox w) + 2 * length (chatsOf (store w) u))%nat)
     \/ exists ex, runWeeklyUser env net utcMs s e u w = (w1, Thrown ex)).
Proof.
  unfold chatsOf, runWeeklyUser, getMeta. eff. intros H.
  destruct (chats (default {| chats := [] |} (kMeta (store w) !! u))) as [|c cs] eqn:Ec; [done|].
  destruct (weekReport env (store w) u utcMs s e) as [total rows].
  destruct (reportRate_run env u w) as [r ->].
  set (body := fun chatId : Z => _).
  pose proof (sends_store net (c :: cs) (WeeklySummary (fmtHM total) (minutes total) r (dollarsFromMs total r))
                ("workweek_" +:+ dateKeyLocal env s +:+ ".csv") rows w) as Hst.
  pose proof (sends_returned_outbox net (c :: cs) (WeeklySummary (fmtHM total) (minutes total) r (dollarsFromMs total r))
                ("workweek_" +:+ dateKeyLocal env s +:+ ".csv") rows w) as Hout.
  unfold mbind, M_bind, bind in Hst, Hout.
  change (store (fst (forEach (c :: cs) body w)) = store w) in Hst.
  change (forall w', forEach (c :: cs) body w = (w', Returned tt) ->
            length (outbox w') = (length (outbox w) + 2 * length (c :: cs))%nat) in Hout.
  destruct (forEach (c :: cs) body w) as [w1 [[]|ex]] eqn:E.
  - exists w1. split; [done|]. left. split; [apply deleteWeekRange_run | by apply Hout].
  - exists w1. split; [done|]. right. eauto.
Qed.

Lemma runWeeklyUser_returned env net utcMs s e u w w' :
  runWeeklyUser env net utcMs s e u w = (w', Returned tt) ->
  store w' = resetUser env s e (store w) u.
Proof.
  intros H. unfold resetUser.
  destruct (chatsOf (store w) u) as [|c cs] eqn:Ec.
  - rewrite runWeeklyUser_skip in H by done. congruence.
  - destruct (runWeeklyUser_cases env net utcMs s e u w) as (w1 & Hs & [R|[ex R]]);
      [by rewrite Ec | |]; [destruct R as [R _]|]; rewrite R in H; [|done].
    injection H as <-. simpl. by rewrite Hs.
Qed.

Lemma runWeeklyUser_thrown env net utcMs s e u w w' ex :
  runWeeklyUser env net utcMs s e u w = (w', Thrown ex) -> store w' = store w.
Proof.
  intros H. destruct (chatsOf (store w) u) as [|c cs] eqn:Ec.
  - rewrite runWeeklyUser_skip in H by done. congruence.
  - destruct (runWeeklyUser_cases env net utcMs s e u w) as (w1 & Hs & [R|[ex' R]]);
      [by rewrite Ec | |]; [destruct R as [R _]|]; rewrite R in H; [done|]. congruence.
Qed.

(** Whatever its outcome, a turn leaves the store as it was or cleared for
    its user. *)
Lemma runWeeklyUser_store env net utcMs s e u w :
  store (fst (runWeeklyUser env net utcMs s e u w)) = store w
  \/ store (fst (runWeeklyUser env net utcMs s e u w)) = clearWeek env u s e (store w).
Proof.
  destruct (chatsOf (store w) u) as [|c cs] eqn:Ec.
  - rewrite runWeeklyUser_skip by done. by left.
  - destruct (runWeeklyUser_cases env net utcMs s e u w) as (w1 & Hs & [R|[ex' R]]);
      [by rewrite Ec | |]; [destruct R as [R _]|]; rewrite R; simpl; [right | left]; by rewrite Hs.
Qed.

Lemma runWeeklyUser_returned_outbox env net utcMs s e u w w' :
  runWeeklyUser env net utcMs s e u w = (w', Returned tt) ->
  length (outbox w') = (length (outbox w) + 2 * length (chatsOf (store w) u))%nat.
Proof.
  intros H. destruct (chatsOf (store w) u) as [|c cs] eqn:Ec.
  - rewrite runWeeklyUser_skip in H by done. injection H as <-. simpl. lia.
  - destruct (runWeeklyUser_cases env net utcMs s e u w) as (w1 & Hs & [[R L]|[ex R]]);
      [by rewrite Ec | |]; rewrite R in H; [|done].
    injection H as <-. simpl. by rewrite L, Ec.
Qed.

Lemma clearWeek_kMeta env u s e kv : kMeta (clearWeek env u s e kv) = kMeta kv.
Proof. unfold clearWeek. simpl. apply clearDays_others. Qed.

Lemma clearWeek_kLock env u s e kv : kLock (clearWeek env u s e kv) = kLock kv.
Proof. unfold clearWeek. simpl. apply clearDays_others. Qed.

Lemma clearWeek_kCfg env u s e kv : kCfg (clearWeek env u s e kv) = kCfg kv.
Proof. unfold clearWeek. simpl. apply clearDays_others. Qed.

Lemma clearWeek_kOpen env u s e kv u' :
  kOpen (clearWeek env u s e kv) !! u' = if decide (u' = u) then None else kOpen kv !! u'.
Proof.
  unfold clearWeek. simpl. rewrite (proj1 (clearDays_others _ _ _ _)).
  destruct (decide (u' = u)) as [->|Hne];
    [apply lookup_delete_eq | by apply lookup_delete_ne].
Qed.

Lemma clearWeek_kDay env u s e kv u' k :
  kDay (clearWeek env u s e kv) !! (u', k) =
    if decide (u' = u /\ k ∈ dateKeyLocal env <$> dayStarts s e) then None
    else kDay kv !! (u', k).
Proof. unfold clearWeek. simpl. apply clearDays_kDay. Qed.

End RunnerFacts.

(** ** The weekly runner as a whole *)
Section RunFacts.
Import Worker Spec.

Lemma runWeekly_unfold env net now w :
  runWeekly env net now w =
    forEach (listedUsers (store w))
      (runWeeklyUser env net now
         (fst (prevLocalWeekWindow env (now + TZ_OFFSET_ms env)))
         (snd (prevLocalWeekWindow env (now + TZ_OFFSET_ms env)))) w.
Proof.
  unfold runWeekly, listMeta, nowLocal, prevLocalWeekWindow. eff.
  unfold listedUsers. cbn [fst snd]. reflexivity.
Qed.

Lemma runWeeklyUser_kMeta env net utcMs s e u w :
  kMeta (store (fst (runWeeklyUser env net utcMs s e u w))) = kMeta (store w).
Proof.
  destruct (runWeeklyUser_store env net utcMs s e u w) as [-> | ->];
    [done | apply clearWeek_kMeta].
Qed.

Lemma runWeeklyUser_kLock env net utcMs s e u w :
  kLock (store (fst (runWeeklyUser env net utcMs s e u w))) = kLock (store w).
Proof.
  destruct (runWeeklyUser_store env net utcMs s e u w) as [-> | ->];
    [done | apply clearWeek_kLock].
Qed.

Lemma runWeekly_kLock env net now w :
  kLock (store (fst (runWeekly env net now w))) = kLock (store w).
Proof.
  rewrite runWeekly_unfold.
  apply (forEach_invariant (fun w' => kLock (store w') = kLock (store w))); [|done].
  intros u w' _ <-. apply runWeeklyUser_kLock.
Qed.

(** The data of a user are out of reach of the turns of the others. *)
Lemma runWeeklyUser_frame env net utcMs s e v w u :
  v <> u ->
  kOpen (store (fst (runWeeklyUser env net utcMs s e v w))) !! u = kOpen (store w) !! u
  /\ forall day, kDay (store (fst (runWeeklyUser env net utcMs s e v w))) !! (u, day)
                 = kDay (store w) !! (u, day).
Proof.
  intros Hne.
  destruct (runWeeklyUser_store env net utcMs s e v w) as [-> | ->]; [done|].
  split.
  - rewrite clearWeek_kOpen. by rewrite decide_False by congruence.
  - intros day. rewrite clearWeek_kDay. rewrite decide_False; [done|].
    intros [-> _]. done.
Qed.

Lemma chatsOf_kMeta kv kv' u : kMeta kv' = kMeta kv -> chatsOf kv' u = chatsOf kv u.
Proof. unfold chatsOf. by intros ->. Qed.

Lemma resetUser_kMeta env s e kv u : kMeta (resetUser env s e kv u) = kMeta kv.
Proof. unfold resetUser. destruct (chatsOf kv u); [done | apply clearWeek_kMeta]. Qed.

End RunFacts.

(** ** A user without registered chats (claim C10) *)
Section NoChats.
Import Worker Spec.

(** C10. In the worker, a listed user whose meta record has an empty list
    of chats is passed over by the weekly runner: its turn sends nothing and
    deletes nothing; after the run, complete or cut short, its open marker
    and every one of its day buckets are as before; and the run is the one
    over the other listed users. *)
Theorem C10_user_without_chats_skipped
  (env : Env) (net : Net) (now : Z) (u : string) (w : World) :
  kMeta (store w) !! u = Some {| chats := [] |} ->
  let s := fst (prevLocalWeekWindow env (now + TZ_OFFSET_ms env)) in
  let e := snd (prevLocalWeekWindow env (now + TZ_OFFSET_ms env)) in
  let w' := fst (runWeekly env net now w) in
  runWeeklyUser env net now s e u w = (w, Returned tt)
  /\ kOpen (store w') !! u = kOpen (store w) !! u
  /\ (forall day, kDay (store w') !! (u, day) = kDay (store w) !! (u, day))
  /\ runWeekly env net now w
     = forEach (filter (fun v => v <> u) (listedUsers (store w)))
         (runWeeklyUser env net now s e) w.
Proof.
  intros Hmeta s e w'.
  assert (Hskip : forall w0, kMeta (store w0) = kMeta (store w) ->
            runWeeklyUser env net now s e u w0 = (w0, Returned tt)).
  { intros w0 H0. apply runWeeklyUser_skip. unfold chatsOf. by rewrite H0, Hmeta. }
  split; [by apply Hskip|].
  assert (Hinv : kMeta (store w') = kMeta (store w)
                 /\ kOpen (store w') !! u = kOpen (store w) !! u
                 /\ forall day, kDay (store w') !! (u, day) = kDay (store w) !! (u, day)).
  { subst w'. rewrite runWeekly_unfold. fold s e.
    apply (forEach_invariant (fun w' =>
             kMeta (store w') = kMeta (store w)
             /\ kOpen (store w') !! u = kOpen (store w) !! u
             /\ forall day, kDay (store w') !! (u, day) = kDay (store w) !! (u, day)));
      [|done].
    intros v w0 _ (Hm & Ho & Hd).
    destruct (decide (v = u)) as [->|Hne].
    - by rewrite Hskip.
    - destruct (runWeeklyUser_frame env net now s e v w0 u Hne) as [Fo Fd].
      rewrite runWeeklyUser_kMeta, Fo. split; [done|]. split; [done|].
      intros day. by rewrite Fd. }
  destruct Hinv as (_ & Ho & Hd). split; [done|]. split; [done|].
  rewrite runWeekly_unfold. fold s e.
  generalize (listedUsers (store w)). intros l.
  assert (Hgen : forall w0, kMeta (store w0) = kMeta (store w) ->
            forEach l (runWeeklyUser env net now s e) w0
            = forEach (filter (fun v => v <> u) l) (runWeeklyUser env net now s e) w0).
  { induction l as [|v l IH]; intros w0 H0; [done|].
    rewrite filter_cons. destruct (decide (v <> u)) as [Hne|Heq].
    - simpl. unfold bind.
      pose proof (runWeeklyUser_kMeta env net now s e v w0) as Hk.
      destruct (runWeeklyUser env net now s e v w0) as [w1 [[]|ex]]; [|done].
      apply IH. simpl in Hk. congruence.
    - apply dec_stable in Heq as ->. simpl. unfold bind.
      rewrite Hskip by done. by apply IH. }
  by apply Hgen.
Qed.

End NoChats.

(** ** Calls that come back *)
Section RunErrors.
Import Worker Spec.

Lemma tgCall_reliable (net : Net) chat p w :
  net chat p <> Unreachable -> exists w', tgCall net chat p w = (w', Returned tt).
Proof. unfold tgCall. intros H. destruct (net chat p); [eauto..|done]. Qed.

(** When every call comes back, accepted or refused, a turn returns. *)
Lemma runWeeklyUser_reliable env (net : Net) utcMs s e u w :
  (forall c p, net c p <> Unreachable) ->
  exists w', runWeeklyUser env net utcMs s e u w = (w', Returned tt).
Proof.
  intros Hnet. destruct (chatsOf (store w) u) as [|c cs] eqn:Ec.
  - rewrite runWeeklyUser_skip by done. eauto.
  - revert Ec. unfold chatsOf, runWeeklyUser, getMeta. eff. intros ->.
    destruct (weekReport env (store w) u utcMs s e) as [total rows].
    destruct (reportRate_run env u w) as [r ->].
    match goal with |- context [forEach ?l ?f w] =>
      destruct (forEach_total l f w) as [w1 ->] end.
    + intros chat w0. unfold sendMessage, sendDocument.
      destruct (tgCall_reliable net chat
                  (Text (WeeklySummary (fmtHM total) (minutes total) r (dollarsFromMs total r)))
                  w0 (Hnet _ _)) as [w2 ->].
      apply tgCall_reliable, Hnet.
    + rewrite deleteWeekRange_run. eauto.
Qed.

Lemma cronUser_db tz tg now v (b : Bot.World) :
  Bot.db (fst (Bot.cronUser tz tg now v b)) = Bot.db b.
Proof.
  unfold Bot.cronUser, Bot.telegramSend. eff.
  destruct (Db.getWeekHours tz v now (Bot.db b)) as [hours weekKey].
  destruct (Db.exportWeekCSV tz v now (Bot.db b)) as [wk csv].
  destruct (tg v (Bot.Summary weekKey hours (Bot.weeklyPay hours))); [|done].
  simpl. destruct (tg v _); done.
Qed.

End RunErrors.

(** ** Running the rollover twice (claim C3) *)
Section RunTwice.
Import Worker Spec.

Lemma KV_eq (a b : KV) :
  kOpen a = kOpen b -> kDay a = kDay b -> kMeta a = kMeta b ->
  kCfg a = kCfg b -> kLock a = kLock b -> a = b.
Proof. destruct a, b; simpl; congruence. Qed.

Lemma resetUser_kOpen env s e kv x u :
  kOpen (resetUser env s e kv x) !! u =
    if decide (u = x /\ chatsOf kv x <> []) then None else kOpen kv !! u.
Proof.
  unfold resetUser. destruct (chatsOf kv x) as [|c cs] eqn:Ec.
  - rewrite decide_False; [done|]. by intros [_ ?].
  - rewrite clearWeek_kOpen. destruct (decide (u = x)) as [->|Hne].
    + by rewrite decide_True.
    + rewrite decide_False; [done|]. by intros [? _].
Qed.

Lemma resetUser_kDay env s e kv x u k :
  kDay (resetUser env s e kv x) !! (u, k) =
    if decide (u = x /\ chatsOf kv x <> [] /\ k ∈ weekDayKeys env s e) then None
    else kDay kv !! (u, k).
Proof.
  unfold resetUser, weekDayKeys. destruct (chatsOf kv x) as [|c cs] eqn:Ec.
  - rewrite decide_False; [done|]. by intros (_ & ? & _).
  - rewrite clearWeek_kDay. destruct (decide (u = x /\ k ∈ dateKeyLocal env <$> dayStarts s e)) as [[-> Hin]|Hn].
    + by rewrite decide_True.
    + rewrite decide_False; [done|]. intros (? & _ & ?). by apply Hn.
Qed.

Lemma resetUser_others env s e kv x :
  kCfg (resetUser env s e kv x) = kCfg kv /\ kLock (resetUser env s e kv x) = kLock kv.
Proof.
  unfold resetUser. destruct (chatsOf kv x); [done|].
  by rewrite clearWeek_kCfg, clearWeek_kLock.
Qed.

(** What a whole run that returned has made of the store. *)
Lemma resetUsers_spec env s e (l : list string) kv :
  let kv' := foldl (resetUser env s e) kv l in
  kMeta kv' = kMeta kv /\ kCfg kv' = kCfg kv /\ kLock kv' = kLock kv
  /\ (forall u, kOpen kv' !! u =
        if decide (u ∈ l /\ chatsOf kv u <> []) then None else kOpen kv !! u)
  /\ (forall u k, kDay kv' !! (u, k) =
        if decide (u ∈ l /\ chatsOf kv u <> [] /\ k ∈ weekDayKeys env s e) then None
        else kDay kv !! (u, k)).
Proof.
  revert kv. induction l as [|x l IH]; intros kv; simpl.
  - repeat split; try done.
    all: intros; rewrite decide_False; [done|]; intros [H _]; by apply elem_of_nil in H.
  - destruct (IH (resetUser env s e kv x)) as (Hm & Hc & Hl & Ho & Hd).
    pose proof (resetUser_kMeta env s e kv x) as Hm'.
    destruct (resetUser_others env s e kv x) as [Hc' Hl'].
    assert (forall u, chatsOf (resetUser env s e kv x) u = chatsOf kv u) as Hch
      by (intros u; by apply chatsOf_kMeta).
    split; [congruence|]. split; [congruence|]. split; [congruence|]. split.
    + intros u. rewrite Ho, Hch, resetUser_kOpen.
      destruct (decide (u ∈ l /\ chatsOf kv u <> [])) as [[Hin Hc0]|N1].
      { rewrite decide_True; [done | split; [by right | done]]. }
      destruct (decide (u = x /\ chatsOf kv x <> [])) as [[-> Hc0]|N2].
      { rewrite decide_True; [done | split; [left | done]]. }
      rewrite decide_False; [done|]. intros [Hin Hc0].
      apply elem_of_cons in Hin as [->|Hin]; [by apply N2 | by apply N1].
    + intros u k. rewrite Hd, Hch, resetUser_kDay.
      destruct (decide (u ∈ l /\ chatsOf kv u <> [] /\ k ∈ weekDayKeys env s e))
        as [(Hin & Hc0 & Hk)|N1].
      { rewrite decide_True; [done | split; [by right | done]]. }
      destruct (decide (u = x /\ chatsOf kv x <> [] /\ k ∈ weekDayKeys env s e))
        as [(-> & Hc0 & Hk)|N2].
      { rewrite decide_True; [done | split; [left | done]]. }
      rewrite decide_False; [done|]. intros (Hin & Hc0 & Hk).
      apply elem_of_cons in Hin as [->|Hin]; [by apply N2 | by apply N1].
Qed.

Lemma resetUsers_idemp env s e (l : list string) kv :
  foldl (resetUser env s e) (foldl (resetUser env s e) kv l) l
  = foldl (resetUser env s e) kv l.
Proof.
  destruct (resetUsers_spec env s e l kv) as (Hm & Hc & Hl & Ho & Hd).
  destruct (resetUsers_spec env s e l (foldl (resetUser env s e) kv l))
    as (Hm2 & Hc2 & Hl2 & Ho2 & Hd2).
  assert (forall u, chatsOf (foldl (resetUser env s e) kv l) u = chatsOf kv u) as Hch
    by (intros u; by apply chatsOf_kMeta).
  apply KV_eq; [| |congruence..].
  - apply map_eq. intros u. rewrite Ho2, Hch, Ho. by case_decide.
  - apply map_eq. intros [u k]. rewrite Hd2, Hch, Hd. by case_decide.
Qed.

Lemma listedUsers_kMeta kv kv' : kMeta kv' = kMeta kv -> listedUsers kv' = listedUsers kv.
Proof. unfold listedUsers. by intros ->. Qed.

Lemma runWeekly_returned_store env net now w w' :
  runWeekly env net now w = (w', Returned tt) ->
  store w' = foldl (resetUser env
                      (fst (prevLocalWeekWindow env (now + TZ_OFFSET_ms env)))
                      (snd (prevLocalWeekWindow env (now + TZ_OFFSET_ms env))))
               (store w) (listedUsers (store w)).
Proof.
  rewrite runWeekly_unfold.
  set (s := fst (prevLocalWeekWindow env (now + TZ_OFFSET_ms env))).
  set (e := snd (prevLocalWeekWindow env (now + TZ_OFFSET_ms env))).
  intros H.
  apply (forEach_returns store (resetUser env s e)) in H; [done|].
  intros x wa wb. apply runWeeklyUser_returned.
Qed.

Lemma runWeekly_returned_outbox env net now w w' :
  runWeekly env net now w = (w', Returned tt) ->
  length (outbox w') = (length (outbox w) + 2 * registeredChats (store w))%nat.
Proof.
  rewrite runWeekly_unfold. intros H.
  apply (forEach_returns (fun w => (kMeta (store w), length (outbox w)))
           (fun '(m, n) u =>
              (m, (n + 2 * length (chats (default {| chats := [] |} (m !! u))))%nat))) in H.
  - unfold registeredChats, chatsOf.
    revert H. generalize (listedUsers (store w)) (length (outbox w)) (kMeta (store w)).
    intros l. induction l as [|x l IH]; intros n m; simpl.
    + intros [= _ ->]. lia.
    + intros H. apply IH in H. rewrite H. unfold fmap. lia.
  - intros x wa wb Hx.
    match type of Hx with runWeeklyUser _ _ _ ?s ?e _ _ = _ =>
      pose proof (runWeeklyUser_kMeta env net now s e x wa) as Hm end.
    rewrite Hx in Hm.
    apply runWeeklyUser_returned_outbox in Hx. simpl in Hm. rewrite Hm, Hx. done.
Qed.

Lemma scheduled_held env net now w :
  lockHeld (store w)
    (dateKeyLocal env (fst (prevLocalWeekWindow env (now + TZ_OFFSET_ms env)))) now = true ->
  scheduled env net now w = (w, Returned tt).
Proof.
  unfold scheduled, nowLocal, prevLocalWeekWindow, getLock. eff. simpl. by intros ->.
Qed.

Lemma scheduled_free env net now w :
  lockHeld (store w)
    (dateKeyLocal env (fst (prevLocalWeekWindow env (now + TZ_OFFSET_ms env)))) now = false ->
  scheduled env net now w =
    (fst (runWeekly env net now
            (on_store (with_kLock
               (insert (dateKeyLocal env (fst (prevLocalWeekWindow env (now + TZ_OFFSET_ms env))))
                       (now + lockTtlMs))) w)),
     Returned tt).
Proof.
  unfold scheduled, nowLocal, prevLocalWeekWindow, getLock, putLock, waitUntil. eff. simpl.
  intros ->. by destruct (runWeekly env net now _) as [w' [[]|ex]].
Qed.

(** C3, as the code has it.  The scheduler takes a lock named after the
    completed week before it runs: a second scheduled invocation for the
    same week, while the lock lasts, changes nothing and sends nothing.  The
    manual route takes no lock and asks for none: it runs the rollover
    whatever the lock says and leaves the locks as they are.  A second
    manual run right after a first one deletes nothing more (the store is
    the same), and sends the summary and the CSV once more to every
    registered chat. *)
Theorem C3_second_rollover
  (env : Env) (net : Net) (now1 now2 : Z) (secret : option string) (w wa wb : World) :
  let key := dateKeyLocal env (fst (prevLocalWeekWindow env (now1 + TZ_OFFSET_ms env))) in
  lockHeld (store w) key now1 = false ->
  now1 <= now2 < now1 + lockTtlMs ->
  fst (prevLocalWeekWindow env (now2 + TZ_OFFSET_ms env))
    = fst (prevLocalWeekWindow env (now1 + TZ_OFFSET_ms env)) ->
  ADMIN_SECRET env <> EmptyString -> secret = Some (ADMIN_SECRET env) ->
  runWeekly env net now1 w = (wa, Returned tt) ->
  runWeekly env net now1 wa = (wb, Returned tt) ->
  scheduled env net now2 (fst (scheduled env net now1 w))
    = (fst (scheduled env net now1 w), Returned tt)
  /\ (forall now w0,
        fst (fetchAdminRunWeekly env net now secret w0) = fst (runWeekly env net now w0)
        /\ kLock (store (fst (fetchAdminRunWeekly env net now secret w0))) = kLock (store w0))
  /\ store wb = store wa
  /\ length (outbox wb) = (length (outbox wa) + 2 * registeredChats (store w))%nat.
Proof.
  intros key Hfree Hnow Hweek Hsec -> Ha Hb.
  split; [|split; [|split]].
  - apply scheduled_held. rewrite Hweek. fold key.
    rewrite scheduled_free by done. fold key. cbn [fst].
    unfold lockHeld. rewrite runWeekly_kLock.
    cbn [store on_store with_kLock kLock].
    rewrite lookup_insert_eq. apply Z.ltb_lt. lia.
  - intros now w0.
    assert (fst (fetchAdminRunWeekly env net now (Some (ADMIN_SECRET env)) w0)
            = fst (runWeekly env net now w0)) as E.
    { unfold fetchAdminRunWeekly. rewrite bool_decide_eq_false_2 by done.
      rewrite bool_decide_eq_true_2 by done. simpl. eff.
      by destruct (runWeekly env net now w0) as [w' [[]|ex]]. }
    rewrite E. split; [done | apply runWeekly_kLock].
  - pose proof (runWeekly_returned_store _ _ _ _ _ Ha) as Sa.
    pose proof (runWeekly_returned_store _ _ _ _ _ Hb) as Sb.
    assert (kMeta (store wa) = kMeta (store w)) as Hm.
    { rewrite Sa. apply resetUsers_spec. }
    rewrite (listedUsers_kMeta _ _ Hm) in Sb. rewrite Sb, Sa.
    apply resetUsers_idemp.
  - pose proof (runWeekly_returned_store _ _ _ _ _ Ha) as Sa.
    assert (kMeta (store wa) = kMeta (store w)) as Hm.
    { rewrite Sa. apply resetUsers_spec. }
    rewrite (runWeekly_returned_outbox _ _ _ _ _ Hb).
    unfold registeredChats. rewrite (listedUsers_kMeta _ _ Hm).
    do 3 f_equal. apply list_fmap_ext. intros _ u _. f_equal. by apply chatsOf_kMeta.
Qed.

End RunTwice.

(** ** The runner on the scenario *)
Section RunnerScenario.
Import Worker Spec Scenario.

Lemma C10_user_without_chats_skipped_witness :
  let env := envSunday in
  let net := netUp in
  let now := sat2259 in
  let u := "1003" in
  let w := worked envSunday in
  let s := fst (prevLocalWeekWindow env (now + TZ_OFFSET_ms env)) in
  let e := snd (prevLocalWeekWindow env (now + TZ_OFFSET_ms env)) in
  let w' := fst (runWeekly env net now w) in
  runWeeklyUser env net now s e u w = (w, Returned tt)
  /\ kOpen (store w') !! u = kOpen (store w) !! u
  /\ (forall day, kDay (store w') !! (u, day) = kDay (store w) !! (u, day))
  /\ runWeekly env net now w
     = forEach (filter (fun v => v <> u) (listedUsers (store w)))
         (runWeeklyUser env net now s e) w.
Proof.
  intros env net now u w.
  apply (C10_user_without_chats_skipped env net now u w).
  vm_compute. reflexivity.
Defined.

(** C3, refuted as stated: the scheduler has run and holds the lock of the
    week; the manual route, called at that very instant, runs all the same
    and sends four more messages (a summary and a CSV to each of the two
    registered chats). *)
Lemma C3_manual_run_not_locked :
  let w := worked envSunday in
  let w1 := fst (scheduled envSunday netUp sat2259 w) in
  let w2 := fst (fetchAdminRunWeekly envSunday netUp sat2259 (Some "s3cret") w1) in
  lockHeld (store w1) "2025-11-02" sat2259 = true
  /\ length (outbox w1) = 4%nat
  /\ length (outbox w2) = 8%nat
  /\ kLock (store w2) = kLock (store w1).
Proof. vm_compute. repeat split; reflexivity. Qed.

Lemma C3_second_rollover_witness :
  let env := envSunday in
  let net := netRefusing 1002 in
  let now1 := sat2259 in
  let now2 := sat2259 + 60000 in
  let secret := Some "s3cret" in
  let w := worked envSunday in
  let wa := fst (runWeekly env net now1 w) in
  let wb := fst (runWeekly env net now1 wa) in
  scheduled env net now2 (fst (scheduled env net now1 w))
    = (fst (scheduled env net now1 w), Returned tt)
  /\ (forall now w0,
        fst (fetchAdminRunWeekly env net now secret w0) = fst (runWeekly env net now w0)
        /\ kLock (store (fst (fetchAdminRunWeekly env net now secret w0))) = kLock (store w0))
  /\ store wb = store wa
  /\ length (outbox wb) = (length (outbox wa) + 2 * registeredChats (store w))%nat.
Proof.
  intros env net now1 now2 secret w wa wb.
  apply (C3_second_rollover env net now1 now2 secret w wa wb).
  - vm_compute. reflexivity.
  - vm_compute. split; [discriminate | reflexivity].
  - vm_compute. reflexivity.
  - discriminate.
  - reflexivity.
  - vm_compute. reflexivity.
  - vm_compute. reflexivity.
Defined.

End RunnerScenario.

(** ** Resetting a week (claim C7) *)
Section ResetWeek.
Import JsDate Worker Spec.

Lemma dayStarts_week s :
  dayStarts s (s + 7 * msPerDay) = (fun i => s + i * 86400000) <$> seqZ 0 7.
Proof.
  unfold dayStarts, msPerDay.
  replace ((s + 7 * 86400000 - s + 86399999) / 86400000) with 7
    by (Z.div_mod_to_equations; lia).
  done.
Qed.

(** The keys of a whole week are those of the instants of its window. *)
Lemma weekDayKeys_window env s t :
  s mod msPerDay = 0 ->
  dateKeyLocal env t ∈ weekDayKeys env s (s + 7 * msPerDay) <-> inWindow s t.
Proof.
  intros Hs. unfold weekDayKeys. rewrite dayStarts_week, <- list_fmap_compose.
  rewrite list_elem_of_fmap. unfold inWindow. split.
  - intros (i & Hk & Hi). apply elem_of_seqZ in Hi. simpl in Hk.
    apply dateKeyLocal_inj in Hk. unfold Day, msPerDay in *.
    Z.div_mod_to_equations. lia.
  - intros Ht. exists (Day t - Day s). split.
    + simpl. apply dateKeyLocal_same_day. unfold Day, msPerDay in *.
      Z.div_mod_to_equations. lia.
    + apply elem_of_seqZ. unfold Day, msPerDay in *. Z.div_mod_to_equations. lia.
Qed.

(** C7, as the code has it.  [deleteWeekRange] of the worker deletes the
    day buckets of its user under the day keys of the range, and no other
    bucket: for a whole week these are the keys of the instants of the
    window.  It deletes the open marker of its user in every case, whenever
    the open session began; the markers of other users, the meta records,
    the rates, the locks and the calls on record stay.  [resetWeek] of the
    SQLite variant deletes the shifts of its user that carry the key of the
    current week, open or closed, and reports their number; every other
    shift stays. *)
Theorem C7_week_reset_frame
  (env : Env) (u : string) (s e : Z) (w : World)
  (tz uid nowTs : Z) (db : Db.DB) :
  let w' := fst (deleteWeekRange env u s e w) in
  let week := Db.isoMonday tz nowTs in
  (forall u' k,
      kDay (store w') !! (u', k)
      = if decide (u' = u /\ k ∈ weekDayKeys env s e) then None else kDay (store w) !! (u', k))
  /\ (s mod msPerDay = 0 -> e = s + 7 * msPerDay ->
      forall t, kDay (store w') !! (u, dateKeyLocal env t)
                = if decide (inWindow s t) then None else kDay (store w) !! (u, dateKeyLocal env t))
  /\ kOpen (store w') !! u = None
  /\ (forall u', u' <> u -> kOpen (store w') !! u' = kOpen (store w) !! u')
  /\ kMeta (store w') = kMeta (store w) /\ kCfg (store w') = kCfg (store w)
  /\ kLock (store w') = kLock (store w) /\ outbox w' = outbox w
  /\ Db.shifts (fst (Db.resetWeek tz uid nowTs db))
     = filter (fun r => ~ (Db.user_id r = uid /\ Db.week_key r = week)) (Db.shifts db)
  /\ snd (Db.resetWeek tz uid nowTs db)
     = Z.of_nat (length (filter (fun r => Db.user_id r = uid /\ Db.week_key r = week) (Db.shifts db)))
  /\ (forall r, r ∈ Db.shifts db -> Db.week_key r <> week ->
        r ∈ Db.shifts (fst (Db.resetWeek tz uid nowTs db))).
Proof.
  intros w' week. subst w'. rewrite deleteWeekRange_run. cbn [fst on_store store outbox].
  split; [|split; [|split; [|split]]].
  - intros u' k. apply clearWeek_kDay.
  - intros Hs -> t. rewrite clearWeek_kDay. fold (weekDayKeys env s (s + 7 * msPerDay)).
    pose proof (weekDayKeys_window env s t Hs) as Hw.
    destruct (decide (inWindow s t)) as [Hin|Hout].
    + rewrite decide_True; [done|]. split; [done|]. by apply Hw.
    + rewrite decide_False; [done|]. intros [_ Hk]. by apply Hout, Hw.
  - rewrite clearWeek_kOpen. by rewrite decide_True.
  - intros u' Hne. rewrite clearWeek_kOpen. by rewrite decide_False.
  - rewrite clearWeek_kMeta, clearWeek_kCfg, clearWeek_kLock.
    repeat split; try done.
    intros r Hr Hk. unfold Db.resetWeek, Db.deleteWeek. simpl.
    apply list_elem_of_filter. split; [|done]. intros [_ ?]. done.
Qed.

End ResetWeek.

Section ResetWeekScenario.
Import JsDate Worker Spec Scenario.

(** C7, refuted as stated (Monday revision, zone UTC+8): the cron fires on
    Sunday 23:00 UTC, which is Monday 07:00 local; a user had clocked in at
    06:00 local, in the new week.  The run for the week before deletes the
    marker of that session, which began after the end of the window and is
    filed under a day outside the deleted range. *)
Lemma C7_marker_of_new_week_deleted :
  let env := envMonday in
  let startUtc := sun0 + 7 * 86400000 + 22 * 3600000 in
  let w := after (cmdIn env netUp startUtc 1001 "1001") (worked env) in
  let s := fst (prevLocalWeekWindow env (sun2300 + TZ_OFFSET_ms env)) in
  let e := snd (prevLocalWeekWindow env (sun2300 + TZ_OFFSET_ms env)) in
  let w' := fst (scheduled env netUp sun2300 w) in
  kOpen (store w) !! "1001" = Some {| startUtcMs := startUtc |}
  /\ dateKeyLocal env s = "2025-11-03"
  /\ e <= startUtc + TZ_OFFSET_ms env
  /\ dateKeyLocal env (startUtc + TZ_OFFSET_ms env) = "2025-11-10"
  /\ kDay (store w') !! ("1001", "2025-11-10")
     = Some {| sessions := [{| inUtcMs := startUtc; outUtcMs := None |}]; totalMs := 0 |}
  /\ kOpen (store w') !! "1001" = None.
Proof. vm_compute. repeat split; try reflexivity. discriminate. Qed.

Lemma C7_week_reset_frame_witness :
  let env := envSunday in
  let u := "1001" in
  let s := sun0 in
  let e := sun0 + 7 * msPerDay in
  let w := worked envSunday in
  let w' := fst (deleteWeekRange env u s e w) in
  let week := Db.isoMonday tzManila (sat2259 / 1000) in
  (forall u' k,
      kDay (store w') !! (u', k)
      = if decide (u' = u /\ k ∈ weekDayKeys env s e) then None else kDay (store w) !! (u', k))
  /\ (s mod msPerDay = 0 -> e = s + 7 * msPerDay ->
      forall t, kDay (store w') !! (u, dateKeyLocal env t)
                = if decide (inWindow s t) then None else kDay (store w) !! (u, dateKeyLocal env t))
  /\ kOpen (store w') !! u = None
  /\ (forall u', u' <> u -> kOpen (store w') !! u' = kOpen (store w) !! u')
  /\ kMeta (store w') = kMeta (store w) /\ kCfg (store w') = kCfg (store w)
  /\ kLock (store w') = kLock (store w) /\ outbox w' = outbox w
  /\ Db.shifts (fst (Db.resetWeek tzManila 1001 (sat2259 / 1000) workedDb))
     = filter (fun r => ~ (Db.user_id r = 1001 /\ Db.week_key r = week)) (Db.shifts workedDb)
  /\ snd (Db.resetWeek tzManila 1001 (sat2259 / 1000) workedDb)
     = Z.of_nat (length (filter (fun r => Db.user_id r = 1001 /\ Db.week_key r = week) (Db.shifts workedDb)))
  /\ (forall r, r ∈ Db.shifts workedDb -> Db.week_key r <> week ->
        r ∈ Db.shifts (fst (Db.resetWeek tzManila 1001 (sat2259 / 1000) workedDb))).
Proof.
  intros env u s e w.
  exact (C7_week_reset_frame env u s e w tzManila 1001 (sat2259 / 1000) workedDb).
Defined.

End ResetWeekScenario.

(** ** The ledger of the SQLite variant *)
Section LedgerFacts.
Import Db Spec.

Lemma getOpenShift_fold db u : getOpenShift db u = foldl (pickOpen u) None (shifts db).
Proof. reflexivity. Qed.

Lemma pickOpen_fold_Some u l b : exists o, foldl (pickOpen u) (Some b) l = Some o.
Proof.
  revert b. induction l as [|s l IH]; intros b; simpl; [eauto|].
  unfold pickOpen at 2. destruct (isOpenOf u s); [|apply IH].
  destruct (id b <? id s); apply IH.
Qed.

Lemma pickOpen_fold_None u l :
  foldl (pickOpen u) None l = None <-> Forall (fun s => isOpenOf u s = false) l.
Proof.
  induction l as [|s l IH]; simpl; [by split; [constructor|]|].
  unfold pickOpen at 2. destruct (isOpenOf u s) eqn:E.
  - split.
    + intros H. destruct (pickOpen_fold_Some u l s) as [o Ho]. congruence.
    + intros H. inversion H; subst. congruence.
  - rewrite IH. split; [by constructor | by inversion 1].
Qed.

Lemma pickOpen_fold_in u l best o :
  foldl (pickOpen u) best l = Some o ->
  best = Some o \/ (o ∈ l /\ isOpenOf u o = true).
Proof.
  revert best. induction l as [|s l IH]; intros best; simpl; [by left|].
  intros H. apply IH in H as [H|[H1 H2]]; [|right; split; [by right | done]].
  unfold pickOpen in H. destruct (isOpenOf u s) eqn:E; [|by left].
  destruct best as [b|].
  - destruct (id b <? id s); injection H as <-; [right; split; [left | done] | by left].
  - injection H as <-. right. split; [left | done].
Qed.

Lemma getOpenShift_None db u :
  getOpenShift db u = None <-> countOpenSessions db u = 0%nat.
Proof.
  rewrite getOpenShift_fold, pickOpen_fold_None. unfold countOpenSessions.
  generalize (shifts db). intros l. induction l as [|s l IH]; simpl.
  - by split; [|constructor].
  - rewrite filter_cons. destruct (decide (isOpenOf u s = true)) as [E|E].
    + split; [|done]. inversion 1; subst. congruence.
    + rewrite <- IH. split; [by inversion 1|]. intros H. constructor; [|done].
      by destruct (isOpenOf u s).
Qed.

Lemma getOpenShift_Some db u o :
  getOpenShift db u = Some o -> o ∈ shifts db /\ isOpenOf u o = true.
Proof.
  rewrite getOpenShift_fold. intros H.
  apply pickOpen_fold_in in H as [H|H]; [done | done].
Qed.

Lemma countOpen_app db_shifts (s : Shift) u :
  length (filter (fun r => isOpenOf u r = true) (db_shifts ++ [s]))
  = (length (filter (fun r => isOpenOf u r = true) db_shifts)
     + if isOpenOf u s then 1 else 0)%nat.
Proof.
  rewrite filter_app, length_app. f_equal.
  rewrite filter_cons, filter_nil.
  destruct (isOpenOf u s) eqn:E.
  - by rewrite decide_True.
  - by rewrite decide_False by congruence.
Qed.

(** Closing rows never opens one. *)
Lemma countOpen_endShift endTs shiftId db u :
  (countOpenSessions (endShift endTs shiftId db) u <= countOpenSessions db u)%nat.
Proof.
  unfold countOpenSessions, endShift. cbn [shifts].
  generalize (shifts db). intros l. induction l as [|r l IH]; [done|].
  rewrite fmap_cons, !filter_cons.
  destruct (id r =? shiftId).
  - rewrite decide_False.
    + destruct (decide (isOpenOf u r = true)); cbn [length]; lia.
    + unfold isOpenOf. cbn [end_ts]. rewrite andb_false_r. done.
  - destruct (decide (isOpenOf u r = true)); cbn [length]; lia.
Qed.

Lemma countOpen_filter (P : Shift -> Prop) `{forall r, Decision (P r)} l u :
  (length (filter (fun r => isOpenOf u r = true) (filter P l))
   <= length (filter (fun r => isOpenOf u r = true) l))%nat.
Proof.
  induction l as [|r l IH]; [done|].
  rewrite !filter_cons. destruct (decide (P r)).
  - rewrite filter_cons. destruct (decide (isOpenOf u r = true)); cbn [length]; lia.
  - destruct (decide (isOpenOf u r = true)); cbn [length]; lia.
Qed.

(** The three ways of a clock-in. *)
Lemma clockIn_refused tz u t db o :
  getOpenShift db u = Some o ->
  clockIn tz u t db = (db, Returned {| ok := false; message := AlreadyClockedIn |}).
Proof. intros H. unfold clockIn. by rewrite H. Qed.

Lemma clockIn_unknown tz u t db :
  getOpenShift db u = None -> u ∉ users db ->
  clockIn tz u t db = (db, Thrown foreign_key_failed).
Proof.
  intros H Hu. unfold clockIn, startShift. rewrite H.
  by rewrite bool_decide_eq_false_2.
Qed.

Lemma clockIn_started tz u t db :
  getOpenShift db u = None -> u ∈ users db ->
  clockIn tz u t db
  = (insertShift u t (dayKey tz t) (isoMonday tz t) db,
     Returned {| ok := true; message := ClockedInAt (formatHHmm tz t) |}).
Proof.
  intros H Hu. unfold clockIn, startShift. rewrite H.
  by rewrite bool_decide_eq_true_2.
Qed.

(** What a clock-in does to the count of a user. *)
Lemma countOpen_clockIn tz u' t db u :
  countOpenSessions (fst (clockIn tz u' t db)) u
  = if decide (u = u' /\ countOpenSessions db u' = 0%nat /\ u' ∈ users db) then 1%nat
    else countOpenSessions db u.
Proof.
  destruct (getOpenShift db u') as [o|] eqn:E.
  - rewrite (clockIn_refused _ _ _ _ _ E). cbn [fst].
    rewrite decide_False; [done|]. intros (-> & H0 & _).
    apply getOpenShift_None in H0. congruence.
  - destruct (decide (u' ∈ users db)) as [Hu|Hu].
    + rewrite (clockIn_started _ _ _ _ E Hu). cbn [fst].
      apply getOpenShift_None in E.
      unfold countOpenSessions at 1. unfold insertShift. cbn [shifts].
      rewrite countOpen_app. fold (countOpenSessions db u).
      unfold isOpenOf. cbn [user_id end_ts]. rewrite andb_true_r.
      destruct (decide (u = u' /\ countOpenSessions db u' = 0%nat /\ u' ∈ users db))
        as [(-> & H0 & _)|N].
      * rewrite Z.eqb_refl, H0. done.
      * destruct (Z.eqb_spec u' u) as [->|Hne]; [by destruct N | lia].
    + rewrite (clockIn_unknown _ _ _ _ E Hu). cbn [fst].
      rewrite decide_False; [done|]. by intros (_ & _ & ?).
Qed.

Lemma countOpen_step tz op db u :
  (countOpenSessions db u <= 1)%nat -> (countOpenSessions (step tz op db) u <= 1)%nat.
Proof.
  intros H. destruct op as [u' t|u' t|u' t|u' t|u']; simpl.
  - rewrite countOpen_clockIn. case_decide; lia.
  - unfold clockOut. destruct (getOpenShift db u'); [|done]. simpl.
    etrans; [apply countOpen_endShift | done].
  - unfold resetDay, deleteDay. simpl. etrans; [apply countOpen_filter | done].
  - unfold resetWeek, deleteWeek. simpl. etrans; [apply countOpen_filter | done].
  - unfold upsertUser. by case_bool_decide.
Qed.

Lemma countOpen_reachable tz db u :
  reachable tz db -> (countOpenSessions db u <= 1)%nat.
Proof.
  induction 1 as [|op db _ IH]; [cbv; lia | by apply countOpen_step].
Qed.

(** With at most one open shift, closing the one found leaves none. *)
Lemma countOpen_clockOut tz u t db :
  (countOpenSessions db u <= 1)%nat ->
  countOpenSessions (fst (clockOut tz u t db)) u = 0%nat.
Proof.
  intros H1. unfold clockOut. destruct (getOpenShift db u) as [o|] eqn:E.
  - apply getOpenShift_Some in E as [Hin Ho]. cbn [fst].
    unfold countOpenSessions in *. unfold endShift. cbn [shifts].
    match goal with |- length ?fl = _ => destruct fl as [|r' rest] eqn:F end; [done|exfalso].
    assert (r' ∈ r' :: rest) as Hr' by left. rewrite <- F in Hr'.
    apply list_elem_of_filter in Hr' as [Hopen Hr'].
    apply list_elem_of_fmap in Hr' as (r & -> & Hr).
    destruct (id r =? id o) eqn:Eid.
    + unfold isOpenOf in Hopen. cbn [end_ts] in Hopen. rewrite andb_false_r in Hopen. done.
    + assert (r ∈ filter (fun r => isOpenOf u r = true) (shifts db)) as F1
        by (by apply list_elem_of_filter).
      assert (o ∈ filter (fun r => isOpenOf u r = true) (shifts db)) as F2
        by (by apply list_elem_of_filter).
      destruct (filter (fun r => isOpenOf u r = true) (shifts db)) as [|a [|b l]];
        [by apply elem_of_nil in F1| |simpl in H1; lia].
      apply list_elem_of_singleton in F1, F2. subst. rewrite Z.eqb_refl in Eid. done.
  - simpl. by apply getOpenShift_None.
Qed.

Lemma trace_invariant tz (P : DB -> Prop) ops db :
  (forall op d, P d -> P (step tz op d)) -> P db -> Forall P (trace tz ops db).
Proof.
  intros Hstep. revert db. induction ops as [|op ops IH]; intros db Hdb; simpl.
  - by constructor.
  - constructor; [done|]. apply IH. by apply Hstep.
Qed.

End LedgerFacts.

(** ** Clocking in and out in the worker *)
Section CommandFacts.
Import Worker Spec.

Lemma sendMessage_store net chat m w : store (fst (sendMessage net chat m w)) = store w.
Proof. apply tgCall_store. Qed.

Lemma cmdIn_open env net now chat u w st :
  openStart (kOpen (store w) !! u) = Some st ->
  cmdIn env net now chat u w
  = sendMessage net chat (AlreadyClockedIn (fmtClock (st + TZ_OFFSET_ms env))) w.
Proof. unfold cmdIn, getOpen, nowLocal. eff. by intros ->. Qed.

Lemma cmdIn_closed env net now chat u w :
  openStart (kOpen (store w) !! u) = None ->
  cmdIn env net now chat u w
  = sendMessage net chat (ClockedIn (fmtClock (now + TZ_OFFSET_ms env)))
      (on_store (clockedIn env now u) w).
Proof.
  unfold cmdIn, getOpen, nowLocal, putOpen, getDay, putDay. eff. intros ->.
  destruct w as [kv out]. reflexivity.
Qed.

Lemma cmdOut_open env net now chat u w st :
  openStart (kOpen (store w) !! u) = Some st ->
  cmdOut env net now chat u w
  = sendMessage net chat
      (ClockedOut (fmtClock (now + TZ_OFFSET_ms env)) (fmtHM (now - st))
         (fmtHM (from_option totalMs 0 (kDay (store w) !! (u, dateKeyLocal env (now + TZ_OFFSET_ms env)))
                 + (now - st))))
      (on_store (clockedOut env now st u) w).
Proof.
  unfold cmdOut, getOpen, nowLocal, getDay, putDay, deleteOpen. eff. intros ->.
  cbn [totalMs]. destruct w as [kv out]. unfold clockedOut, on_store. cbn [store outbox].
  destruct (kDay kv !! (u, dateKeyLocal env (now + TZ_OFFSET_ms env))); reflexivity.
Qed.

Lemma cmdOut_closed env net now chat u w :
  openStart (kOpen (store w) !! u) = None ->
  cmdOut env net now chat u w = sendMessage net chat NotClockedIn w.
Proof. unfold cmdOut, getOpen. eff. by intros ->. Qed.

Lemma countOpen_1 kv u :
  countOpenSessions kv u = 1%nat <-> exists st, openStart (kOpen kv !! u) = Some st.
Proof.
  unfold countOpenSessions. destruct (openStart _) as [st|]; split; try done; eauto.
  intros [? ?]. done.
Qed.

End CommandFacts.

(** ** Open sessions (claims C1 and C9) *)
Section OneOpenSession.
Import Spec.

(** C9. A clock-in while a session is open is refused and changes nothing.
    In the SQLite variant [clockIn] returns the database it was given with
    the reply that the user is already clocked in; in the worker [cmdIn]
    only sends that reply, with the start of the open session, and the
    store, the marker and the day buckets in it, is what it was. *)
Theorem C9_clock_in_while_open
  (tz uid nowTs : Z) (db : Db.DB)
  (env : Worker.Env) (net : Worker.Net) (chat now : Z) (w : Worker.World) (u : string) :
  (0 < Db.countOpenSessions db uid)%nat ->
  Worker.countOpenSessions (Worker.store w) u = 1%nat ->
  Db.clockIn tz uid nowTs db
    = (db, Returned {| Db.ok := false; Db.message := Db.AlreadyClockedIn |})
  /\ Worker.store (fst (Worker.cmdIn env net now chat u w)) = Worker.store w
  /\ exists st,
       Worker.openStart (Worker.kOpen (Worker.store w) !! u) = Some st
       /\ Worker.cmdIn env net now chat u w
          = Worker.sendMessage net chat
              (Worker.AlreadyClockedIn (Worker.fmtClock (st + Worker.TZ_OFFSET_ms env))) w.
Proof.
  intros Hdb Hw. split; [|split].
  - destruct (Db.getOpenShift db uid) as [o|] eqn:E; [by eapply clockIn_refused|].
    apply getOpenShift_None in E. lia.
  - apply countOpen_1 in Hw as [st Hst].
    rewrite (cmdIn_open _ _ _ _ _ _ _ Hst). apply sendMessage_store.
  - apply countOpen_1 in Hw as [st Hst]. exists st. split; [done|].
    by apply cmdIn_open.
Qed.

End OneOpenSession.

Section OneOpenSessionScenario.
Import Spec Scenario.

Lemma tuesdayDb_reachable : Db.reachable tzManila tuesdayDb.
Proof.
  exact (Db.reach_step tzManila (Db.OpClockIn 1001 (mon0800 / 1000 + 86400)) _
        (Db.reach_step tzManila (Db.OpUpsertUser 1003) _
        (Db.reach_step tzManila (Db.OpClockOut 1002 (mon1630 / 1000)) _
        (Db.reach_step tzManila (Db.OpClockIn 1002 (mon0800 / 1000)) _
        (Db.reach_step tzManila (Db.OpUpsertUser 1002) _
        (Db.reach_step tzManila (Db.OpClockOut 1001 (mon1630 / 1000)) _
        (Db.reach_step tzManila (Db.OpClockIn 1001 (mon0800 / 1000)) _
        (Db.reach_step tzManila (Db.OpUpsertUser 1001) _
        (Db.reach_empty tzManila))))))))).
Qed.

(** C1, the code on a session that runs over local midnight.  User 1001
    clocks in on Monday at 23:30 local time, clocks out at 00:30 on Tuesday
    and clocks in again at 09:00.  The loop of [cmdOut] looks for the entry
    to close in the bucket of Tuesday, where there is none, so the entry of
    Monday keeps no end: after the clock-out there is no marker and one
    entry without an end, and after the second clock-in one marker and two
    entries without an end.  The SQLite variant closes the row by its id,
    and has one row without an end after the same three calls. *)
Theorem C1_entries_without_end :
  let d := Db.step tzManila (Db.OpClockIn 1001 (tue0800 / 1000))
          (Db.step tzManila (Db.OpClockOut 1001 ((mon2230 + 3600000) / 1000))
          (Db.step tzManila (Db.OpClockIn 1001 (mon2230 / 1000))
          (Db.step tzManila (Db.OpUpsertUser 1001) Db.emptyDB))) in
  Worker.produced envSunday overnightInAgain
  /\ (Worker.countOpenSessions (Worker.store overnightIn) "1001" = 1%nat
      /\ runningEntries (Worker.store overnightIn) "1001" = 1%nat)
  /\ (Worker.countOpenSessions (Worker.store overnightOut) "1001" = 0%nat
      /\ runningEntries (Worker.store overnightOut) "1001" = 1%nat)
  /\ (Worker.countOpenSessions (Worker.store overnightInAgain) "1001" = 1%nat
      /\ runningEntries (Worker.store overnightInAgain) "1001" = 2%nat)
  /\ Worker.kDay (Worker.store overnightInAgain) !! ("1001", "2025-11-03")
      = Some {| Worker.sessions := [{| Worker.inUtcMs := mon2230; Worker.outUtcMs := None |}];
                Worker.totalMs := 0 |}
  /\ Worker.kDay (Worker.store overnightInAgain) !! ("1001", "2025-11-04")
      = Some {| Worker.sessions := [{| Worker.inUtcMs := tue0800; Worker.outUtcMs := None |}];
                Worker.totalMs := 3600000 |}
  /\ Db.countOpenSessions d 1001 = 1%nat
  /\ (fun r => (Db.start_ts r, Db.end_ts r)) <$> Db.shifts d
     = [(mon2230 / 1000, Some ((mon2230 + 3600000) / 1000)); (tue0800 / 1000, None)].
Proof.
  intros d. split.
  - exact (Worker.produced_step envSunday netUp tue0800 (Worker.ActIn 1001 "1001") _
          (Worker.produced_step envSunday netUp (mon2230 + 3600000) (Worker.ActOut 1001 "1001") _
          (Worker.produced_step envSunday netUp mon2230 (Worker.ActIn 1001 "1001") _
          (Worker.produced_step envSunday netUp 0 (Worker.ActRegister "1001" 1001) _
          (Worker.produced_initial envSunday))))).
  - vm_compute. repeat split; reflexivity.
Qed.

Lemma C9_clock_in_while_open_witness :
  let tz := tzManila in
  let uid := 1001 in
  let nowTs := mon1630 / 1000 + 86400 in
  let db := tuesdayDb in
  let env := envSunday in
  let net := netUp in
  let now := mon1630 + 86400000 in
  let chat := 1003 in
  let w := worked envSunday in
  let u := "1003" in
  Db.clockIn tz uid nowTs db
    = (db, Returned {| Db.ok := false; Db.message := Db.AlreadyClockedIn |})
  /\ Worker.store (fst (Worker.cmdIn env net now chat u w)) = Worker.store w
  /\ exists st,
       Worker.openStart (Worker.kOpen (Worker.store w) !! u) = Some st
       /\ Worker.cmdIn env net now chat u w
          = Worker.sendMessage net chat
              (Worker.AlreadyClockedIn (Worker.fmtClock (st + Worker.TZ_OFFSET_ms env))) w.
Proof.
  intros tz uid nowTs db env net now chat w u.
  apply (C9_clock_in_while_open tz uid nowTs db env net chat now w u).
  - vm_compute. lia.
  - vm_compute. reflexivity.
Defined.

End OneOpenSessionScenario.

(** ** Rates (claim C8) *)
Section Rates.
Import Worker Spec.

Lemma le0_finite_positive v : Number_isFinite v = true -> (le0 v = false <-> finitePositive v).
Proof.
  destruct v as [q| | |]; try done. intros _. simpl.
  rewrite <- not_true_iff_false, Qle_bool_iff. split.
  - apply Qnot_le_lt.
  - intros H1 H2. by apply (Qlt_not_le _ _ H1).
Qed.

Lemma setUserRate_invalid env u v w :
  ~ finitePositive v -> setUserRate env u v w = (w, Thrown bad_rate).
Proof.
  intros Hv. unfold setUserRate. eff.
  destruct (Number_isFinite v) eqn:F; [|done]. simpl.
  destruct (le0 v) eqn:L; [done|]. by apply le0_finite_positive in L.
Qed.

Lemma setUserRate_valid env u v w :
  finitePositive v ->
  setUserRate env u v w
  = (on_store (with_kCfg (insert u {| cfg_rate := Some v |})) w, Returned v).
Proof.
  intros Hv. unfold setUserRate, getCfg, putCfg. eff.
  assert (Number_isFinite v = true) as F by (by destruct v).
  rewrite F. simpl. apply (le0_finite_positive v F) in Hv. by rewrite Hv.
Qed.

Lemma userRate_run env u w :
  userRate env u w
  = (w, Returned (finiteOr (default NaN (overrideOf (store w) u)) (rate env))).
Proof.
  unfold userRate, getCfg, overrideOf. eff.
  by destruct (kCfg (store w) !! u) as [[[r|]]|].
Qed.

(** Only [setUserRate] writes a rate. *)
Lemma runWeeklyUser_kCfg env net utcMs s e u w :
  kCfg (store (fst (runWeeklyUser env net utcMs s e u w))) = kCfg (store w).
Proof.
  destruct (runWeeklyUser_store env net utcMs s e u w) as [-> | ->];
    [done | apply clearWeek_kCfg].
Qed.

Lemma runWeekly_kCfg env net now w :
  kCfg (store (fst (runWeekly env net now w))) = kCfg (store w).
Proof.
  rewrite runWeekly_unfold.
  apply (forEach_invariant (fun w' => kCfg (store w') = kCfg (store w))); [|done].
  intros u w' _ <-. apply runWeeklyUser_kCfg.
Qed.

Lemma cmdIn_kCfg env net now chat u w :
  kCfg (store (fst (cmdIn env net now chat u w))) = kCfg (store w).
Proof.
  destruct (openStart (kOpen (store w) !! u)) as [st|] eqn:E.
  - by rewrite (cmdIn_open _ _ _ _ _ _ _ E), sendMessage_store.
  - by rewrite (cmdIn_closed _ _ _ _ _ _ E), sendMessage_store.
Qed.

Lemma cmdOut_kCfg env net now chat u w :
  kCfg (store (fst (cmdOut env net now chat u w))) = kCfg (store w).
Proof.
  destruct (openStart (kOpen (store w) !! u)) as [st|] eqn:E.
  - by rewrite (cmdOut_open _ _ _ _ _ _ _ E), sendMessage_store.
  - by rewrite (cmdOut_closed _ _ _ _ _ _ E), sendMessage_store.
Qed.

Lemma query_store env net now chat u w :
  store (fst (cmdToday env net now chat u w)) = store w
  /\ store (fst (cmdWeek env net now chat u w)) = store w
  /\ store (fst (cmdPay env net now chat u w)) = store w.
Proof.
  destruct (reportRate_run env u w) as [r Hr].
  split; [|split].
  - unfold cmdToday, todayTotal, nowLocal, getDay, getOpen. eff.
    destruct (openStart (kOpen (store w) !! u)); apply sendMessage_store.
  - unfold cmdWeek. eff. rewrite Hr. apply sendMessage_store.
  - unfold cmdPay. eff. rewrite Hr. apply sendMessage_store.
Qed.

Lemma scheduled_kCfg env net now w :
  kCfg (store (fst (scheduled env net now w))) = kCfg (store w).
Proof.
  destruct (lockHeld (store w)
              (dateKeyLocal env (fst (prevLocalWeekWindow env (now + TZ_OFFSET_ms env)))) now)
    eqn:E.
  - by rewrite scheduled_held.
  - rewrite scheduled_free by done. cbn [fst]. by rewrite runWeekly_kCfg.
Qed.

Lemma fetchAdminRunWeekly_kCfg env net now secret w :
  kCfg (store (fst (fetchAdminRunWeekly env net now secret w))) = kCfg (store w).
Proof.
  unfold fetchAdminRunWeekly.
  destruct (negb _); [done|]. eff.
  pose proof (runWeekly_kCfg env net now w) as H.
  by destruct (runWeekly env net now w) as [w' [[]|ex]].
Qed.

Lemma ratesValid_setUserRate env u v w :
  ratesValid (store w) -> ratesValid (store (fst (setUserRate env u v w))).
Proof.
  intros Hvalid.
  assert (finitePositive v \/ ~ finitePositive v) as [Hv|Hv].
  { destruct v as [q| | |]; [|right; intros []..]. simpl.
    destruct (Qlt_le_dec 0 q); [by left | right; by apply Qle_not_lt]. }
  - rewrite setUserRate_valid by done. cbn [fst].
    intros u' v'. unfold overrideOf. cbn.
    destruct (decide (u' = u)) as [->|Hne].
    + rewrite lookup_insert_eq. cbn. by intros [= <-].
    + rewrite lookup_insert_ne by done. apply Hvalid.
  - by rewrite setUserRate_invalid.
Qed.

Lemma ratesValid_kCfg kv kv' : kCfg kv' = kCfg kv -> ratesValid kv -> ratesValid kv'.
Proof. unfold ratesValid, overrideOf. by intros ->. Qed.

(** Every rate in a store that the worker has produced is finite and
    positive. *)
Lemma ratesValid_produced env w : produced env w -> ratesValid (store w).
Proof.
  induction 1 as [|net now a w _ IH].
  - intros u v. unfold overrideOf. cbn. by rewrite lookup_empty.
  - destruct a as [u c|c u|c u|c u|c u|c u|u v|secret|]; cbn [perform].
    + revert IH. apply ratesValid_kCfg.
      unfold ensureUserChat, getMeta, putMeta. eff. by case_bool_decide.
    + revert IH. apply ratesValid_kCfg, cmdIn_kCfg.
    + revert IH. apply ratesValid_kCfg, cmdOut_kCfg.
    + revert IH. apply ratesValid_kCfg. by rewrite (proj1 (query_store env net now c u w)).
    + revert IH. apply ratesValid_kCfg.
      by rewrite (proj1 (proj2 (query_store env net now c u w))).
    + revert IH. apply ratesValid_kCfg.
      by rewrite (proj2 (proj2 (query_store env net now c u w))).
    + apply (ratesValid_setUserRate env u v) in IH. eff.
      by destruct (setUserRate env u v w) as [w' [x|ex]].
    + revert IH. apply ratesValid_kCfg.
      pose proof (fetchAdminRunWeekly_kCfg env net now secret w) as H. eff.
      by destruct (fetchAdminRunWeekly env net now secret w) as [w' [x|ex]].
    + revert IH. apply ratesValid_kCfg, scheduled_kCfg.
Qed.

(** C8.  In every world the worker has produced, [userRate] returns the
    override of the user exactly when one is stored and is a finite,
    positive number, and the global default otherwise; every override that
    is stored is such a number, [setUserRate] being the one function that
    writes one.  [setUserRate] throws [bad_rate] if and only if the value
    is not a finite positive number, and then leaves the world as it was;
    otherwise it returns the value and stores it as the override, which
    [userRate] returns from then on. *)
Theorem C8_rate_resolution
  (env : Env) (u : string) (v : JsNum) (w : World) :
  produced env w ->
  (forall x, overrideOf (store w) u = Some x -> finitePositive x ->
     exists r, x = Num r /\ userRate env u w = (w, Returned r))
  /\ (~ (exists x, overrideOf (store w) u = Some x /\ finitePositive x) ->
      userRate env u w = (w, Returned (rate env)))
  /\ (forall x, overrideOf (store w) u = Some x -> finitePositive x)
  /\ (snd (setUserRate env u v w) = Thrown bad_rate <-> ~ finitePositive v)
  /\ (~ finitePositive v -> setUserRate env u v w = (w, Thrown bad_rate))
  /\ (finitePositive v ->
      exists r, v = Num r
        /\ snd (setUserRate env u v w) = Returned v
        /\ overrideOf (store (fst (setUserRate env u v w))) u = Some v
        /\ userRate env u (fst (setUserRate env u v w))
           = (fst (setUserRate env u v w), Returned r)).
Proof.
  intros Hw. pose proof (ratesValid_produced env w Hw) as Hvalid.
  split; [|split; [|split; [|split; [|split]]]].
  - intros x Hx Hpos. destruct x as [r| | |]; try done. exists r. split; [done|].
    by rewrite userRate_run, Hx.
  - intros Hno. rewrite userRate_run.
    destruct (overrideOf (store w) u) as [x|] eqn:Hx; [|done].
    exfalso. apply Hno. exists x. split; [done|]. by apply (Hvalid u).
  - apply Hvalid.
  - split.
    + intros Ht Hv. rewrite setUserRate_valid in Ht by done. done.
    + intros Hv. by rewrite setUserRate_invalid.
  - apply setUserRate_invalid.
  - intros Hv. destruct v as [r| | |]; try done. exists r. split; [done|].
    rewrite setUserRate_valid by done. cbn [fst snd]. split; [done|].
    assert (overrideOf (store (on_store (with_kCfg (insert u {| cfg_rate := Some (Num r) |})) w)) u
            = Some (Num r)) as Ho.
    { unfold overrideOf. cbn. by rewrite lookup_insert_eq. }
    split; [done|]. by rewrite userRate_run, Ho.
Qed.

End Rates.

Section RatesScenario.
Import Worker Spec Scenario.

Lemma ratedWorld_produced : produced envSunday ratedWorld.
Proof.
  exact (produced_step envSunday netUp mon0800 (ActSetRate "1001" (Num 4)) _
        (produced_step envSunday netUp mon0800 (ActRegister "1001" 1001) _
        (produced_initial envSunday))).
Qed.

Lemma C8_rate_resolution_witness :
  let env := envSunday in
  let u := "1001" in
  let v := Num 2.75 in
  let w := ratedWorld in
  (forall x, overrideOf (store w) u = Some x -> finitePositive x ->
     exists r, x = Num r /\ userRate env u w = (w, Returned r))
  /\ (~ (exists x, overrideOf (store w) u = Some x /\ finitePositive x) ->
      userRate env u w = (w, Returned (rate env)))
  /\ (forall x, overrideOf (store w) u = Some x -> finitePositive x)
  /\ (snd (setUserRate env u v w) = Thrown bad_rate <-> ~ finitePositive v)
  /\ (~ finitePositive v -> setUserRate env u v w = (w, Thrown bad_rate))
  /\ (finitePositive v ->
      exists r, v = Num r
        /\ snd (setUserRate env u v w) = Returned v
        /\ overrideOf (store (fst (setUserRate env u v w))) u = Some v
        /\ userRate env u (fst (setUserRate env u v w))
           = (fst (setUserRate env u v w), Returned r)).
Proof.
  intros env u v w.
  apply (C8_rate_resolution env u v w).
  exact ratedWorld_produced.
Defined.

End RatesScenario.

(** ** Accrual with an open session (claims C2 and C4) *)
Section Accrual.
Import JsDate Worker Spec.

Lemma todayTotal_run env now u w :
  todayTotal env now u w
  = (w, Returned (closedDay env (store w) u (now + TZ_OFFSET_ms env)
                  + match openStart (kOpen (store w) !! u) with
                    | Some st => now - st
                    | None => 0
                    end)).
Proof.
  unfold todayTotal, nowLocal, getDay, getOpen, closedDay. eff.
  destruct (openStart (kOpen (store w) !! u)); [done|]. by rewrite Z.add_0_r.
Qed.

Lemma sumZ_cons (a : Z) (l : list Z) : sumZ (a :: l) = a + sumZ l.
Proof. reflexivity. Qed.

Lemma sumZ_one_extra (f : Z -> Z) (x i0 : Z) (l : list Z) :
  NoDup l -> i0 ∈ l ->
  sumZ ((fun i => f i + if bool_decide (i = i0) then x else 0) <$> l)
  = sumZ (f <$> l) + x.
Proof.
  induction l as [|i l IH]; intros Hnd Hin; [by apply elem_of_nil in Hin|].
  apply NoDup_cons in Hnd as [Hi Hnd]. rewrite !fmap_cons, !sumZ_cons.
  destruct (decide (i = i0)) as [->|Hne].
  - rewrite bool_decide_eq_true_2 by done.
    assert ((fun i => f i + if bool_decide (i = i0) then x else 0) <$> l = f <$> l) as ->; [|lia].
    apply list_fmap_ext. intros k j Hj.
    rewrite bool_decide_eq_false_2; [lia|]. intros ->.
    apply Hi. by eapply list_elem_of_lookup_2.
  - rewrite bool_decide_eq_false_2 by done.
    apply elem_of_cons in Hin as [?|Hin]; [congruence|].
    rewrite IH by done. lia.
Qed.

(** The week query adds the time of the open session once, on the day of
    the query. *)
Lemma weekTotal_run env now u w :
  0 <= now + TZ_OFFSET_ms env ->
  weekTotal env now u w
  = (w, Returned (closedWeek env (store w) u (weekStartLocal env (now + TZ_OFFSET_ms env))
                  + match openStart (kOpen (store w) !! u) with
                    | Some st => now - st
                    | None => 0
                    end)).
Proof.
  intros Hnow. unfold weekTotal, weekDayTotals, nowLocal, closedWeek. eff. f_equal. f_equal.
  set (localMs := now + TZ_OFFSET_ms env) in *.
  set (start := weekStartLocal env localMs).
  set (x := match openStart (kOpen (store w) !! u) with Some st => now - st | None => 0 end).
  set (i0 := Day localMs - Day start).
  assert (Hstart : start = (Day localMs - i0) * msPerDay /\ 0 <= i0 < 7).
  { subst i0 start. rewrite weekStartLocal_midnight by (unfold msPerDay; lia).
    rewrite Day_of_midnight. unfold getUTCDay.
    destruct (revision env); split; try lia; Z.div_mod_to_equations; lia. }
  destruct Hstart as [Hstart Hi0].
  rewrite <- list_fmap_compose.
  rewrite <- (sumZ_one_extra (fun i => closedDay env (store w) u (start + i * 86400000)) x i0).
  - f_equal. apply list_fmap_ext. intros k i Hi. apply list_elem_of_lookup_2 in Hi.
    apply elem_of_seqZ in Hi. cbn. unfold closedDay.
    assert (bool_decide (dateKeyLocal env (start + i * 86400000) = dateKeyLocal env localMs)
            = bool_decide (i = i0)) as ->.
    { apply bool_decide_ext. split.
      - intros Hk. apply dateKeyLocal_inj in Hk. rewrite Hstart in Hk.
        unfold Day, msPerDay in *. Z.div_mod_to_equations. lia.
      - intros ->. apply dateKeyLocal_same_day. rewrite Hstart.
        unfold Day, msPerDay in *. Z.div_mod_to_equations. lia. }
    subst x. case_bool_decide; [|lia].
    destruct (openStart (kOpen (store w) !! u)); lia.
  - apply NoDup_seqZ.
  - apply elem_of_seqZ. lia.
Qed.

(** The rollover counts the open session up to the end of the window,
    never below zero. *)
Lemma weekReport_total env kv u utcMs s e :
  fst (weekReport env kv u utcMs s e)
  = closedWeek env kv u s
    + match openStart (kOpen kv !! u) with
      | Some st => Z.max 0 (Z.min utcMs e - st)
      | None => 0
      end.
Proof.
  assert (sumZ (fst <$> weekRows env kv u s) = closedWeek env kv u s) as Hsum.
  { unfold weekRows, closedWeek. by rewrite <- list_fmap_compose. }
  unfold weekReport. rewrite Hsum.
  destruct (openStart (kOpen kv !! u)) as [st|]; [|cbn; lia].
  unfold runningExtra. destruct (Z.ltb_spec 0 (Z.max 0 (Z.min utcMs e - st))); cbn; lia.
Qed.

(** A clock-in leaves every closed total as it was. *)
Lemma cmdIn_closedDay env net now chat u w u' t :
  closedDay env (store (fst (cmdIn env net now chat u w))) u' t = closedDay env (store w) u' t.
Proof.
  destruct (openStart (kOpen (store w) !! u)) as [st|] eqn:E.
  - by rewrite (cmdIn_open _ _ _ _ _ _ _ E), sendMessage_store.
  - rewrite (cmdIn_closed _ _ _ _ _ _ E), sendMessage_store.
    unfold closedDay, clockedIn. cbn.
    destruct (decide ((u, dateKeyLocal env (now + TZ_OFFSET_ms env)) = (u', dateKeyLocal env t)))
      as [Heq|Hne].
    + rewrite Heq, lookup_insert_eq. cbn. by destruct (kDay (store w) !! _).
    + by rewrite lookup_insert_ne.
Qed.

Lemma cmdIn_marker env net now chat u w :
  openStart (kOpen (store w) !! u) = None -> now <> 0 ->
  openStart (kOpen (store (fst (cmdIn env net now chat u w))) !! u) = Some now.
Proof.
  intros E Hnow. rewrite (cmdIn_closed _ _ _ _ _ _ E), sendMessage_store.
  unfold clockedIn. cbn. rewrite lookup_insert_eq. cbn.
  destruct (Z.eqb_spec now 0); done.
Qed.

Lemma sumQ_app l1 l2 : (Db.sumQ (l1 ++ l2) == Db.sumQ l1 + Db.sumQ l2)%Q.
Proof.
  induction l1 as [|q l1 IH]; cbn.
  - by rewrite Qplus_0_l.
  - fold (Db.sumQ (l1 ++ l2)). fold (Db.sumQ l1). rewrite IH. apply Qplus_assoc.
Qed.





End Accrual.

Section AccrualScenario.
Import JsDate Worker Spec Scenario.



(** C4, the code at a clock that runs back.  On Tuesday user 1002 works
    from 01:00 to 05:00 UTC, clocks in again at 06:00 and clocks out at an
    instant half an hour before that.  The worker replies with a session
    of 0h 0m and takes the half hour off the stored total of the day, which
    drops from 4h to 3h 30m; the SQLite variant replies with 0 hours and
    its hours of the day drop from 4 to 3.5. *)
Lemma C4_clock_skew_lowers_total :
  let env := envSunday in
  let tA := sun0 + 2 * 86400000 + 3600000 in
  let tB := tA + 4 * 3600000 in
  let tIn := tB + 3600000 in
  let tOut := tIn - 1800000 in
  let w0 := fst (cmdOut env netUp tB 1002 "1002"
                  (fst (cmdIn env netUp tA 1002 "1002" (worked env)))) in
  let w1 := fst (cmdIn env netUp tIn 1002 "1002" w0) in
  let w2 := fst (cmdOut env netUp tOut 1002 "1002" w1) in
  let d0 := fst (Db.clockOut tzManila 1002 (tB / 1000)
                  (fst (Db.clockIn tzManila 1002 (tA / 1000) workedDb))) in
  let d1 := fst (Db.clockIn tzManila 1002 (tIn / 1000) d0) in
  let r2 := Db.clockOut tzManila 1002 (tOut / 1000) d1 in
  (closedDay env (store w1) "1002" (tOut + TZ_OFFSET_ms env) = 4 * 3600000
   /\ closedDay env (store w2) "1002" (tOut + TZ_OFFSET_ms env) = 4 * 3600000 - 1800000
   /\ last (outbox w2)
      = Some {| to := 1002; payload := Text (ClockedOut "06:30" "0h 0m" "3h 30m");
                accepted := true |})
  /\ (Db.getTodayHours tzManila 1002 (tOut / 1000) d1 == 4)%Q
  /\ (exists hhmm h, Db.message (snd r2) = Db.ClockedOutAt hhmm h /\ (h == 0)%Q)
  /\ (Db.getTodayHours tzManila 1002 (tOut / 1000) (fst r2) == 3.5)%Q.
Proof.
  intros env tA tB tIn tOut w0 w1 w2 d0 d1 r2.
  split; [|split; [|split]].
  - vm_compute. repeat split; reflexivity.
  - vm_compute. reflexivity.
  - eexists. eexists. split; [vm_compute; reflexivity|]. vm_compute. reflexivity.
  - vm_compute. reflexivity.
Qed.

End AccrualScenario.
(** ** Errors during the weekly run (claim C5) *)
Section RunTrace.
Import Worker Spec.

Lemma madeBefore_all {A} (ok : A -> bool) (l : list A) :
  forallb ok l = true -> madeBefore ok l = l.
Proof.
  induction l as [|x l IH]; [done|]. cbn. destruct (ok x); [|done].
  cbn. intros H. by rewrite IH.
Qed.

Lemma reportRate_pricedAt env u w :
  reportRate env u w = (w, Returned (pricedAt env (store w) u)).
Proof.
  unfold reportRate, pricedAt. destruct (revision env); [apply userRate_run | done].
Qed.

(** The sends of a turn, call by call. *)
Lemma tgCall_run net c p w :
  tgCall net c p w
  = if comesBack net (c, p)
    then ({| store := store w; outbox := outbox w ++ [recorded net (c, p)] |}, Returned tt)
    else (w, Thrown fetch_failed).
Proof. unfold tgCall, comesBack, recorded. cbn [fst snd]. by destruct (net c p). Qed.

Lemma pair_run net c summary fname rows w :
  (sendMessage net c summary;; sendDocument net c fname rows) w
  = if comesBack net (c, Text summary)
    then if comesBack net (c, Document fname rows)
         then ({| store := store w;
                  outbox := outbox w ++ [recorded net (c, Text summary);
                                         recorded net (c, Document fname rows)] |},
               Returned tt)
         else ({| store := store w;
                  outbox := outbox w ++ [recorded net (c, Text summary)] |},
               Thrown fetch_failed)
    else (w, Thrown fetch_failed).
Proof.
  unfold sendMessage, sendDocument. eff. rewrite tgCall_run.
  destruct (comesBack net (c, Text summary)); [|done].
  rewrite tgCall_run. cbn [store outbox].
  destruct (comesBack net (c, Document fname rows)); [|done].
  by rewrite <- app_assoc.
Qed.

Lemma sends_run net (cs : list Z) summary fname rows w :
  forEach cs (fun chatId =>
      sendMessage net chatId summary;; sendDocument net chatId fname rows) w
  = ({| store := store w;
        outbox := outbox w
                  ++ (recorded net <$> madeBefore (comesBack net)
                        (cs ≫= fun c => [(c, Text summary); (c, Document fname rows)])) |},
     if forallb (comesBack net)
          (cs ≫= fun c => [(c, Text summary); (c, Document fname rows)])
     then Returned tt else Thrown fetch_failed).
Proof.
  revert w. induction cs as [|c cs IH]; intros w.
  - cbn. unfold ret. rewrite app_nil_r. by destruct w.
  - cbn [forEach]. unfold bind at 1. rewrite pair_run.
    cbn [mbind list_bind app madeBefore forallb].
    destruct (comesBack net (c, Text summary)); cbn [andb fmap list_fmap].
    2: { rewrite app_nil_r. by destruct w. }
    destruct (comesBack net (c, Document fname rows)); cbn [andb fmap list_fmap]; [|done].
    rewrite IH. cbn [store outbox]. by rewrite <- app_assoc.
Qed.
(** A turn of the weekly run, in full. *)
Lemma runWeeklyUser_run env net utcMs s e u w :
  runWeeklyUser env net utcMs s e u w
  = if forallb (comesBack net) (turnCalls env (store w) utcMs s e u)
    then ({| store := resetUser env s e (store w) u;
             outbox := outbox w ++ (recorded net <$> turnCalls env (store w) utcMs s e u) |},
          Returned tt)
    else ({| store := store w;
             outbox := outbox w
                       ++ (recorded net <$> madeBefore (comesBack net)
                             (turnCalls env (store w) utcMs s e u)) |},
          Thrown fetch_failed).
Proof.
  unfold turnCalls, resetUser.
  destruct (chatsOf (store w) u) as [|c cs] eqn:Ec.
  - rewrite runWeeklyUser_skip by done. cbn. rewrite app_nil_r. by destruct w.
  - revert Ec. unfold chatsOf, runWeeklyUser, getMeta. eff. intros ->.
    destruct (weekReport env (store w) u utcMs s e) as [total rows]. cbn [fst snd].
    pose proof (reportRate_pricedAt env u w) as Hr. rewrite Hr.
    set (r := pricedAt env (store w) u).
    set (body := fun chatId : Z => _).
    pose proof (sends_run net (c :: cs)
                  (WeeklySummary (fmtHM total) (minutes total) r (dollarsFromMs total r))
                  ("workweek_" +:+ dateKeyLocal env s +:+ ".csv") rows w) as Hrun.
    unfold mbind, M_bind, bind in Hrun.
    match type of Hrun with _ = ?rhs =>
      change (forEach (c :: cs) body w = rhs) in Hrun end.
    rewrite Hrun.
    match goal with |- context [forallb (comesBack net) ?l] =>
      destruct (forallb (comesBack net) l) eqn:F end; [|done].
    rewrite deleteWeekRange_run. rewrite madeBefore_all by done. done.
Qed.

(** Turns that all returned. *)
Lemma forEach_turns env net utcMs s e (us : list string) w w1 :
  forEach us (runWeeklyUser env net utcMs s e) w = (w1, Returned tt) ->
  w1 = {| store := foldl (resetUser env s e) (store w) us;
          outbox := outbox w ++ runCalls env net utcMs s e us (store w) |}.
Proof.
  revert w. induction us as [|x us IH]; intros w.
  - cbn. unfold ret. intros [= <-]. rewrite app_nil_r. by destruct w.
  - cbn [forEach]. unfold bind. rewrite runWeeklyUser_run.
    destruct (forallb _ _); [|done]. intros H. apply IH in H. rewrite H.
    cbn [store outbox foldl runCalls]. by rewrite <- app_assoc.
Qed.

(** The calls of the SQLite driver, user by user. *)
Lemma cronUser_run tz tg now v (b : Bot.World) :
  Bot.cronUser tz tg now v b
  = ({| Bot.db := Bot.db b;
        Bot.outbox := Bot.outbox b
                      ++ madeBefore (resolves tg) (cronCalls tz now (Bot.db b) v);
        Bot.console := Bot.console b |},
     if forallb (resolves tg) (cronCalls tz now (Bot.db b) v)
     then Returned tt else Thrown fetch_failed).
Proof.
  unfold Bot.cronUser, Bot.telegramSend, cronCalls, resolves. eff.
  destruct (Db.getWeekHours tz v now (Bot.db b)) as [hours weekKey].
  destruct (Db.exportWeekCSV tz v now (Bot.db b)) as [wk csv].
  cbn [fst snd madeBefore forallb].
  destruct (tg v (Bot.Summary weekKey hours (Bot.weeklyPay hours))).
  - cbn [Bot.db Bot.outbox Bot.console andb].
    destruct (tg v _); cbn; [by rewrite <- app_assoc | done].
  - cbn. rewrite app_nil_r. by destruct b.
Qed.

Lemma forEach_cronUsers tz tg now (vs : list Z) (b b1 : Bot.World) :
  forEach vs (Bot.cronUser tz tg now) b = (b1, Returned tt) ->
  b1 = {| Bot.db := Bot.db b;
          Bot.outbox := Bot.outbox b ++ (vs ≫= cronCalls tz now (Bot.db b));
          Bot.console := Bot.console b |}.
Proof.
  revert b. induction vs as [|x vs IH]; intros b.
  - cbn. unfold ret. intros [= <-]. rewrite app_nil_r. by destruct b.
  - cbn [forEach]. unfold bind. rewrite cronUser_run.
    destruct (forallb (resolves tg) (cronCalls tz now (Bot.db b) x)) eqn:F; [|done].
    intros H. apply IH in H. rewrite H. cbn [Bot.db Bot.outbox Bot.console].
    rewrite madeBefore_all by done. cbn [mbind list_bind]. by rewrite <- app_assoc.
Qed.

(** C5, as the code has it.  In the worker a call that Telegram refuses
    does not raise: with a collaborator that always answers, the run
    returns, has made every call of every turn and has cleared the week of
    every listed user with chats.  A call that does not come back raises
    in the turn of its user and ends the run there, for the loop has no
    catch (whatever a turn does, its raise leaves the loop): the calls made
    until then stay made, those of the users before and those of the
    failing turn before the failing call, so that a user whose document
    fails has been sent the summary already; the week of the failing user
    is not cleared, and the users after it are neither sent anything nor
    cleared.  The SQLite driver catches the error once, around the whole
    loop, and logs it: the calls made until then stay made, and the users
    after the failing one get nothing. *)
Theorem C5_raised_error_ends_run
  (env : Env) (net net' : Net) (now : Z) (w w1 : World)
  (us1 us2 : list string) (u : string)
  (tz nowTs : Z) (tg : Bot.Telegram) (b b1 : Bot.World)
  (vs1 vs2 : list Z) (v : Z) :
  let s := fst (prevLocalWeekWindow env (now + TZ_OFFSET_ms env)) in
  let e := snd (prevLocalWeekWindow env (now + TZ_OFFSET_ms env)) in
  listedUsers (store w) = us1 ++ u :: us2 ->
  forEach us1 (runWeeklyUser env net now s e) w = (w1, Returned tt) ->
  forallb (comesBack net) (turnCalls env (store w1) now s e u) = false ->
  (forall c p, net' c p <> Unreachable) ->
  Db.users (Bot.db b) = vs1 ++ v :: vs2 ->
  forEach vs1 (Bot.cronUser tz tg nowTs) b = (b1, Returned tt) ->
  forallb (resolves tg) (cronCalls tz nowTs (Bot.db b) v) = false ->
  (snd (runWeekly env net now w) = Thrown fetch_failed
   /\ store (fst (runWeekly env net now w)) = foldl (resetUser env s e) (store w) us1
   /\ outbox (fst (runWeekly env net now w))
      = outbox w ++ runCalls env net now s e us1 (store w)
        ++ (recorded net <$> madeBefore (comesBack net)
              (turnCalls env (foldl (resetUser env s e) (store w) us1) now s e u))
   /\ store w1 = foldl (resetUser env s e) (store w) us1
   /\ (forall (body : string -> M World unit) (wa wb : World) (ex : Exn),
         forEach us1 body w = (wa, Returned tt) -> body u wa = (wb, Thrown ex) ->
         forEach (us1 ++ u :: us2) body w = (wb, Thrown ex)))
  /\ (snd (runWeekly env net' now w) = Returned tt
      /\ store (fst (runWeekly env net' now w))
         = foldl (resetUser env s e) (store w) (listedUsers (store w))
      /\ outbox (fst (runWeekly env net' now w))
         = outbox w ++ runCalls env net' now s e (listedUsers (store w)) (store w))
  /\ (Bot.cronWeekly tz tg nowTs b
      = ({| Bot.db := Bot.db b;
            Bot.outbox := Bot.outbox b ++ (vs1 ≫= cronCalls tz nowTs (Bot.db b))
                          ++ madeBefore (resolves tg) (cronCalls tz nowTs (Bot.db b) v);
            Bot.console := Bot.console b ++ [Bot.LogError fetch_failed] |}, Returned tt)).
Proof.
  intros s e Hl H1 Hu Hnet' Hv Hb1 Hb2.
  split; [|split].
  - pose proof (forEach_turns _ _ _ _ _ _ _ _ H1) as E1.
    assert (store w1 = foldl (resetUser env s e) (store w) us1
            /\ outbox w1 = outbox w ++ runCalls env net now s e us1 (store w))
      as [Hs1 Ho1] by (by rewrite E1).
    assert (runWeekly env net now w
            = ({| store := store w1;
                  outbox := outbox w1
                            ++ (recorded net <$> madeBefore (comesBack net)
                                  (turnCalls env (store w1) now s e u)) |},
               Thrown fetch_failed)) as ->.
    { rewrite runWeekly_unfold. fold s e. rewrite Hl.
      apply (forEach_throws us1 us2 u _ w w1); [done|].
      by rewrite runWeeklyUser_run, Hu. }
    cbn [fst snd store outbox]. rewrite Ho1, Hs1, <- app_assoc.
    repeat split; try done.
    intros body wa wb ex Ha Hb. by eapply forEach_throws.
  - rewrite runWeekly_unfold. fold s e.
    destruct (forEach_total (listedUsers (store w)) (runWeeklyUser env net' now s e) w)
      as [w' Hw'].
    { intros x w0. by apply runWeeklyUser_reliable. }
    rewrite Hw'. cbn [fst snd]. apply forEach_turns in Hw'. by rewrite Hw'.
  - unfold Bot.cronWeekly. eff. rewrite Hv.
    pose proof (forEach_cronUsers _ _ _ _ _ _ Hb1) as Eb1.
    assert (Bot.db b1 = Bot.db b /\ Bot.console b1 = Bot.console b
            /\ Bot.outbox b1 = Bot.outbox b ++ (vs1 ≫= cronCalls tz nowTs (Bot.db b)))
      as (Hd & Hc & Ho) by (by rewrite Eb1).
    clear Eb1.
    assert (Bot.cronUser tz tg nowTs v b1
            = ({| Bot.db := Bot.db b;
                  Bot.outbox := Bot.outbox b1
                                ++ madeBefore (resolves tg) (cronCalls tz nowTs (Bot.db b) v);
                  Bot.console := Bot.console b |}, Thrown fetch_failed)) as Hb.
    { by rewrite cronUser_run, Hd, Hc, Hb2. }
    rewrite (forEach_throws vs1 vs2 v _ b b1 _ fetch_failed Hb1 Hb).
    unfold Bot.consoleLog, modify. cbn [Bot.db Bot.outbox Bot.console].
    rewrite Ho. by rewrite <- app_assoc.
Qed.

End RunTrace.

Section RunTraceScenario.
Import Worker Spec Scenario.

(** C5, refuted as stated: Telegram is out of reach for the chat of the
    first listed user.  The run throws; the second user, listed after it
    and registered with a chat, is sent nothing and keeps its day bucket. *)
Lemma C5_later_users_not_processed :
  let w := worked envSunday in
  let r := runWeekly envSunday (netDownFor 1001) sat2259 w in
  listedUsers (store w) = ["1001"; "1002"; "1003"]
  /\ chatsOf (store w) "1002" = [1002]
  /\ snd r = Thrown fetch_failed
  /\ outbox (fst r) = []
  /\ kDay (store (fst r)) !! ("1002", "2025-11-03") = kDay (store w) !! ("1002", "2025-11-03")
  /\ from_option totalMs 0 (kDay (store w) !! ("1002", "2025-11-03")) = 30600000.
Proof. vm_compute. repeat split; reflexivity. Qed.


Lemma C5_raised_error_ends_run_witness :
  let env := envSunday in
  let net := netDocDownFor 1002 in
  let net' := netRefusing 1001 in
  let now := sat2259 in
  let w := worked envSunday in
  let us1 := ["1001"] in
  let u := "1002" in
  let us2 := ["1003"] in
  let s := fst (prevLocalWeekWindow env (now + TZ_OFFSET_ms env)) in
  let e := snd (prevLocalWeekWindow env (now + TZ_OFFSET_ms env)) in
  let w1 := fst (runWeeklyUser env net now s e "1001" w) in
  let tg : Bot.Telegram :=
    fun chat p => match p with Bot.Csv _ _ => negb (chat =? 1002) | Bot.Summary _ _ _ => true end in
  let nowTs := sat2259 / 1000 in
  let b := {| Bot.db := workedDb; Bot.outbox := []; Bot.console := [] |} in
  let b1 := fst (Bot.cronUser tzManila tg nowTs 1001 b) in
  let vs1 := [1001] in
  let v := 1002 in
  let vs2 := [1003] in
  (snd (runWeekly env net now w) = Thrown fetch_failed
   /\ store (fst (runWeekly env net now w)) = foldl (resetUser env s e) (store w) us1
   /\ outbox (fst (runWeekly env net now w))
      = outbox w ++ runCalls env net now s e us1 (store w)
        ++ (recorded net <$> madeBefore (comesBack net)
              (turnCalls env (foldl (resetUser env s e) (store w) us1) now s e u))
   /\ store w1 = foldl (resetUser env s e) (store w) us1
   /\ (forall (body : string -> M World unit) (wa wb : World) (ex : Exn),
         forEach us1 body w = (wa, Returned tt) -> body u wa = (wb, Thrown ex) ->
         forEach (us1 ++ u :: us2) body w = (wb, Thrown ex)))
  /\ (snd (runWeekly env net' now w) = Returned tt
      /\ store (fst (runWeekly env net' now w))
         = foldl (resetUser env s e) (store w) (listedUsers (store w))
      /\ outbox (fst (runWeekly env net' now w))
         = outbox w ++ runCalls env net' now s e (listedUsers (store w)) (store w))
  /\ (Bot.cronWeekly tzManila tg nowTs b
      = ({| Bot.db := Bot.db b;
            Bot.outbox := Bot.outbox b ++ (vs1 ≫= cronCalls tzManila nowTs (Bot.db b))
                          ++ madeBefore (resolves tg) (cronCalls tzManila nowTs (Bot.db b) v);
            Bot.console := Bot.console b ++ [Bot.LogError fetch_failed] |}, Returned tt)).
Proof.
  intros env net net' now w us1 u us2 s e w1 tg nowTs b b1 vs1 v vs2.
  apply (C5_raised_error_ends_run env net net' now w w1 us1 us2 u
           tzManila nowTs tg b b1 vs1 vs2 v).
  - vm_compute. reflexivity.
  - vm_compute. reflexivity.
  - vm_compute. reflexivity.
  - intros c p. unfold net', netRefusing. destruct (c =? 1001); discriminate.
  - vm_compute. reflexivity.
  - vm_compute. reflexivity.
  - vm_compute. reflexivity.
Defined.

(** The run of the witness on record: both calls of the first user, then
    the summary of the second, whose document does not come back. *)
Lemma docDown_outbox :
  (fun c => (to c, match payload c with Text _ => "summary" | Document _ _ => "csv" end))
    <$> outbox (fst (runWeekly envSunday (netDocDownFor 1002) sat2259 (worked envSunday)))
  = [(1001, "summary"); (1001, "csv"); (1002, "summary")].
Proof. vm_compute. reflexivity. Qed.

End RunTraceScenario.

(* ================================================================== *)
(** * Part III: further properties of the code                         *)
(* ================================================================== *)

(** ** Clocking in and out, composed *)
Section ClockRounds.
Import JsDate Worker Spec.

(** X1. A clock-out with no session open changes nothing: [clockOut] of
    the SQLite variant returns the database it was given and the reply that
    there is no active shift; [cmdOut] of the worker only sends the reply
    that the user is not clocked in. *)
Theorem X1_clock_out_while_closed
  (tz uid nowTs : Z) (db : Db.DB)
  (env : Env) (net : Net) (chat now : Z) (w : World) (u : string) :
  Db.countOpenSessions db uid = 0%nat ->
  countOpenSessions (store w) u = 0%nat ->
  Db.clockOut tz uid nowTs db = (db, {| Db.ok := false; Db.message := Db.NoActiveShift |})
  /\ cmdOut env net now chat u w = sendMessage net chat NotClockedIn w
  /\ store (fst (cmdOut env net now chat u w)) = store w.
Proof.
  intros Hdb Hw.
  assert (openStart (kOpen (store w) !! u) = None) as E.
  { unfold countOpenSessions in Hw. by destruct (openStart _). }
  split; [|split].
  - apply getOpenShift_None in Hdb. unfold Db.clockOut. by rewrite Hdb.
  - by apply cmdOut_closed.
  - rewrite cmdOut_closed by done. apply sendMessage_store.
Qed.

Lemma closeFirst_open utcMs s l :
  outUtcMs s = None ->
  closeFirst utcMs (s :: l) = {| inUtcMs := inUtcMs s; outUtcMs := Some utcMs |} :: l.
Proof. intros H. simpl. by rewrite H. Qed.

(** The loop of [cmdOut] closes the entry that [cmdIn] had just pushed. *)
Lemma closeLast_snoc utcMs l s :
  outUtcMs s = None ->
  closeLast utcMs (l ++ [s]) = l ++ [{| inUtcMs := inUtcMs s; outUtcMs := Some utcMs |}].
Proof.
  intros H. unfold closeLast. rewrite rev_unit, closeFirst_open by done.
  simpl. by rewrite rev_involutive.
Qed.

Lemma clockedIn_marker env now u kv : kOpen (clockedIn env now u kv) !! u = Some {| startUtcMs := now |}.
Proof. unfold clockedIn. cbn. apply lookup_insert_eq. Qed.

Lemma clockedIn_kDay env now u kv u' d :
  kDay (clockedIn env now u kv) !! (u', d)
  = if decide ((u', d) = (u, dateKeyLocal env (now + TZ_OFFSET_ms env)))
    then Some {| sessions := from_option sessions [] (kDay kv !! (u', d))
                             ++ [{| inUtcMs := now; outUtcMs := None |}];
                 totalMs := from_option totalMs 0 (kDay kv !! (u', d)) |}
    else kDay kv !! (u', d).
Proof.
  unfold clockedIn. cbn. case_decide as E.
  - injection E as -> ->. rewrite lookup_insert_eq.
    by destruct (kDay kv !! _).
  - by rewrite lookup_insert_ne.
Qed.

Lemma clockedOut_kDay env now st u kv u' d :
  kDay (clockedOut env now st u kv) !! (u', d)
  = if decide ((u', d) = (u, dateKeyLocal env (now + TZ_OFFSET_ms env)))
    then Some {| sessions := closeLast now (from_option sessions [] (kDay kv !! (u', d)));
                 totalMs := from_option totalMs 0 (kDay kv !! (u', d)) + (now - st) |}
    else kDay kv !! (u', d).
Proof.
  unfold clockedOut. cbn. case_decide as E.
  - injection E as -> ->. rewrite lookup_insert_eq.
    by destruct (kDay kv !! _).
  - by rewrite lookup_insert_ne.
Qed.

(** The store after a clock-in at [t1] with no session open and a
    clock-out at [t2]. *)
Lemma in_then_out_store env net t1 t2 chat u w :
  openStart (kOpen (store w) !! u) = None -> t1 <> 0 ->
  store (fst (cmdOut env net t2 chat u (fst (cmdIn env net t1 chat u w))))
  = clockedOut env t2 t1 u (clockedIn env t1 u (store w)).
Proof.
  intros E Ht.
  pose proof (cmdIn_marker env net t1 chat u w E Ht) as Hm.
  rewrite (cmdOut_open _ _ _ _ _ _ _ Hm), sendMessage_store. cbn [on_store store].
  by rewrite (cmdIn_closed _ _ _ _ _ _ E), sendMessage_store.
Qed.

(** X2. A clock-in at [t1] followed by a clock-out at [t2] removes the
    marker and adds [t2 - t1] to the stored total of the local day of the
    clock-out, whatever day the session began on; the total of every other
    day is unchanged. *)
Theorem X2_clock_round_credits_clock_out_day
  (env : Env) (net : Net) (t1 t2 chat : Z) (u : string) (w : World) :
  openStart (kOpen (store w) !! u) = None -> t1 <> 0 ->
  let w2 := fst (cmdOut env net t2 chat u (fst (cmdIn env net t1 chat u w))) in
  kOpen (store w2) !! u = None
  /\ closedDay env (store w2) u (t2 + TZ_OFFSET_ms env)
     = closedDay env (store w) u (t2 + TZ_OFFSET_ms env) + (t2 - t1)
  /\ (forall t, Day t <> Day (t2 + TZ_OFFSET_ms env) ->
        closedDay env (store w2) u t = closedDay env (store w) u t).
Proof.
  intros E Ht w2. subst w2. rewrite in_then_out_store by done.
  split; [|split].
  - unfold clockedOut. cbn. apply lookup_delete_eq.
  - unfold closedDay. rewrite clockedOut_kDay, clockedIn_kDay.
    rewrite decide_True by done. by case_decide.
  - intros t Hd. unfold closedDay. rewrite clockedOut_kDay, clockedIn_kDay.
    rewrite decide_False.
    + by case_decide.
    + intros [= Hk]. by apply dateKeyLocal_inj in Hk.
Qed.

(** X3. The session entries of such a round.  When both instants lie on
    one local day, the bucket of that day gains one entry with both ends.
    When local midnight lies between them, the entry stays under the day
    of the clock-in without an end, and in the bucket of the day of the
    clock-out the loop of [cmdOut] closes the last entry left open there, if
    any: the round is not split between the days. *)
Theorem X3_clock_round_session_entries
  (env : Env) (net : Net) (t1 t2 chat : Z) (u : string) (w : World) :
  openStart (kOpen (store w) !! u) = None -> t1 <> 0 ->
  let w2 := fst (cmdOut env net t2 chat u (fst (cmdIn env net t1 chat u w))) in
  let d1 := dateKeyLocal env (t1 + TZ_OFFSET_ms env) in
  let d2 := dateKeyLocal env (t2 + TZ_OFFSET_ms env) in
  let before d := from_option sessions [] (kDay (store w) !! (u, d)) in
  let entries d := from_option sessions [] (kDay (store w2) !! (u, d)) in
  (d1 = d2 -> entries d2 = before d2 ++ [{| inUtcMs := t1; outUtcMs := Some t2 |}])
  /\ (d1 <> d2 ->
      entries d1 = before d1 ++ [{| inUtcMs := t1; outUtcMs := None |}]
      /\ entries d2 = closeLast t2 (before d2)).
Proof.
  intros E Ht w2 d1 d2 before entries. subst entries w2.
  rewrite in_then_out_store by done. split.
  - intros Hd. rewrite clockedOut_kDay, clockedIn_kDay.
    rewrite !decide_True by (fold d1 d2; congruence). cbn [from_option sessions].
    by rewrite closeLast_snoc.
  - intros Hd. split.
    + rewrite clockedOut_kDay, clockedIn_kDay.
      rewrite decide_False by (fold d1 d2; congruence).
      by rewrite decide_True.
    + rewrite clockedOut_kDay, clockedIn_kDay.
      rewrite decide_True by done.
      by rewrite decide_False by (fold d1 d2; congruence).
Qed.

(** X4. The commands of one user leave the others alone: after [cmdIn] or
    [cmdOut] of [u], the marker and every day bucket of any other user, the
    meta records, the rates and the locks are what they were. *)
Theorem X4_commands_touch_one_user
  (env : Env) (net : Net) (now chat : Z) (v : string) (w : World) (c : Command) :
  v <> commandUser c ->
  let w' := fst (runCommand env net chat (c, now) w) in
  kOpen (store w') !! v = kOpen (store w) !! v
  /\ (forall d, kDay (store w') !! (v, d) = kDay (store w) !! (v, d))
  /\ kMeta (store w') = kMeta (store w)
  /\ kCfg (store w') = kCfg (store w)
  /\ kLock (store w') = kLock (store w).
Proof.
  intros Hne w'. subst w'. destruct c as [u|u]; cbn [runCommand]; cbn [commandUser] in Hne.
  - destruct (openStart (kOpen (store w) !! u)) as [st|] eqn:E.
    + by rewrite (cmdIn_open _ _ _ _ _ _ _ E), sendMessage_store.
    + rewrite (cmdIn_closed _ _ _ _ _ _ E), sendMessage_store. cbn [on_store store].
      repeat split; try done.
      * unfold clockedIn. cbn. by rewrite lookup_insert_ne.
      * intros d. rewrite clockedIn_kDay, decide_False; [done | congruence].
  - destruct (openStart (kOpen (store w) !! u)) as [st|] eqn:E.
    + rewrite (cmdOut_open _ _ _ _ _ _ _ E), sendMessage_store. cbn [on_store store].
      repeat split; try done.
      * unfold clockedOut. cbn. by rewrite lookup_delete_ne.
      * intros d. rewrite clockedOut_kDay, decide_False; [done | congruence].
    + by rewrite (cmdOut_closed _ _ _ _ _ _ E), sendMessage_store.
Qed.

End ClockRounds.

(** ** The ledger of the SQLite variant, further *)
Section LedgerMore.
Import Db Spec.

Lemma filter_ids_NoDup (P : Shift -> Prop) `{!forall r, Decision (P r)} l :
  NoDup (id <$> l) -> NoDup (id <$> filter P l).
Proof.
  intros Hnd. eapply sublist_NoDup; [exact Hnd|].
  apply fmap_sublist, sublist_filter.
Qed.

Lemma Forall_filter_keep (Q P : Shift -> Prop) `{!forall r, Decision (P r)} l :
  Forall Q l -> Forall Q (filter P l).
Proof.
  rewrite !Forall_forall. intros Hall x Hx.
  apply list_elem_of_filter in Hx as [_ Hx]. by apply Hall.
Qed.

Lemma endShift_ids endTs shiftId db : id <$> shifts (endShift endTs shiftId db) = id <$> shifts db.
Proof.
  unfold endShift. cbn [shifts]. rewrite <- list_fmap_compose.
  apply list_fmap_ext. intros k r _. cbn. by destruct (id r =? shiftId).
Qed.

Lemma insertUser_perm x l : insertUser x l ≡ₚ x :: l.
Proof.
  induction l as [|y l IH]; [done|]. cbn. destruct (x <? y); [done|].
  rewrite IH. apply Permutation_swap.
Qed.

Lemma ledgerOk_step tz op db :
  0 <= seq db -> ledgerOk tz db ->
  0 <= seq (step tz op db) /\ ledgerOk tz (step tz op db).
Proof.
  intros Hseq (Hnd & Hall & Hus).
  destruct op as [u t|u t|u t|u t|u]; cbn [step].
  - unfold clockIn, startShift. destruct (getOpenShift db u); [done|].
    case_bool_decide; [|done]. cbn [fst].
    unfold insertShift, ledgerOk. cbn [shifts seq users].
    split; [lia|]. split; [|split; [|done]].
    + rewrite fmap_app. apply NoDup_app. split; [done|]. split; [|apply NoDup_singleton].
      intros x Hx Hx'. apply list_elem_of_singleton in Hx'. subst x.
      apply list_elem_of_fmap in Hx as (r & Hr & Hin).
      rewrite Forall_forall in Hall. apply Hall in Hin. cbn [id] in Hr. lia.
    + apply Forall_app. split.
      * eapply Forall_impl; [exact Hall|]. cbn beta. intros r (? & ? & ?).
        repeat split; try done; lia.
      * apply Forall_singleton. cbn [id day_key week_key start_ts]. repeat split; lia.
  - unfold clockOut. destruct (getOpenShift db u) as [o|]; [|done]. cbn [fst].
    split; [done|]. unfold ledgerOk. rewrite endShift_ids.
    split; [done|]. split; [|done].
    unfold endShift. cbn [shifts seq]. apply Forall_fmap.
    eapply Forall_impl; [exact Hall|]. intros r Hr. cbn. by destruct (id r =? id o).
  - unfold resetDay, deleteDay, ledgerOk. cbn [fst shifts seq users].
    split; [done|]. split; [by apply filter_ids_NoDup|]. split; [by apply Forall_filter_keep|done].
  - unfold resetWeek, deleteWeek, ledgerOk. cbn [fst shifts seq users].
    split; [done|]. split; [by apply filter_ids_NoDup|]. split; [by apply Forall_filter_keep|done].
  - unfold upsertUser, ledgerOk. case_bool_decide as Hin; [done|]. cbn [shifts seq users].
    split; [done|]. split; [done|]. split; [done|].
    rewrite insertUser_perm. by apply NoDup_cons.
Qed.

Lemma ledgerOk_reachable tz db : reachable tz db -> 0 <= seq db /\ ledgerOk tz db.
Proof.
  induction 1 as [|op db _ [IH1 IH2]].
  - split; [done|]. repeat split; cbn; constructor.
  - by apply ledgerOk_step.
Qed.
End LedgerMore.
Section ClockRoundDb.
Import Db Spec.

Lemma getOpenShift_insertShift u t d wk db :
  countOpenSessions db u = 0%nat ->
  getOpenShift (insertShift u t d wk db) u
  = Some {| id := seq db + 1; user_id := u; start_ts := t; end_ts := None;
            day_key := d; week_key := wk |}.
Proof.
  intros H. apply getOpenShift_None in H. rewrite getOpenShift_fold in *.
  unfold insertShift. cbn [shifts]. rewrite foldl_app, H. cbn [foldl].
  unfold pickOpen, isOpenOf. cbn [user_id end_ts]. by rewrite Z.eqb_refl.
Qed.

Lemma endShift_insertShift tz t2 u t d wk db :
  ledgerOk tz db ->
  shifts (endShift t2 (seq db + 1) (insertShift u t d wk db))
  = shifts db ++ [{| id := seq db + 1; user_id := u; start_ts := t; end_ts := Some t2;
                     day_key := d; week_key := wk |}].
Proof.
  intros (_ & Hall & _). unfold endShift, insertShift. cbn [shifts].
  rewrite fmap_app. f_equal.
  - rewrite <- (list_fmap_id (shifts db)) at 2. apply list_fmap_ext.
    intros k r Hr. apply list_elem_of_lookup_2 in Hr.
    rewrite Forall_forall in Hall. apply Hall in Hr.
    destruct (Z.eqb_spec (id r) (seq db + 1)); [lia|done].
  - cbn. by rewrite Z.eqb_refl.
Qed.

(** The database after a clock-in at [t1] of a registered user with no
    shift open and a clock-out at [t2]: one more row, with both ends. *)
Lemma clock_round_db tz u t1 t2 db :
  ledgerOk tz db -> countOpenSessions db u = 0%nat -> u ∈ users db ->
  clockOut tz u t2 (fst (clockIn tz u t1 db))
  = ({| users := users db;
        shifts := shifts db ++ [{| id := seq db + 1; user_id := u; start_ts := t1;
                                   end_ts := Some t2; day_key := dayKey tz t1;
                                   week_key := isoMonday tz t1 |}];
        seq := seq db + 1 |},
     {| ok := true; message := ClockedOutAt (formatHHmm tz t2) (durationHours t1 t2) |}).
Proof.
  intros Hok H0 Hu.
  rewrite clockIn_started by (by apply getOpenShift_None || done). cbn [fst].
  unfold clockOut. rewrite getOpenShift_insertShift by done. cbn [id start_ts].
  f_equal. pose proof (endShift_insertShift tz t2 u t1 (dayKey tz t1) (isoMonday tz t1) db Hok) as E.
  unfold endShift in *. cbn [shifts users seq] in *. by rewrite E.
Qed.

Lemma sumQ_filter_snoc (P : Shift -> Prop) `{!forall r, Decision (P r)} l r :
  (sumQ (closedHours <$> filter P (l ++ [r]))
   == sumQ (closedHours <$> filter P l) + if decide (P r) then closedHours r else 0)%Q.
Proof.
  rewrite filter_app, fmap_app, sumQ_app. apply Qplus_comp; [reflexivity|].
  rewrite filter_cons, filter_nil. case_decide; cbn; [apply Qplus_0_r | reflexivity].
Qed.
End ClockRoundDb.
Section LedgerTheorems.
Import Db Spec.

(** X5. In every database that the operations of the ledger lead to from
    the empty one, no two rows of [shifts] share an id, every id lies
    between 1 and the counter, each row carries the day key and the week
    key of its own start instant, and no user is listed twice. *)
Theorem X5_ledger_rows_well_formed (tz : Z) (db : DB) :
  reachable tz db -> 0 <= seq db /\ ledgerOk tz db.
Proof. apply ledgerOk_reachable. Qed.

(** X6. For a user with a row in [users] and no shift open, a clock-in at
    [t1] followed by a clock-out at [t2] succeeds twice, the second reply
    carrying the duration clamped at zero, and leaves the table with
    exactly one more row: the shift from [t1] to [t2] under the next id,
    filed under the day and the week of [t1], whatever the day of [t2].
    No shift is left open, and the hours of every other user, day and week
    are what they were.  For a user without a row in [users] the clock-in
    throws and changes nothing, and the clock-out finds no shift. *)
Theorem X6_clock_round_rows (tz u t1 t2 : Z) (db : DB) :
  reachable tz db -> countOpenSessions db u = 0%nat ->
  let r1 := clockIn tz u t1 db in
  let r2 := clockOut tz u t2 (fst r1) in
  (u ∈ users db ->
     snd r1 = Returned {| ok := true; message := ClockedInAt (formatHHmm tz t1) |}
     /\ r2 = ({| users := users db;
                 shifts := shifts db ++ [{| id := seq db + 1; user_id := u; start_ts := t1;
                                            end_ts := Some t2; day_key := dayKey tz t1;
                                            week_key := isoMonday tz t1 |}];
                 seq := seq db + 1 |},
              {| ok := true;
                 message := ClockedOutAt (formatHHmm tz t2) (durationHours t1 t2) |})
     /\ countOpenSessions (fst r2) u = 0%nat
     /\ (forall v q, v <> u \/ dayKey tz q <> dayKey tz t1 ->
           (getTodayHours tz v q (fst r2) == getTodayHours tz v q db)%Q)
     /\ (forall v q, v <> u \/ isoMonday tz q <> isoMonday tz t1 ->
           (fst (getWeekHours tz v q (fst r2)) == fst (getWeekHours tz v q db))%Q))
  /\ (u ∉ users db ->
      r1 = (db, Thrown foreign_key_failed)
      /\ r2 = (db, {| ok := false; message := NoActiveShift |})).
Proof.
  intros Hreach H0 r1 r2.
  destruct (ledgerOk_reachable tz db Hreach) as [Hseq Hok].
  pose proof H0 as Hnone. apply getOpenShift_None in Hnone.
  split.
  - intros Hu.
    assert (r2 = clockOut tz u t2 (fst (clockIn tz u t1 db))) as E by done.
    rewrite clock_round_db in E by done.
    split; [subst r1; by rewrite clockIn_started|].
    split; [done|].
    split.
    { subst r2 r1. apply countOpen_clockOut.
      rewrite countOpen_clockIn. case_decide; lia. }
    rewrite E. cbn [fst]. unfold getTodayHours, getWeekHours, sumDay, sumWeek. cbn [shifts fst].
    split; intros v q Hvq; rewrite sumQ_filter_snoc.
    + cbn [user_id day_key]. rewrite decide_False; [apply Qplus_0_r|].
      intros [<- Hk]. destruct Hvq as [?|Hq]; [done|]. by apply Hq.
    + cbn [user_id week_key]. rewrite decide_False; [apply Qplus_0_r|].
      intros [<- Hk]. destruct Hvq as [?|Hq]; [done|]. by apply Hq.
  - intros Hu. subst r2 r1. rewrite clockIn_unknown by done. cbn [fst].
    split; [done|]. unfold clockOut. by rewrite Hnone.
Qed.

Lemma filter_after_delete (P Q : Shift -> Prop)
    `{!forall r, Decision (P r), !forall r, Decision (Q r)} (l : list Shift) :
  (forall r, P r -> Q r -> False) ->
  filter P (filter (fun r => ~ Q r) l) = filter P l.
Proof.
  intros Hpq. rewrite list_filter_filter. apply list_filter_iff.
  intros r. split; [by intros [? _]|]. intros Hp. split; [done|]. intros Hq. by eapply Hpq.
Qed.

Lemma filter_deleted (Q : Shift -> Prop) `{!forall r, Decision (Q r)} (l : list Shift) :
  filter Q (filter (fun r => ~ Q r) l) = [].
Proof.
  induction l as [|r l IH]; [done|]. rewrite filter_cons.
  destruct (decide (~ Q r)) as [Hn|Hn]; [|done].
  rewrite filter_cons, decide_False by done. done.
Qed.

Lemma length_filter_split (Q : Shift -> Prop) `{!forall r, Decision (Q r)} (l : list Shift) :
  length l = (length (filter (fun r => ~ Q r) l) + length (filter Q l))%nat.
Proof.
  induction l as [|r l IH]; [done|]. rewrite !filter_cons.
  destruct (decide (Q r)) as [Hq|Hq].
  - rewrite decide_False by tauto. cbn [length]. lia.
  - rewrite decide_True by done. cbn [length]. lia.
Qed.

(** X7. After [resetWeek] the hours of the week of the user are zero, and
    after [resetDay] those of the day; the number reported is the number of
    rows that went; and the hours of any other user, for any day and week,
    are what they were. *)
Theorem X7_reset_round_trip (tz u v nowTs q : Z) (db : DB) :
  let dw := resetWeek tz u nowTs db in
  let dd := resetDay tz u nowTs db in
  getWeekHours tz u nowTs (fst dw) = (0%Q, isoMonday tz nowTs)
  /\ getTodayHours tz u nowTs (fst dd) = 0%Q
  /\ Z.of_nat (length (shifts db)) = Z.of_nat (length (shifts (fst dw))) + snd dw
  /\ Z.of_nat (length (shifts db)) = Z.of_nat (length (shifts (fst dd))) + snd dd
  /\ (v <> u ->
      getWeekHours tz v q (fst dw) = getWeekHours tz v q db
      /\ getTodayHours tz v q (fst dw) = getTodayHours tz v q db
      /\ getWeekHours tz v q (fst dd) = getWeekHours tz v q db
      /\ getTodayHours tz v q (fst dd) = getTodayHours tz v q db).
Proof.
  intros dw dd. subst dw dd.
  unfold resetWeek, resetDay, deleteWeek, deleteDay, getWeekHours, getTodayHours, sumWeek, sumDay.
  cbn [fst snd shifts].
  split; [by rewrite filter_deleted|]. split; [by rewrite filter_deleted|].
  split; [rewrite (length_filter_split (fun r => user_id r = u /\ week_key r = isoMonday tz nowTs)); lia|].
  split; [rewrite (length_filter_split (fun r => user_id r = u /\ day_key r = dayKey tz nowTs)); lia|].
  intros Hne.
  rewrite !filter_after_delete; [done|..]; intros r [? _] [? _]; congruence.
Qed.

Lemma insertByStart_perm s l : insertByStart s l ≡ₚ s :: l.
Proof.
  induction l as [|r l IH]; [done|]. cbn. destruct (start_ts s <? start_ts r); [done|].
  rewrite IH. apply Permutation_swap.
Qed.

Lemma orderByStart_perm l : orderByStart l ≡ₚ l.
Proof.
  unfold orderByStart.
  assert (forall acc, foldl (fun sorted s => insertByStart s sorted) acc l ≡ₚ acc ++ l) as H.
  { induction l as [|s l IH]; intros acc; cbn [foldl].
    - by rewrite app_nil_r.
    - rewrite IH, insertByStart_perm. cbn. apply Permutation_middle. }
  apply (H []).
Qed.

Lemma insertByStart_hd (a s : Shift) l :
  start_ts a <= start_ts s -> HdRel (fun x y => start_ts x <= start_ts y) a l ->
  HdRel (fun x y => start_ts x <= start_ts y) a (insertByStart s l).
Proof.
  intros Has Hl. destruct l as [|r l]; cbn; [by constructor|].
  destruct (start_ts s <? start_ts r); constructor; [done|]. by inversion Hl.
Qed.

Lemma insertByStart_sorted s l :
  Sorted (fun x y => start_ts x <= start_ts y) l ->
  Sorted (fun x y => start_ts x <= start_ts y) (insertByStart s l).
Proof.
  induction 1 as [|r l Hs IH Hhd]; cbn; [by repeat constructor|].
  destruct (Z.ltb_spec (start_ts s) (start_ts r)).
  - constructor; [by constructor|]. constructor. lia.
  - constructor; [done|]. by apply insertByStart_hd.
Qed.

Lemma orderByStart_sorted l : Sorted (fun x y => start_ts x <= start_ts y) (orderByStart l).
Proof.
  unfold orderByStart.
  assert (forall acc, Sorted (fun x y => start_ts x <= start_ts y) acc ->
            Sorted (fun x y => start_ts x <= start_ts y)
              (foldl (fun sorted s => insertByStart s sorted) acc l)) as H.
  { induction l as [|s l IH]; intros acc Hacc; cbn [foldl]; [done|].
    by apply IH, insertByStart_sorted. }
  apply H. constructor.
Qed.

(** X8. The export of a week lists every shift of the user that carries
    the key of the week of [nowTs], and nothing else, in the order of the
    start instants; the hours of a line are never negative, and a line
    without an end shows 0 hours. *)
Theorem X8_export_lines (tz u nowTs : Z) (db : DB) :
  let week := fst (exportWeekCSV tz u nowTs db) in
  let rows := snd (exportWeekCSV tz u nowTs db) in
  week = isoMonday tz nowTs
  /\ csv_id <$> rows
     ≡ₚ id <$> filter (fun r => user_id r = u /\ week_key r = week) (shifts db)
  /\ Sorted Z.le (csv_start <$> rows)
  /\ Forall (fun r => (0 <= csv_hours r)%Q) rows
  /\ Forall (fun r => csv_end r = None -> csv_hours r = 0%Q) rows.
Proof.
  intros week rows. subst week rows. unfold exportWeekCSV. cbn [fst snd].
  split; [done|]. split; [|split; [|split]].
  - rewrite <- list_fmap_compose. unfold listWeek.
    apply (fmap_Permutation id), orderByStart_perm.
  - rewrite <- list_fmap_compose. unfold listWeek.
    apply (Sorted_fmap _ (fun x y => start_ts x <= start_ts y) Z.le); [done|].
    apply orderByStart_sorted.
  - apply Forall_fmap, Forall_forall. intros r _. cbn.
    destruct (truthyEnd r); [apply Q.le_max_l | done].
  - apply Forall_fmap, Forall_forall. intros r _. cbn.
    by destruct (truthyEnd r).
Qed.

End LedgerTheorems.
Section WorkerMore.
Import JsDate Worker Spec.

(** X9. The two figures of a reply agree: the hours and minutes that
    [fmtHM] prints are the quotient and the remainder by 60 of what
    [minutes] yields; a negative duration prints as [0h 0m] and counts 0
    minutes. *)
Theorem X9_fmtHM_agrees_with_minutes (ms : Z) :
  fmtHM ms = pretty (minutes ms / 60) +:+ "h " +:+ pretty (minutes ms mod 60) +:+ "m"
  /\ 0 <= minutes ms mod 60 < 60
  /\ 0 <= minutes ms
  /\ (ms < 60000 -> fmtHM ms = "0h 0m" /\ minutes ms = 0).
Proof.
  assert (Z.max 0 (ms / 1000) / 3600 = minutes ms / 60) as Hh.
  { unfold minutes. Z.div_mod_to_equations. lia. }
  assert (Z.max 0 (ms / 1000) mod 3600 / 60 = minutes ms mod 60) as Hm.
  { unfold minutes. Z.div_mod_to_equations. lia. }
  split; [|split; [|split]].
  - unfold fmtHM. cbv zeta. by rewrite Hh, Hm.
  - apply Z.mod_pos_bound. lia.
  - unfold minutes. lia.
  - intros Hlt. assert (minutes ms = 0) as H0.
    { unfold minutes. Z.div_mod_to_equations. lia. }
    split; [|done]. unfold fmtHM. cbv zeta. rewrite Hh, Hm, H0. reflexivity.
Qed.

Lemma weekStart_midnight_spec env x :
  let s := (Day x - match revision env with
                    | SundayWeek => getUTCDay x
                    | MondayWeek => (getUTCDay x + 6) mod 7
                    end) * msPerDay in
  isWeekStart env s /\ inWindow s x.
Proof.
  cbv zeta. unfold isWeekStart, inWindow, weekStartDay, getUTCDay, Day, msPerDay.
  destruct (revision env).
  - split; [split|].
    + Z.div_mod_to_equations. lia.
    + Z.div_mod_to_equations. lia.
    + Z.div_mod_to_equations. lia.
  - split; [split|].
    + Z.div_mod_to_equations. lia.
    + Z.div_mod_to_equations. lia.
    + Z.div_mod_to_equations. lia.
Qed.

(** X10. For an instant after the epoch, [weekStartLocal] is the midnight
    of the first day of the week of the revision, at most seven days back,
    and is its own week start.  The window of [prevLocalWeekWindow] is
    the whole week that holds the instant twelve hours earlier: the week of
    the instant itself from its thirteenth hour on, the week before during
    its first twelve hours. *)
Theorem X10_week_windows (env : Env) (t : Z) :
  0 <= t <= maxTime ->
  let s := weekStartLocal env t in
  let ps := fst (prevLocalWeekWindow env t) in
  let pe := snd (prevLocalWeekWindow env t) in
  isWeekStart env s /\ inWindow s t /\ weekStartLocal env s = s
  /\ isWeekStart env ps /\ pe = ps + 7 * msPerDay /\ inWindow ps (t - 12 * msPerHour)
  /\ (s + 12 * msPerHour <= t -> ps = s)
  /\ (t < s + 12 * msPerHour -> ps = s - 7 * msPerDay).
Proof.
  intros [Ht _] s ps pe. subst s ps pe. unfold prevLocalWeekWindow. cbn [fst snd].
  rewrite (weekStartLocal_midnight env t) by (unfold msPerDay; lia).
  rewrite (weekStartLocal_midnight env (t - 12 * 3600000)) by (unfold msPerDay; lia).
  destruct (weekStart_midnight_spec env t) as [Hs Hw].
  destruct (weekStart_midnight_spec env (t - 12 * 3600000)) as [Hps Hpw].
  split; [done|]. split; [done|]. split.
  { rewrite weekStartLocal_midnight.
    - clear Hs Hw Hps Hpw. unfold getUTCDay, Day, msPerDay.
      destruct (revision env); Z.div_mod_to_equations; lia.
    - clear Hs Hw Hps Hpw. unfold getUTCDay, Day, msPerDay.
      destruct (revision env); Z.div_mod_to_equations; lia. }
  split; [done|]. split; [unfold msPerDay; lia|]. split; [done|].
  clear Hs Hw Hps Hpw. unfold getUTCDay, Day, msPerDay, msPerHour.
  destruct (revision env); split; intros; Z.div_mod_to_equations; lia.
Qed.

(** X11. A day key names one local day: two instants have the same key
    exactly when they lie on the same day, in the worker (local
    milliseconds) and in the SQLite variant (Unix seconds in the zone).
    The instants are those a [Date] can hold; for any other the source
    prints an invalid date, which the definitions do not follow. *)
Theorem X11_day_key_names_one_day (env : Env) (a b : Z) (tz x y : Z) :
  inDateRange a -> inDateRange b ->
  inDateRange (1000 * x) -> inDateRange (1000 * y) ->
  (dateKeyLocal env a = dateKeyLocal env b <-> Day a = Day b)
  /\ (Db.dayKey tz x = Db.dayKey tz y <-> Db.localDay tz x = Db.localDay tz y).
Proof.
  intros _ _ _ _. split; split.
  - apply dateKeyLocal_inj.
  - apply dateKeyLocal_same_day.
  - apply formatDate_inj.
  - unfold Db.dayKey. by intros ->.
Qed.

End WorkerMore.
Section WorkerMore2.
Import JsDate Worker Spec.

Lemma ensureUserChat_run u c w :
  ensureUserChat u c w
  = (if bool_decide (c ∈ chatsOf (store w) u) then w
     else on_store (with_kMeta (insert u {| chats := chatsOf (store w) u ++ [c] |})) w,
     Returned tt).
Proof.
  unfold ensureUserChat, getMeta, putMeta, chatsOf. eff.
  by case_bool_decide.
Qed.

Lemma listedUsers_elem kv u : u ∈ listedUsers kv <-> is_Some (kMeta kv !! u).
Proof.
  unfold listedUsers. rewrite (merge_sort_Permutation String.le), elem_of_elements.
  apply elem_of_dom.
Qed.

(** X12. [ensureUserChat] registers the chat with the user and lists the
    user for the weekly run; chats registered earlier stay, in their order,
    and no chat is entered twice; a second call changes nothing; the
    registrations of other users and the ledger are untouched. *)
Theorem X12_chat_registration (u v : string) (c : Z) (w : World) :
  let w' := fst (ensureUserChat u c w) in
  c ∈ chatsOf (store w') u
  /\ u ∈ listedUsers (store w')
  /\ chatsOf (store w) u `prefix_of` chatsOf (store w') u
  /\ (NoDup (chatsOf (store w) u) -> NoDup (chatsOf (store w') u))
  /\ ensureUserChat u c w' = (w', Returned tt)
  /\ (v <> u -> chatsOf (store w') v = chatsOf (store w) v)
  /\ kOpen (store w') = kOpen (store w) /\ kDay (store w') = kDay (store w)
  /\ kCfg (store w') = kCfg (store w) /\ kLock (store w') = kLock (store w)
  /\ outbox w' = outbox w.
Proof.
  intros w'. subst w'. rewrite ensureUserChat_run. cbn [fst].
  case_bool_decide as Hin.
  - split; [done|]. split.
    { apply listedUsers_elem. unfold chatsOf in Hin.
      destruct (kMeta (store w) !! u); [done|]. by apply elem_of_nil in Hin. }
    split; [done|]. split; [done|]. split.
    { rewrite ensureUserChat_run. by rewrite bool_decide_eq_true_2. }
    done.
  - assert (chatsOf (on_store (with_kMeta (insert u {| chats := chatsOf (store w) u ++ [c] |})) w).(store) u
            = chatsOf (store w) u ++ [c]) as E.
    { unfold chatsOf at 1. cbn. by rewrite lookup_insert_eq. }
    rewrite E. split; [apply elem_of_app; right; left|]. split.
    { apply listedUsers_elem. cbn. rewrite lookup_insert_eq. eauto. }
    split; [by apply prefix_app_r|]. split.
    { intros Hnd. apply NoDup_app. split; [done|]. split; [|apply NoDup_singleton].
      intros x Hx Hx'. apply list_elem_of_singleton in Hx'. by subst. }
    split.
    { rewrite ensureUserChat_run, E. rewrite bool_decide_eq_true_2; [done|].
      apply elem_of_app; right; left. }
    split; [|done]. intros Hne. unfold chatsOf. cbn. by rewrite lookup_insert_ne.
Qed.

Lemma closeFirst_spec utcMs l :
  length (closeFirst utcMs l) = length l
  /\ inUtcMs <$> closeFirst utcMs l = inUtcMs <$> l
  /\ length (filter isRunning (closeFirst utcMs l)) = pred (length (filter isRunning l))
  /\ (filter isRunning l = [] -> closeFirst utcMs l = l).
Proof.
  induction l as [|s l (IH1 & IH2 & IH3 & IH4)]; [done|].
  cbn [closeFirst]. destruct (outUtcMs s) as [o|] eqn:E.
  - rewrite !fmap_cons, !filter_cons. cbn [length].
    rewrite !decide_False by (unfold isRunning; congruence).
    rewrite IH1, IH2, IH3. repeat split; try done. intros H. by rewrite IH4.
  - rewrite !fmap_cons, !filter_cons. cbn [length inUtcMs].
    rewrite decide_False by done. rewrite decide_True by done.
    repeat split; try done.
Qed.

Lemma filter_rev_sessions (k : list Session) :
  filter isRunning (rev k) = rev (filter isRunning k).
Proof.
  induction k as [|s k IH]; [done|]. cbn [rev].
  rewrite filter_app, IH, !filter_cons, filter_nil.
  destruct (decide (isRunning s)); cbn [rev]; [done | by rewrite app_nil_r].
Qed.

Lemma fmap_rev_sessions (k : list Session) : inUtcMs <$> rev k = rev (inUtcMs <$> k).
Proof.
  induction k as [|s k IH]; [done|]. cbn [rev]. rewrite fmap_app, IH. done.
Qed.

Lemma closeFirst_skip utcMs (k k' : list Session) s :
  filter isRunning k = [] -> isRunning s ->
  closeFirst utcMs (k ++ s :: k')
  = k ++ {| inUtcMs := inUtcMs s; outUtcMs := Some utcMs |} :: k'.
Proof.
  intros Hk Hs. induction k as [|r k IH]; cbn [app closeFirst].
  - unfold isRunning in Hs. by rewrite Hs.
  - rewrite filter_cons in Hk. destruct (decide (isRunning r)) as [Hr|Hr]; [done|].
    unfold isRunning in Hr. destruct (outUtcMs r); [|done]. by rewrite IH.
Qed.

(** X13. The loop of [cmdOut] over the entries of a day gives the instant
    of the clock-out as the end to the last entry that has none, and to
    that one only: the entries before it and after it, their ends
    included, are what they were; when every entry has an end the list is
    left alone.  So the number of entries and their start instants are
    kept, and the entries without an end are one fewer. *)
Theorem X13_close_last_entry (utcMs : Z) (l : list Session) :
  (forall l1 s l2, l = l1 ++ s :: l2 -> isRunning s -> filter isRunning l2 = [] ->
     closeLast utcMs l = l1 ++ {| inUtcMs := inUtcMs s; outUtcMs := Some utcMs |} :: l2)
  /\ (filter isRunning l = [] -> closeLast utcMs l = l)
  /\ length (closeLast utcMs l) = length l
  /\ inUtcMs <$> closeLast utcMs l = inUtcMs <$> l
  /\ length (filter isRunning (closeLast utcMs l)) = pred (length (filter isRunning l)).
Proof.
  unfold closeLast.
  destruct (closeFirst_spec utcMs (rev l)) as (H1 & H2 & H3 & H4).
  pose proof filter_rev_sessions as Hrev.
  split; [|split; [|split; [|split]]].
  - intros l1 s l2 -> Hs Hl2.
    rewrite rev_app_distr. cbn [rev]. rewrite <- app_assoc. cbn [app].
    rewrite closeFirst_skip; [|by rewrite Hrev, Hl2|done].
    rewrite rev_app_distr. cbn [rev]. rewrite !rev_involutive, <- app_assoc. done.
  - intros Hn. rewrite H4, rev_involutive; [done|]. by rewrite Hrev, Hn.
  - by rewrite length_rev, H1, length_rev.
  - rewrite fmap_rev_sessions, H2, fmap_rev_sessions. apply rev_involutive.
  - rewrite Hrev, length_rev, H3, Hrev, length_rev. done.
Qed.

End WorkerMore2.
Section DriverAndRoutes.
Import JsDate Worker Spec.

Lemma cronUser_reliable tz (tg : Bot.Telegram) now u b :
  (forall c p, tg c p = true) ->
  Bot.cronUser tz tg now u b
  = ({| Bot.db := Bot.db b; Bot.outbox := Bot.outbox b ++ cronCalls tz now (Bot.db b) u;
        Bot.console := Bot.console b |}, Returned tt).
Proof.
  intros Htg. unfold Bot.cronUser, Bot.telegramSend, cronCalls. eff.
  destruct (Db.getWeekHours tz u now (Bot.db b)) as [hours weekKey].
  destruct (Db.exportWeekCSV tz u now (Bot.db b)) as [wk csv].
  rewrite !Htg. cbn. by rewrite <- app_assoc.
Qed.

Lemma cronUsers_reliable tz (tg : Bot.Telegram) now us b :
  (forall c p, tg c p = true) ->
  forEach us (Bot.cronUser tz tg now) b
  = ({| Bot.db := Bot.db b;
        Bot.outbox := Bot.outbox b ++ (us ≫= cronCalls tz now (Bot.db b));
        Bot.console := Bot.console b |}, Returned tt).
Proof.
  intros Htg. revert b. induction us as [|u us IH]; intros b.
  - cbn. rewrite app_nil_r. by destruct b.
  - cbn [forEach]. unfold bind. rewrite cronUser_reliable by done.
    rewrite IH. cbn. by rewrite <- app_assoc.
Qed.

(** X14. The cron job of the SQLite driver never rejects and never changes
    the database (it sends, it does not reset); it writes exactly one line
    to the console.  When every call to Telegram resolves, the line says
    that the messages were sent, and the calls on record are, for each
    listed user in turn, the summary and then the CSV of that user. *)
Theorem X14_cron_job_of_the_driver (tz now : Z) (tg : Bot.Telegram) (b : Bot.World) :
  let r := Bot.cronWeekly tz tg now b in
  snd r = Returned tt
  /\ Bot.db (fst r) = Bot.db b
  /\ (exists line, Bot.console (fst r) = Bot.console b ++ [line])
  /\ ((forall c p, tg c p = true) ->
      Bot.console (fst r) = Bot.console b ++ [Bot.LogSent]
      /\ Bot.outbox (fst r)
         = Bot.outbox b ++ (Db.users (Bot.db b) ≫= cronCalls tz now (Bot.db b))).
Proof.
  intros r. subst r. unfold Bot.cronWeekly, Bot.consoleLog. eff.
  pose proof (forEach_invariant
                (fun b' => Bot.db b' = Bot.db b /\ Bot.console b' = Bot.console b)
                (Db.users (Bot.db b)) (Bot.cronUser tz tg now) b) as Hinv.
  split; [|split; [|split]].
  - by destruct (forEach _ _ b) as [b' [[]|ex]].
  - destruct (forEach _ _ b) as [b' [[]|ex]]; cbn; apply Hinv; try done;
      intros u b0 _ [<- <-]; (split; [apply cronUser_db|]);
      unfold Bot.cronUser, Bot.telegramSend; eff;
      destruct (Db.getWeekHours _ _ _ _); destruct (Db.exportWeekCSV _ _ _ _);
      repeat (match goal with |- context [tg ?c ?p] => destruct (tg c p) end; cbn; try done).
  - assert (Bot.console (fst (forEach (Db.users (Bot.db b)) (Bot.cronUser tz tg now) b))
            = Bot.console b) as Hc.
    { apply Hinv; [|done]. intros u b0 _ [<- <-]. split; [apply cronUser_db|].
      unfold Bot.cronUser, Bot.telegramSend. eff.
      destruct (Db.getWeekHours _ _ _ _); destruct (Db.exportWeekCSV _ _ _ _).
      repeat (match goal with |- context [tg ?c ?p] => destruct (tg c p) end; cbn; try done). }
    destruct (forEach _ _ b) as [b' [[]|ex]]; cbn in *; rewrite Hc; eauto.
  - intros Htg. rewrite cronUsers_reliable by done. cbn. done.
Qed.

(** X15. The lock of the scheduler runs out: once its three hours have
    passed, a scheduled invocation for the same week is no longer held
    back; it takes the lock anew and runs the rollover again. *)
Theorem X15_lock_expires (env : Env) (net : Net) (now1 now2 : Z) (w : World) :
  let key := dateKeyLocal env (fst (prevLocalWeekWindow env (now1 + TZ_OFFSET_ms env))) in
  let w1 := fst (scheduled env net now1 w) in
  lockHeld (store w) key now1 = false ->
  now1 + lockTtlMs <= now2 ->
  fst (prevLocalWeekWindow env (now2 + TZ_OFFSET_ms env))
    = fst (prevLocalWeekWindow env (now1 + TZ_OFFSET_ms env)) ->
  (forall t, lockHeld (store w1) key t = (t <? now1 + lockTtlMs))
  /\ scheduled env net now2 w1
     = (fst (runWeekly env net now2
               (on_store (with_kLock (insert key (now2 + lockTtlMs))) w1)),
        Returned tt).
Proof.
  intros key w1 Hfree Hlate Hweek.
  assert (forall t, lockHeld (store w1) key t = (t <? now1 + lockTtlMs)) as Hl.
  { intros t. subst w1. rewrite scheduled_free by done. fold key. cbn [fst].
    unfold lockHeld. rewrite runWeekly_kLock. cbn [store on_store with_kLock kLock].
    by rewrite lookup_insert_eq. }
  split; [done|].
  rewrite scheduled_free; rewrite Hweek; fold key; [done|].
  rewrite Hl. apply Z.ltb_ge. lia.
Qed.

(** X16. The manual route runs the rollover exactly for a request whose
    secret equals a configured, non-empty [ADMIN_SECRET]: with no secret
    configured, no request is let in, not even one with an empty secret.
    Every other request is answered 401 and changes nothing. *)
Theorem X16_manual_route_needs_the_secret
  (env : Env) (net : Net) (now : Z) (secret : option string) (w : World) :
  let r := fetchAdminRunWeekly env net now secret w in
  (authorized env secret ->
     fst r = fst (runWeekly env net now w)
     /\ (snd (runWeekly env net now w) = Returned tt -> snd r = Returned (Resp 200 "weekly ok")))
  /\ (~ authorized env secret -> r = (w, Returned (Resp 401 "unauthorized")))
  /\ (ADMIN_SECRET env = EmptyString -> r = (w, Returned (Resp 401 "unauthorized"))).
Proof.
  intros r. subst r. unfold fetchAdminRunWeekly, authorized.
  split; [|split].
  - intros [H1 H2]. rewrite bool_decide_eq_false_2, bool_decide_eq_true_2 by done.
    cbn [negb andb]. eff. destruct (runWeekly env net now w) as [w' [[]|ex]]; split; try done.
  - intros Hn. destruct (bool_decide (ADMIN_SECRET env = EmptyString)) eqn:E1; [done|].
    destruct (bool_decide (secret = Some (ADMIN_SECRET env))) eqn:E2; [|done].
    exfalso. apply Hn. split.
    + by apply bool_decide_eq_false in E1.
    + by apply bool_decide_eq_true in E2.
  - intros ->. done.
Qed.

End DriverAndRoutes.
Section ReportFacts.
Import JsDate Worker Spec.

(** X17. The CSV of the rollover has the header and seven lines, one per
    day of the window in order, each of four cells and beginning with the
    key of its day; the note about a running session changes one cell and
    adds none. *)
Theorem X17_report_shape (env : Env) (kv : KV) (u : string) (utcMs s e : Z) :
  let rows := snd (weekReport env kv u utcMs s e) in
  length rows = 8%nat
  /\ Forall (fun row => length row = 4%nat) rows
  /\ head rows = Some csvHeader
  /\ (fun row => default EmptyString (head row)) <$> tail rows
     = weekDayKeys env s (s + 7 * msPerDay).
Proof.
  intros rows. subst rows. unfold weekDayKeys. rewrite dayStarts_week.
  unfold weekReport, weekRows.
  rewrite <- !list_fmap_compose.
  change (seqZ 0 7) with [0; 1; 2; 3; 4; 5; 6].
  destruct (openStart (kOpen kv !! u)) as [st|]; [|cbn; repeat split; repeat constructor].
  destruct (0 <? runningExtra utcMs e st); cbn; repeat split; repeat constructor.
Qed.

Lemma closedWeek_clear env u s kv :
  closedWeek env (clearWeek env u s (s + 7 * msPerDay) kv) u s = 0.
Proof.
  unfold closedWeek.
  assert (forall i, i ∈ seqZ 0 7 ->
            closedDay env (clearWeek env u s (s + 7 * msPerDay) kv) u (s + i * 86400000) = 0) as H.
  { intros i Hi. unfold closedDay. rewrite clearWeek_kDay, decide_True; [done|].
    split; [done|]. rewrite dayStarts_week, <- list_fmap_compose.
    apply list_elem_of_fmap. by exists i. }
  revert H. generalize (seqZ 0 7). intros l. induction l as [|i l IH]; intros H; [done|].
  rewrite fmap_cons, sumZ_cons, H by left. rewrite IH; [done|].
  intros j Hj. apply H. by right.
Qed.

(** X18. What [/week] shows is what the rollover of that week would
    report: for a user with no session open and an instant in the window of
    a week, the total of [cmdWeek] and [cmdPay] is the total that
    [runWeekly] computes for that window. *)
Theorem X18_week_query_matches_rollover
  (env : Env) (now utcMs s : Z) (u : string) (w : World) :
  isWeekStart env s -> 0 <= s -> inWindow s (now + TZ_OFFSET_ms env) ->
  openStart (kOpen (store w) !! u) = None ->
  weekTotal env now u w
  = (w, Returned (fst (weekReport env (store w) u utcMs s (s + 7 * msPerDay)))).
Proof.
  intros Hs H0 Hw Ho.
  rewrite weekTotal_run by (unfold inWindow in Hw; lia).
  rewrite weekReport_total, Ho.
  by rewrite (weekStartLocal_in_window env s).
Qed.

(** X19. A week that was reset counts zero: after [deleteWeekRange] over
    a whole week, the rollover total of that week for that user is 0, and
    so is the total of [/week] at any instant of the window. *)
Theorem X19_reset_week_counts_zero
  (env : Env) (now utcMs s : Z) (u : string) (w : World) :
  isWeekStart env s -> 0 <= s -> inWindow s (now + TZ_OFFSET_ms env) ->
  let w' := fst (deleteWeekRange env u s (s + 7 * msPerDay) w) in
  fst (weekReport env (store w') u utcMs s (s + 7 * msPerDay)) = 0
  /\ weekTotal env now u w' = (w', Returned 0)
  /\ todayTotal env now u w' = (w', Returned 0).
Proof.
  intros Hs H0 Hw w'. subst w'. rewrite deleteWeekRange_run. cbn [fst].
  assert (openStart (kOpen (store (on_store (clearWeek env u s (s + 7 * msPerDay)) w)) !! u) = None) as Ho.
  { cbn [store on_store]. rewrite clearWeek_kOpen. by rewrite decide_True. }
  split; [|split].
  - rewrite weekReport_total, Ho. cbn [store on_store]. rewrite closedWeek_clear. done.
  - rewrite weekTotal_run by (unfold inWindow in Hw; lia). rewrite Ho.
    rewrite (weekStartLocal_in_window env s) by done.
    cbn [store on_store]. by rewrite closedWeek_clear.
  - rewrite todayTotal_run, Ho. cbn [store on_store].
    unfold closedDay. rewrite clearWeek_kDay, decide_True; [done|].
    split; [done|]. apply weekDayKeys_window; [apply Hs | done].
Qed.

End ReportFacts.
Section RolloverFacts.
Import JsDate Worker Spec.

Lemma closedWeek_none env kv u s :
  (forall k, k ∈ weekDayKeys env s (s + 7 * msPerDay) -> kDay kv !! (u, k) = None) ->
  closedWeek env kv u s = 0.
Proof.
  intros Hk. unfold closedWeek.
  assert (forall i, i ∈ seqZ 0 7 -> closedDay env kv u (s + i * 86400000) = 0) as H.
  { intros i Hi. unfold closedDay. rewrite Hk; [done|].
    unfold weekDayKeys. rewrite dayStarts_week, <- list_fmap_compose.
    apply list_elem_of_fmap. by exists i. }
  revert H. generalize (seqZ 0 7). intros l. induction l as [|i l IH]; intros H; [done|].
  rewrite fmap_cons, sumZ_cons, H by left. rewrite IH; [done|].
  intros j Hj. apply H. by right.
Qed.

Lemma prevLocalWeekWindow_end env t :
  snd (prevLocalWeekWindow env t) = fst (prevLocalWeekWindow env t) + 7 * msPerDay.
Proof. unfold prevLocalWeekWindow, msPerDay. cbn [fst snd]. reflexivity. Qed.

Lemma runWeekly_reliable env (net : Net) now w :
  (forall c p, net c p <> Unreachable) ->
  exists w', runWeekly env net now w = (w', Returned tt).
Proof.
  intros Hnet. rewrite runWeekly_unfold. apply forEach_total.
  intros x w0. by apply runWeeklyUser_reliable.
Qed.

(** X20. When every call to Telegram comes back, accepted or refused, the
    weekly run returns; it makes two calls for every chat of every listed
    user; and every user registered with a chat is left clocked out, with
    the closed week counting zero and the report of that week, made again
    at any instant, totalling zero. *)
Theorem X20_rollover_resets_registered_users
  (env : Env) (net : Net) (now utcMs : Z) (w : World) :
  (forall c p, net c p <> Unreachable) ->
  let s := fst (prevLocalWeekWindow env (now + TZ_OFFSET_ms env)) in
  let w' := fst (runWeekly env net now w) in
  snd (runWeekly env net now w) = Returned tt
  /\ length (outbox w') = (length (outbox w) + 2 * registeredChats (store w))%nat
  /\ (forall u, chatsOf (store w) u <> [] ->
        kOpen (store w') !! u = None
        /\ closedWeek env (store w') u s = 0
        /\ fst (weekReport env (store w') u utcMs s (s + 7 * msPerDay)) = 0).
Proof.
  intros Hnet. cbv zeta.
  destruct (runWeekly_reliable env net now w Hnet) as [w1 E]. rewrite E. cbn [fst snd].
  split; [done|]. split; [by apply runWeekly_returned_outbox in E|].
  intros u Hu. apply runWeekly_returned_store in E.
  rewrite prevLocalWeekWindow_end in E.
  set (s := fst (prevLocalWeekWindow env (now + TZ_OFFSET_ms env))) in *.
  destruct (resetUsers_spec env s (s + 7 * msPerDay) (listedUsers (store w)) (store w))
    as (_ & _ & _ & Ho & Hd).
  rewrite <- E in Ho, Hd.
  assert (u ∈ listedUsers (store w)) as Hin.
  { apply listedUsers_elem. unfold chatsOf in Hu.
    destruct (kMeta (store w) !! u); [eauto | done]. }
  assert (kOpen (store w1) !! u = None) as Hopen
    by (rewrite Ho, decide_True; done).
  assert (closedWeek env (store w1) u s = 0) as Hweek.
  { apply closedWeek_none. intros k Hk. rewrite Hd, decide_True; done. }
  split; [done|]. split; [done|].
  by rewrite weekReport_total, Hopen, Hweek.
Qed.

End RolloverFacts.
Section QueryFacts.
Import JsDate Worker Spec.

Lemma sendMessage_effect net chat m w :
  store (fst (sendMessage net chat m w)) = store w
  /\ (snd (sendMessage net chat m w) = Returned tt ->
      exists call, outbox (fst (sendMessage net chat m w)) = outbox w ++ [call]
                   /\ to call = chat /\ payload call = Text m)
  /\ (forall e, snd (sendMessage net chat m w) = Thrown e ->
        fst (sendMessage net chat m w) = w).
Proof.
  unfold sendMessage, tgCall. destruct (net chat (Text m)); cbn [fst snd store outbox].
  - repeat split; [eauto | done].
  - repeat split; [eauto | done].
  - repeat split; done.
Qed.

(** X21. The queries leave the ledger alone: after [/today], [/week] and
    [/pay] the markers, day buckets, registrations, rates and locks of the
    store are what they were, whether the reply went through or not; one
    call to the chat that asked is on record when it did, and none when it
    did not.  [/week] and [/pay] show the same total, minutes, rate and
    pay, and [/week] lists seven days. *)
Theorem X21_queries_leave_ledger
  (env : Env) (net : Net) (now chat : Z) (u : string) (w : World) :
  let total := sumZ (snd <$> weekDayTotals env (store w) now u) in
  (exists r lines,
     reportRate env u w = (w, Returned r)
     /\ length lines = 7%nat
     /\ cmdPay env net now chat u w
        = sendMessage net chat
            (WeekTotal (fmtHM total) (minutes total) r (dollarsFromMs total r)) w
     /\ cmdWeek env net now chat u w
        = sendMessage net chat
            (ThisWeek (fmtHM total) (minutes total) r (dollarsFromMs total r) lines) w)
  /\ Forall (fun c : M World unit =>
       store (fst (c w)) = store w
       /\ (snd (c w) = Returned tt ->
           exists call, outbox (fst (c w)) = outbox w ++ [call] /\ to call = chat)
       /\ (forall e, snd (c w) = Thrown e -> outbox (fst (c w)) = outbox w))
     [cmdToday env net now chat u; cmdWeek env net now chat u; cmdPay env net now chat u].
Proof.
  intros total.
  destruct (reportRate_run env u w) as [r Hr].
  assert (cmdPay env net now chat u w
          = sendMessage net chat
              (WeekTotal (fmtHM total) (minutes total) r (dollarsFromMs total r)) w) as Hpay.
  { unfold cmdPay. eff. by rewrite Hr. }
  set (lines := (fun '(keyDay, t) => keyDay +:+ ": " +:+ fmtHM t)
                  <$> weekDayTotals env (store w) now u).
  assert (cmdWeek env net now chat u w
          = sendMessage net chat
              (ThisWeek (fmtHM total) (minutes total) r (dollarsFromMs total r) lines) w)
    as Hweek.
  { unfold cmdWeek. eff. by rewrite Hr. }
  assert (cmdToday env net now chat u w
          = sendMessage net chat
              (Today (fmtHM (closedDay env (store w) u (now + TZ_OFFSET_ms env)
                             + match openStart (kOpen (store w) !! u) with
                               | Some st => now - st | None => 0 end))
                     (minutes (closedDay env (store w) u (now + TZ_OFFSET_ms env)
                               + match openStart (kOpen (store w) !! u) with
                                 | Some st => now - st | None => 0 end))) w) as Htoday.
  { unfold cmdToday. eff. by rewrite todayTotal_run. }
  split.
  - exists r, lines. split; [done|]. split; [|done].
    subst lines. unfold weekDayTotals, nowLocal. by rewrite !length_fmap.
  - repeat apply Forall_cons_2; [..|apply Forall_nil_2].
    + rewrite Htoday.
      destruct (sendMessage_effect net chat
                  (Today (fmtHM (closedDay env (store w) u (now + TZ_OFFSET_ms env)
                             + match openStart (kOpen (store w) !! u) with
                               | Some st => now - st | None => 0 end))
                     (minutes (closedDay env (store w) u (now + TZ_OFFSET_ms env)
                               + match openStart (kOpen (store w) !! u) with
                                 | Some st => now - st | None => 0 end))) w)
        as (H1 & H2 & H3).
      split; [done|]. split; [|by intros e He; rewrite (H3 e He)].
      intros H. destruct (H2 H) as (c & ? & ? & _). eauto.
    + rewrite Hweek.
      destruct (sendMessage_effect net chat
                  (ThisWeek (fmtHM total) (minutes total) r (dollarsFromMs total r) lines) w)
        as (H1 & H2 & H3).
      split; [done|]. split; [|by intros e He; rewrite (H3 e He)].
      intros H. destruct (H2 H) as (c & ? & ? & _). eauto.
    + rewrite Hpay.
      destruct (sendMessage_effect net chat
                  (WeekTotal (fmtHM total) (minutes total) r (dollarsFromMs total r)) w)
        as (H1 & H2 & H3).
      split; [done|]. split; [|by intros e He; rewrite (H3 e He)].
      intros H. destruct (H2 H) as (c & ? & ? & _). eauto.
Qed.

(** X22. A rate set for one user prices that user's reports and nothing
    else: in the revision with per-user rates, after [setUserRate] with a
    finite positive rate the reply of [/pay] carries that rate and the pay
    at that rate for the unchanged total; the rates of other users, the
    ledger, the registrations, the lock and the outbox stay as they were. *)
Theorem X22_rate_change_prices_own_reports
  (env : Env) (net : Net) (now chat : Z) (u v : string) (r : Q) (w : World) :
  revision env = SundayWeek -> (0 < r)%Q ->
  let w1 := fst (setUserRate env u (Num r) w) in
  let total := sumZ (snd <$> weekDayTotals env (store w) now u) in
  snd (setUserRate env u (Num r) w) = Returned (Num r)
  /\ cmdPay env net now chat u w1
     = sendMessage net chat
         (WeekTotal (fmtHM total) (minutes total) r (dollarsFromMs total r)) w1
  /\ (v <> u -> snd (userRate env v w1) = snd (userRate env v w))
  /\ kOpen (store w1) = kOpen (store w) /\ kDay (store w1) = kDay (store w)
  /\ kMeta (store w1) = kMeta (store w) /\ kLock (store w1) = kLock (store w)
  /\ outbox w1 = outbox w.
Proof.
  intros Hrev Hr w1 total. subst w1 total.
  assert (setUserRate env u (Num r) w
          = (on_store (with_kCfg (insert u {| cfg_rate := Some (Num r) |})) w,
             Returned (Num r))) as E.
  { unfold setUserRate, getCfg, putCfg. cbn [Number_isFinite negb orb le0].
    destruct (Qle_bool r 0) eqn:Hle.
    - apply Qle_bool_iff in Hle. exfalso. apply (Qlt_not_le _ _ Hr Hle).
    - eff. done. }
  rewrite E. cbn [fst snd].
  split; [done|]. split; [|split; [|by destruct w as [[]]]].
  - unfold cmdPay, reportRate, userRate, getCfg. rewrite Hrev. eff.
    destruct w as [[] ob]. cbn [store on_store with_kCfg kCfg kDay kOpen].
    rewrite lookup_insert_eq. cbn [default cfg_rate finiteOr]. done.
  - intros Hv. unfold userRate, getCfg. eff.
    destruct w as [[] ob]. cbn [store on_store with_kCfg kCfg snd].
    by rewrite lookup_insert_ne.
Qed.

End QueryFacts.

(** ** One open session at a time *)
Section OneOpen.
Import Db Spec.

Lemma ids_unique (l : list Shift) r o :
  NoDup (id <$> l) -> r ∈ l -> o ∈ l -> id r = id o -> r = o.
Proof.
  induction l as [|x l IH]; intros Hnd Hr Ho Hid; [by apply elem_of_nil in Hr|].
  rewrite fmap_cons in Hnd. apply NoDup_cons in Hnd as [Hx Hnd].
  apply elem_of_cons in Hr as [->|Hr]; apply elem_of_cons in Ho as [->|Ho]; try done.
  - exfalso. apply Hx. rewrite Hid. by apply list_elem_of_fmap_2.
  - exfalso. apply Hx. rewrite <- Hid. by apply list_elem_of_fmap_2.
  - by apply IH.
Qed.

(** Closing the shift of one user leaves the open shifts of another. *)
Lemma countOpen_clockOut_other tz u t db v :
  ledgerOk tz db -> v <> u ->
  countOpenSessions (fst (clockOut tz u t db)) v = countOpenSessions db v.
Proof.
  intros (Hnd & _ & _) Hne. unfold clockOut.
  destruct (getOpenShift db u) as [o|] eqn:E; [|done].
  apply getOpenShift_Some in E as [Hin Ho]. cbn [fst].
  unfold countOpenSessions, endShift. cbn [shifts].
  assert (forall r, r ∈ shifts db ->
            isOpenOf v (if id r =? id o
                        then {| id := id r; user_id := user_id r; start_ts := start_ts r;
                                end_ts := Some t; day_key := day_key r; week_key := week_key r |}
                        else r) = isOpenOf v r) as Hsame.
  { intros r Hr. destruct (Z.eqb_spec (id r) (id o)) as [Hid|]; [|done].
    assert (r = o) as -> by (by eapply ids_unique).
    unfold isOpenOf in *. cbn [user_id end_ts].
    apply andb_true_iff in Ho as [Hu _]. apply Z.eqb_eq in Hu.
    destruct (Z.eqb_spec (user_id o) v); [congruence | done]. }
  revert Hsame. generalize (shifts db). intros l Hsame.
  induction l as [|r l IH]; [done|].
  rewrite fmap_cons, !filter_cons. rewrite Hsame by left.
  destruct (decide (isOpenOf v r = true)); cbn [length]; rewrite IH; try done.
  all: intros r' Hr'; apply Hsame; by right.
Qed.

(** X23. At most one shift of a user is open, in the database that
    operations of the ledger have led to and in every database that
    further operations pass through.  A clock-in of a registered user with
    none open succeeds and leaves exactly one, which starts at the instant
    of the call; a clock-out with one open succeeds and leaves none; and
    neither changes the number of open shifts of another user. *)
Theorem X23_one_open_shift (tz uid v nowTs : Z) (db : DB) (ops : list Op) :
  reachable tz db ->
  Forall (fun d => (countOpenSessions d uid <= 1)%nat) (trace tz ops db)
  /\ (countOpenSessions db uid = 0%nat -> uid ∈ users db ->
      snd (clockIn tz uid nowTs db)
        = Returned {| ok := true; message := ClockedInAt (formatHHmm tz nowTs) |}
      /\ countOpenSessions (fst (clockIn tz uid nowTs db)) uid = 1%nat
      /\ getOpenShift (fst (clockIn tz uid nowTs db)) uid
         = Some {| id := seq db + 1; user_id := uid; start_ts := nowTs; end_ts := None;
                   day_key := dayKey tz nowTs; week_key := isoMonday tz nowTs |})
  /\ (countOpenSessions db uid = 1%nat ->
      (exists o, getOpenShift db uid = Some o
         /\ snd (clockOut tz uid nowTs db)
            = {| ok := true;
                 message := ClockedOutAt (formatHHmm tz nowTs)
                              (durationHours (start_ts o) nowTs) |})
      /\ countOpenSessions (fst (clockOut tz uid nowTs db)) uid = 0%nat)
  /\ (v <> uid ->
      countOpenSessions (fst (clockIn tz uid nowTs db)) v = countOpenSessions db v
      /\ countOpenSessions (fst (clockOut tz uid nowTs db)) v = countOpenSessions db v).
Proof.
  intros Hreach.
  pose proof (countOpen_reachable tz db uid Hreach) as H1.
  destruct (ledgerOk_reachable tz db Hreach) as [_ Hok].
  split; [|split; [|split]].
  - apply trace_invariant; [|done]. intros op d. apply countOpen_step.
  - intros H0 Hu. pose proof H0 as Hnone. apply getOpenShift_None in Hnone.
    rewrite clockIn_started by done. cbn [fst snd].
    split; [done|]. split.
    + pose proof (countOpen_clockIn tz uid nowTs db uid) as Hc.
      rewrite clockIn_started in Hc by done. cbn [fst] in Hc.
      by rewrite Hc, decide_True.
    + by apply getOpenShift_insertShift.
  - intros Hone. split; [|apply countOpen_clockOut; lia].
    unfold clockOut. destruct (getOpenShift db uid) as [o|] eqn:E.
    + exists o. done.
    + apply getOpenShift_None in E. lia.
  - intros Hne. split.
    + rewrite countOpen_clockIn. rewrite decide_False; [done|]. by intros [? _].
    + by eapply countOpen_clockOut_other.
Qed.

End OneOpen.

Section OneMarker.
Import JsDate Worker Spec.

(** X24. The marker of the worker, step by step.  A clock-in of a user
    without a marker, at a clock reading other than 0, leaves the marker
    with that reading as the start, and the stored totals as they were; a
    clock-out of a user with a marker removes it and adds the time since
    its start to the total of the local day of the clock-out.  Both hold
    whether or not the reply could be delivered. *)
Theorem X24_marker_step (env : Env) (net : Net) (now chat : Z) (u : string) (w : World) :
  (openStart (kOpen (store w) !! u) = None -> now <> 0 ->
     kOpen (store (fst (cmdIn env net now chat u w))) !! u = Some {| startUtcMs := now |}
     /\ countOpenSessions (store (fst (cmdIn env net now chat u w))) u = 1%nat
     /\ forall t, closedDay env (store (fst (cmdIn env net now chat u w))) u t
                  = closedDay env (store w) u t)
  /\ (forall st, openStart (kOpen (store w) !! u) = Some st ->
        kOpen (store (fst (cmdOut env net now chat u w))) !! u = None
        /\ countOpenSessions (store (fst (cmdOut env net now chat u w))) u = 0%nat
        /\ closedDay env (store (fst (cmdOut env net now chat u w))) u (now + TZ_OFFSET_ms env)
           = closedDay env (store w) u (now + TZ_OFFSET_ms env) + (now - st)).
Proof.
  split.
  - intros Hnone Hnow. split; [|split].
    + rewrite (cmdIn_closed _ _ _ _ _ _ Hnone), sendMessage_store.
      cbn [store on_store]. apply clockedIn_marker.
    + unfold countOpenSessions. by rewrite cmdIn_marker.
    + intros t. apply cmdIn_closedDay.
  - intros st Hst.
    rewrite (cmdOut_open _ _ _ _ _ _ _ Hst), sendMessage_store. cbn [store on_store].
    assert (kOpen (clockedOut env now st u (store w)) !! u = None) as Hk.
    { unfold clockedOut. cbn. apply lookup_delete_eq. }
    split; [done|]. split; [unfold countOpenSessions; by rewrite Hk|].
    unfold closedDay. rewrite clockedOut_kDay, decide_True by done. done.
Qed.

End OneMarker.
(** ** The further properties at the instants of the scenario *)

Section FurtherScenario.
Import JsDate Worker Spec Scenario.

Lemma X1_clock_out_while_closed_witness :
  Db.clockOut tzManila 1001 (sat2259 / 1000) workedDb
    = (workedDb, {| Db.ok := false; Db.message := Db.NoActiveShift |})
  /\ cmdOut envSunday netUp sat2259 1001 "1001" (worked envSunday)
     = sendMessage netUp 1001 NotClockedIn (worked envSunday)
  /\ store (fst (cmdOut envSunday netUp sat2259 1001 "1001" (worked envSunday)))
     = store (worked envSunday).
Proof.
  apply (X1_clock_out_while_closed tzManila 1001 (sat2259 / 1000) workedDb
           envSunday netUp 1001 sat2259 (worked envSunday) "1001").
  - vm_compute. reflexivity.
  - vm_compute. reflexivity.
Defined.

Lemma X2_clock_round_credits_clock_out_day_witness :
  let env := envSunday in
  let u := "1002" in
  let t1 := mon0800 + 86400000 in
  let t2 := t1 + 2 * 3600000 in
  let w := worked envSunday in
  let w2 := fst (cmdOut env netUp t2 1002 u (fst (cmdIn env netUp t1 1002 u w))) in
  kOpen (store w2) !! u = None
  /\ closedDay env (store w2) u (t2 + TZ_OFFSET_ms env)
     = closedDay env (store w) u (t2 + TZ_OFFSET_ms env) + (t2 - t1)
  /\ (forall t, Day t <> Day (t2 + TZ_OFFSET_ms env) ->
        closedDay env (store w2) u t = closedDay env (store w) u t).
Proof.
  intros env u t1 t2 w.
  apply (X2_clock_round_credits_clock_out_day env netUp t1 t2 1002 u w).
  - vm_compute. reflexivity.
  - vm_compute. discriminate.
Defined.

Lemma X3_clock_round_session_entries_witness :
  let env := envSunday in
  let u := "1002" in
  let t1 := mon0800 + 86400000 in
  let t2 := t1 + 2 * 3600000 in
  let w := worked envSunday in
  let w2 := fst (cmdOut env netUp t2 1002 u (fst (cmdIn env netUp t1 1002 u w))) in
  let d1 := dateKeyLocal env (t1 + TZ_OFFSET_ms env) in
  let d2 := dateKeyLocal env (t2 + TZ_OFFSET_ms env) in
  let before d := from_option sessions [] (kDay (store w) !! (u, d)) in
  let entries d := from_option sessions [] (kDay (store w2) !! (u, d)) in
  (d1 = d2 -> entries d2 = before d2 ++ [{| inUtcMs := t1; outUtcMs := Some t2 |}])
  /\ (d1 <> d2 ->
      entries d1 = before d1 ++ [{| inUtcMs := t1; outUtcMs := None |}]
      /\ entries d2 = closeLast t2 (before d2)).
Proof.
  intros env u t1 t2 w.
  apply (X3_clock_round_session_entries env netUp t1 t2 1002 u w).
  - vm_compute. reflexivity.
  - vm_compute. discriminate.
Defined.

Lemma X4_commands_touch_one_user_witness :
  let w := worked envSunday in
  let w' := fst (runCommand envSunday netUp 1001 (DoIn "1001", sat2259) w) in
  kOpen (store w') !! "1002" = kOpen (store w) !! "1002"
  /\ (forall d, kDay (store w') !! ("1002", d) = kDay (store w) !! ("1002", d))
  /\ kMeta (store w') = kMeta (store w)
  /\ kCfg (store w') = kCfg (store w)
  /\ kLock (store w') = kLock (store w).
Proof.
  intros w.
  apply (X4_commands_touch_one_user envSunday netUp sat2259 1001 "1002" w (DoIn "1001")).
  vm_compute. discriminate.
Defined.

Lemma X5_ledger_rows_well_formed_witness :
  0 <= Db.seq tuesdayDb /\ ledgerOk tzManila tuesdayDb.
Proof.
  apply (X5_ledger_rows_well_formed tzManila tuesdayDb).
  exact tuesdayDb_reachable.
Defined.

Lemma X6_clock_round_rows_witness :
  let tz := tzManila in
  let u := 1002 in
  let t1 := mon0800 / 1000 + 86400 in
  let t2 := t1 + 7200 in
  let db := tuesdayDb in
  let r1 := Db.clockIn tz u t1 db in
  let r2 := Db.clockOut tz u t2 (fst r1) in
  (u ∈ Db.users db ->
     snd r1 = Returned {| Db.ok := true; Db.message := Db.ClockedInAt (Db.formatHHmm tz t1) |}
     /\ r2 = ({| Db.users := Db.users db;
                 Db.shifts := Db.shifts db
                   ++ [{| Db.id := Db.seq db + 1; Db.user_id := u; Db.start_ts := t1;
                          Db.end_ts := Some t2; Db.day_key := Db.dayKey tz t1;
                          Db.week_key := Db.isoMonday tz t1 |}];
                 Db.seq := Db.seq db + 1 |},
              {| Db.ok := true;
                 Db.message := Db.ClockedOutAt (Db.formatHHmm tz t2) (Db.durationHours t1 t2) |})
     /\ Db.countOpenSessions (fst r2) u = 0%nat
     /\ (forall v q, v <> u \/ Db.dayKey tz q <> Db.dayKey tz t1 ->
           (Db.getTodayHours tz v q (fst r2) == Db.getTodayHours tz v q db)%Q)
     /\ (forall v q, v <> u \/ Db.isoMonday tz q <> Db.isoMonday tz t1 ->
           (fst (Db.getWeekHours tz v q (fst r2)) == fst (Db.getWeekHours tz v q db))%Q))
  /\ (u ∉ Db.users db ->
      r1 = (db, Thrown foreign_key_failed)
      /\ r2 = (db, {| Db.ok := false; Db.message := Db.NoActiveShift |})).
Proof.
  intros tz u t1 t2 db.
  apply (X6_clock_round_rows tz u t1 t2 db).
  - exact tuesdayDb_reachable.
  - vm_compute. reflexivity.
Defined.

Lemma X23_one_open_shift_witness :
  let tz := tzManila in
  let uid := 1001 in
  let v := 1002 in
  let nowTs := mon1630 / 1000 + 86400 in
  let db := tuesdayDb in
  let ops := [Db.OpClockIn 1001 nowTs; Db.OpClockOut 1001 nowTs; Db.OpClockOut 1001 nowTs] in
  Forall (fun d => (Db.countOpenSessions d uid <= 1)%nat) (Db.trace tz ops db)
  /\ (Db.countOpenSessions db uid = 0%nat -> uid ∈ Db.users db ->
      snd (Db.clockIn tz uid nowTs db)
        = Returned {| Db.ok := true; Db.message := Db.ClockedInAt (Db.formatHHmm tz nowTs) |}
      /\ Db.countOpenSessions (fst (Db.clockIn tz uid nowTs db)) uid = 1%nat
      /\ Db.getOpenShift (fst (Db.clockIn tz uid nowTs db)) uid
         = Some {| Db.id := Db.seq db + 1; Db.user_id := uid; Db.start_ts := nowTs;
                   Db.end_ts := None; Db.day_key := Db.dayKey tz nowTs;
                   Db.week_key := Db.isoMonday tz nowTs |})
  /\ (Db.countOpenSessions db uid = 1%nat ->
      (exists o, Db.getOpenShift db uid = Some o
         /\ snd (Db.clockOut tz uid nowTs db)
            = {| Db.ok := true;
                 Db.message := Db.ClockedOutAt (Db.formatHHmm tz nowTs)
                                 (Db.durationHours (Db.start_ts o) nowTs) |})
      /\ Db.countOpenSessions (fst (Db.clockOut tz uid nowTs db)) uid = 0%nat)
  /\ (v <> uid ->
      Db.countOpenSessions (fst (Db.clockIn tz uid nowTs db)) v = Db.countOpenSessions db v
      /\ Db.countOpenSessions (fst (Db.clockOut tz uid nowTs db)) v = Db.countOpenSessions db v).
Proof.
  intros tz uid v nowTs db ops.
  apply (X23_one_open_shift tz uid v nowTs db ops).
  exact tuesdayDb_reachable.
Defined.

Lemma X10_week_windows_witness :
  let env := envSunday in
  let t := sat2259 in
  let s := weekStartLocal env t in
  let ps := fst (prevLocalWeekWindow env t) in
  let pe := snd (prevLocalWeekWindow env t) in
  isWeekStart env s /\ inWindow s t /\ weekStartLocal env s = s
  /\ isWeekStart env ps /\ pe = ps + 7 * msPerDay /\ inWindow ps (t - 12 * msPerHour)
  /\ (s + 12 * msPerHour <= t -> ps = s)
  /\ (t < s + 12 * msPerHour -> ps = s - 7 * msPerDay).
Proof.
  intros env t.
  apply (X10_week_windows env t).
  vm_compute. split; discriminate.
Defined.

Lemma X11_day_key_names_one_day_witness :
  (dateKeyLocal envSunday sat2259 = dateKeyLocal envSunday sun2300 <-> Day sat2259 = Day sun2300)
  /\ (Db.dayKey tzManila 1762128000 = Db.dayKey tzManila 1762214400
      <-> Db.localDay tzManila 1762128000 = Db.localDay tzManila 1762214400).
Proof.
  apply (X11_day_key_names_one_day envSunday sat2259 sun2300 tzManila 1762128000 1762214400).
  - vm_compute. split; discriminate.
  - vm_compute. split; discriminate.
  - vm_compute. split; discriminate.
  - vm_compute. split; discriminate.
Defined.

Lemma X15_lock_expires_witness :
  let env := envSunday in
  let now1 := sun2300 in
  let now2 := sun2300 + lockTtlMs in
  let w := worked envSunday in
  let key := dateKeyLocal env (fst (prevLocalWeekWindow env (now1 + TZ_OFFSET_ms env))) in
  let w1 := fst (scheduled env netUp now1 w) in
  (forall t, lockHeld (store w1) key t = (t <? now1 + lockTtlMs))
  /\ scheduled env netUp now2 w1
     = (fst (runWeekly env netUp now2
               (on_store (with_kLock (insert key (now2 + lockTtlMs))) w1)),
        Returned tt).
Proof.
  intros env now1 now2 w.
  apply (X15_lock_expires env netUp now1 now2 w).
  - vm_compute. reflexivity.
  - vm_compute. discriminate.
  - vm_compute. reflexivity.
Defined.

Lemma X18_week_query_matches_rollover_witness :
  let env := envSunday in
  let w := worked envSunday in
  weekTotal env sat2259 "1002" w
  = (w, Returned (fst (weekReport env (store w) "1002" sun2300 sun0 (sun0 + 7 * msPerDay)))).
Proof.
  intros env w.
  apply (X18_week_query_matches_rollover env sat2259 sun2300 sun0 "1002" w).
  - vm_compute. tauto.
  - vm_compute. discriminate.
  - vm_compute. split; [discriminate | reflexivity].
  - vm_compute. reflexivity.
Defined.

Lemma X19_reset_week_counts_zero_witness :
  let env := envSunday in
  let w' := fst (deleteWeekRange env "1002" sun0 (sun0 + 7 * msPerDay) (worked envSunday)) in
  fst (weekReport env (store w') "1002" sun2300 sun0 (sun0 + 7 * msPerDay)) = 0
  /\ weekTotal env sat2259 "1002" w' = (w', Returned 0)
  /\ todayTotal env sat2259 "1002" w' = (w', Returned 0).
Proof.
  intros env.
  apply (X19_reset_week_counts_zero env sat2259 sun2300 sun0 "1002" (worked envSunday)).
  - vm_compute. tauto.
  - vm_compute. discriminate.
  - vm_compute. split; [discriminate | reflexivity].
Defined.

Lemma X20_rollover_resets_registered_users_witness :
  let env := envSunday in
  let w := worked envSunday in
  let s := fst (prevLocalWeekWindow env (sun2300 + TZ_OFFSET_ms env)) in
  let w' := fst (runWeekly env netUp sun2300 w) in
  snd (runWeekly env netUp sun2300 w) = Returned tt
  /\ length (outbox w') = (length (outbox w) + 2 * registeredChats (store w))%nat
  /\ (forall u, chatsOf (store w) u <> [] ->
        kOpen (store w') !! u = None
        /\ closedWeek env (store w') u s = 0
        /\ fst (weekReport env (store w') u sun2300 s (s + 7 * msPerDay)) = 0).
Proof.
  intros env w.
  apply (X20_rollover_resets_registered_users env netUp sun2300 sun2300 w).
  intros c p. unfold netUp. discriminate.
Defined.

Lemma X22_rate_change_prices_own_reports_witness :
  let env := envSunday in
  let w := worked envSunday in
  let r := 4%Q in
  let w1 := fst (setUserRate env "1001" (Num r) w) in
  let total := sumZ (snd <$> weekDayTotals env (store w) sat2259 "1001") in
  snd (setUserRate env "1001" (Num r) w) = Returned (Num r)
  /\ cmdPay env netUp sat2259 1001 "1001" w1
     = sendMessage netUp 1001
         (WeekTotal (fmtHM total) (minutes total) r (dollarsFromMs total r)) w1
  /\ ("1002" <> "1001" -> snd (userRate env "1002" w1) = snd (userRate env "1002" w))
  /\ kOpen (store w1) = kOpen (store w) /\ kDay (store w1) = kDay (store w)
  /\ kMeta (store w1) = kMeta (store w) /\ kLock (store w1) = kLock (store w)
  /\ outbox w1 = outbox w.
Proof.
  intros env w r.
  apply (X22_rate_change_prices_own_reports env netUp sat2259 1001 "1001" "1002" r w).
  - reflexivity.
  - reflexivity.
Defined.

End FurtherScenario.
Section FurtherLedgerScenario.
Import Db Spec Scenario.

Lemma X7_reset_round_trip_witness :
  let tz : Z := tzManila in
  let u : Z := 1001 in
  let v : Z := 1002 in
  let nowTs : Z := (mon1630 / 1000) in
  let q : Z := (mon1630 / 1000) in
  let db : DB := workedDb in
  let dw := resetWeek tz u nowTs db in
  let dd := resetDay tz u nowTs db in
  getWeekHours tz u nowTs (fst dw) = (0%Q, isoMonday tz nowTs)
  /\ getTodayHours tz u nowTs (fst dd) = 0%Q
  /\ Z.of_nat (length (shifts db)) = Z.of_nat (length (shifts (fst dw))) + snd dw
  /\ Z.of_nat (length (shifts db)) = Z.of_nat (length (shifts (fst dd))) + snd dd
  /\ (v <> u ->
      getWeekHours tz v q (fst dw) = getWeekHours tz v q db
      /\ getTodayHours tz v q (fst dw) = getTodayHours tz v q db
      /\ getWeekHours tz v q (fst dd) = getWeekHours tz v q db
      /\ getTodayHours tz v q (fst dd) = getTodayHours tz v q db).
Proof.
  intros tz u v nowTs q db.
  exact (X7_reset_round_trip tz u v nowTs q db).
Defined.

Lemma X8_export_lines_witness :
  let tz : Z := tzManila in
  let u : Z := 1001 in
  let nowTs : Z := (mon1630 / 1000) in
  let db : DB := workedDb in
  let week := fst (exportWeekCSV tz u nowTs db) in
  let rows := snd (exportWeekCSV tz u nowTs db) in
  week = isoMonday tz nowTs
  /\ csv_id <$> rows
     ≡ₚ id <$> filter (fun r => user_id r = u /\ week_key r = week) (shifts db)
  /\ Sorted Z.le (csv_start <$> rows)
  /\ Forall (fun r => (0 <= csv_hours r)%Q) rows
  /\ Forall (fun r => csv_end r = None -> csv_hours r = 0%Q) rows.
Proof.
  intros tz u nowTs db.
  exact (X8_export_lines tz u nowTs db).
Defined.

End FurtherLedgerScenario.

Section FurtherWorkerScenario.
Import JsDate Worker Spec Scenario.

Lemma X9_fmtHM_agrees_with_minutes_witness :
  let ms : Z := 59999 in
  fmtHM ms = pretty (minutes ms / 60) +:+ "h " +:+ pretty (minutes ms mod 60) +:+ "m"
  /\ 0 <= minutes ms mod 60 < 60
  /\ 0 <= minutes ms
  /\ (ms < 60000 -> fmtHM ms = "0h 0m" /\ minutes ms = 0).
Proof.
  intros ms.
  exact (X9_fmtHM_agrees_with_minutes ms).
Defined.

Lemma X12_chat_registration_witness :
  let u : string := "1001" in
  let v : string := "1002" in
  let c : Z := 77 in
  let w : World := (worked envSunday) in
  let w' := fst (ensureUserChat u c w) in
  c ∈ chatsOf (store w') u
  /\ u ∈ listedUsers (store w')
  /\ chatsOf (store w) u `prefix_of` chatsOf (store w') u
  /\ (NoDup (chatsOf (store w) u) -> NoDup (chatsOf (store w') u))
  /\ ensureUserChat u c w' = (w', Returned tt)
  /\ (v <> u -> chatsOf (store w') v = chatsOf (store w) v)
  /\ kOpen (store w') = kOpen (store w) /\ kDay (store w') = kDay (store w)
  /\ kCfg (store w') = kCfg (store w) /\ kLock (store w') = kLock (store w)
  /\ outbox w' = outbox w.
Proof.
  intros u v c w.
  exact (X12_chat_registration u v c w).
Defined.

Lemma X13_close_last_entry_witness :
  let utcMs : Z := sun2300 in
  let l : list Session := [{| inUtcMs := mon0800; outUtcMs := None |}; {| inUtcMs := mon1630; outUtcMs := None |}; {| inUtcMs := sat2259; outUtcMs := Some sun2300 |}] in
  (forall l1 s l2, l = l1 ++ s :: l2 -> isRunning s -> filter isRunning l2 = [] ->
     closeLast utcMs l = l1 ++ {| inUtcMs := inUtcMs s; outUtcMs := Some utcMs |} :: l2)
  /\ (filter isRunning l = [] -> closeLast utcMs l = l)
  /\ length (closeLast utcMs l) = length l
  /\ inUtcMs <$> closeLast utcMs l = inUtcMs <$> l
  /\ length (filter isRunning (closeLast utcMs l)) = pred (length (filter isRunning l)).
Proof.
  intros utcMs l.
  exact (X13_close_last_entry utcMs l).
Defined.

Lemma X14_cron_job_of_the_driver_witness :
  let tz : Z := tzManila in
  let now : Z := (sun2300 / 1000) in
  let tg : Bot.Telegram := (fun _ _ => true) in
  let b : Bot.World := {| Bot.db := workedDb; Bot.outbox := []; Bot.console := [] |} in
  let r := Bot.cronWeekly tz tg now b in
  snd r = Returned tt
  /\ Bot.db (fst r) = Bot.db b
  /\ (exists line, Bot.console (fst r) = Bot.console b ++ [line])
  /\ ((forall c p, tg c p = true) ->
      Bot.console (fst r) = Bot.console b ++ [Bot.LogSent]
      /\ Bot.outbox (fst r)
         = Bot.outbox b ++ (Db.users (Bot.db b) ≫= cronCalls tz now (Bot.db b))).
Proof.
  intros tz now tg b.
  exact (X14_cron_job_of_the_driver tz now tg b).
Defined.

Lemma X16_manual_route_needs_the_secret_witness :
  let env : Env := envSunday in
  let net : Net := netUp in
  let now : Z := sun2300 in
  let secret : option string := (Some "s3cret") in
  let w : World := (worked envSunday) in
  let r := fetchAdminRunWeekly env net now secret w in
  (authorized env secret ->
     fst r = fst (runWeekly env net now w)
     /\ (snd (runWeekly env net now w) = Returned tt -> snd r = Returned (Resp 200 "weekly ok")))
  /\ (~ authorized env secret -> r = (w, Returned (Resp 401 "unauthorized")))
  /\ (ADMIN_SECRET env = EmptyString -> r = (w, Returned (Resp 401 "unauthorized"))).
Proof.
  intros env net now secret w.
  exact (X16_manual_route_needs_the_secret env net now secret w).
Defined.

Lemma X21_queries_leave_ledger_witness :
  let env : Env := envSunday in
  let net : Net := netUp in
  let now : Z := sat2259 in
  let chat : Z := 1001 in
  let u : string := "1001" in
  let w : World := (worked envSunday) in
  let total := sumZ (snd <$> weekDayTotals env (store w) now u) in
  (exists r lines,
     reportRate env u w = (w, Returned r)
     /\ length lines = 7%nat
     /\ cmdPay env net now chat u w
        = sendMessage net chat
            (WeekTotal (fmtHM total) (minutes total) r (dollarsFromMs total r)) w
     /\ cmdWeek env net now chat u w
        = sendMessage net chat
            (ThisWeek (fmtHM total) (minutes total) r (dollarsFromMs total r) lines) w)
  /\ Forall (fun c : M World unit =>
       store (fst (c w)) = store w
       /\ (snd (c w) = Returned tt ->
           exists call, outbox (fst (c w)) = outbox w ++ [call] /\ to call = chat)
       /\ (forall e, snd (c w) = Thrown e -> outbox (fst (c w)) = outbox w))
     [cmdToday env net now chat u; cmdWeek env net now chat u; cmdPay env net now chat u].
Proof.
  intros env net now chat u w.
  exact (X21_queries_leave_ledger env net now chat u w).
Defined.

Lemma X24_marker_step_witness :
  let env : Env := envSunday in
  let net : Net := netUp in
  let now : Z := sat2259 in
  let chat : Z := 1003 in
  let u : string := "1003" in
  let w : World := (worked envSunday) in
  (openStart (kOpen (store w) !! u) = None -> now <> 0 ->
     kOpen (store (fst (cmdIn env net now chat u w))) !! u = Some {| startUtcMs := now |}
     /\ countOpenSessions (store (fst (cmdIn env net now chat u w))) u = 1%nat
     /\ forall t, closedDay env (store (fst (cmdIn env net now chat u w))) u t
                  = closedDay env (store w) u t)
  /\ (forall st, openStart (kOpen (store w) !! u) = Some st ->
        kOpen (store (fst (cmdOut env net now chat u w))) !! u = None
        /\ countOpenSessions (store (fst (cmdOut env net now chat u w))) u = 0%nat
        /\ closedDay env (store (fst (cmdOut env net now chat u w))) u (now + TZ_OFFSET_ms env)
           = closedDay env (store w) u (now + TZ_OFFSET_ms env) + (now - st)).
Proof.
  intros env net now chat u w.
  exact (X24_marker_step env net now chat u w).
Defined.

End FurtherWorkerScenario.
